(** * Mattermost backend for Errbot: event normalisation, identity
      resolution and outbound chunking

    A shallow embedding of [plugins/errbot-mattermost-backend/mattermost.py]
    and the properties of its event dispatcher, its message handler, its
    identifier resolution and its message chunker.

    Layout: Part I holds the definitions (the Python values the code
    manipulates, the collaborators it calls, then the source functions in the
    order of the source file); Part II holds the lemmas and theorems. *)

From Stdlib Require Import String Ascii List ZArith Lia Bool Arith DecimalString.
Import ListNotations.
Open Scope string_scope.

#[local] Set Warnings "-register-all".


(* ================================================================== *)
(** * Part I: definitions *)
(* ================================================================== *)

(** ** Exceptions and results *)

(** The [Exception] subclasses the module raises or lets through.  The
    message carried by an exception is not modelled. *)
Inductive exn : Type :=
| KeyError
| TypeError
| ValueError
| AttributeError
| JSONDecodeError
| UserDoesNotExistError
| RoomDoesNotExistError
| InvalidOrMissingParameters
| NotEnoughPermissions
| ResourceNotFound
| PlainException
| OtherException (name : string).

Inductive Exc (A : Type) : Type :=
| Ok (a : A)
| Raise (e : exn).
Arguments Ok {A} a.
Arguments Raise {A} e.

(** ** Python text *)

Module Str.

(** [s.startswith(p)] *)
Fixpoint startswith (s p : string) {struct p} : bool :=
  match p with
  | EmptyString => true
  | String a p' =>
      match s with
      | EmptyString => false
      | String b s' => Ascii.eqb a b && startswith s' p'
      end
  end.

(** Scan of [s.count(sub)] for a non-empty [sub]: occurrences are counted
    from the left and do not overlap; [skip] is the number of characters
    still covered by the occurrence found last. *)
Fixpoint count_from (sub : string) (skip : nat) (s : string) : nat :=
  match s with
  | EmptyString => 0
  | String _ s' =>
      match skip with
      | S k => count_from sub k s'
      | O =>
          if startswith s sub
          then S (count_from sub (String.length sub - 1) s')
          else count_from sub 0 s'
      end
  end.

(** [s.count(sub)]; the empty [sub] occurs between any two characters. *)
Definition count (s sub : string) : nat :=
  match sub with
  | EmptyString => S (String.length s)
  | _ => count_from sub 0 s
  end.

(** [s[lo:hi]] for [0 <= lo <= hi]; the slice is cut at the end of [s]. *)
Definition slice (s : string) (lo hi : Z) : string :=
  substring (Z.to_nat lo) (Z.to_nat (hi - lo)) s.

Definition len (s : string) : Z := Z.of_nat (String.length s).

End Str.

(** [list(range(start, stop, step))] *)
Definition py_range (start stop step : Z) : Exc (list Z) :=
  if (step =? 0)%Z then Raise ValueError
  else
    let n :=
      if (0 <? step)%Z
      then (if (start <? stop)%Z then (stop - start - 1) / step + 1 else 0)%Z
      else (if (stop <? start)%Z then (start - stop - 1) / (- step) + 1 else 0)%Z in
    Ok (map (fun k => (start + Z.of_nat k * step)%Z) (seq 0 (Z.to_nat n))).

(** ** errbot.utils *)

Module Errbot.

(** [errbot.utils.split_string_after], the generator the module imports
    (line 11), as errbot defines it:
[[
    for start in range(0, max(len(str_), 1), n):
        yield str_[start:start + n]
]]
    run to its end, as [list(...)] does.  errbot is a dependency, its code
    is not part of this repository: the chunker below takes its splitter as
    a parameter, and this definition is the instance it is run on. *)
Definition split_string_after (str_ : string) (n : Z) : Exc (list string) :=
  match py_range 0 (Z.max (Str.len str_) 1) n with
  | Raise e => Raise e
  | Ok starts => Ok (map (fun start => Str.slice str_ start (start + n)) starts)
  end.

End Errbot.

(** ** mattermost.py: outbound chunking *)

Definition MATTERMOST_MESSAGE_LIMIT : Z := 3994.

Definition fence : string := "```".

Definition nl : string := String "010" "".

(** The text that closes a fixed block: a newline, the marker, a newline. *)
Definition closing : string := nl ++ "```" ++ nl.

(** Lines 471-473 (and 461-462): close an open fixed block. *)
Definition close_fence (part : string) : string :=
  if Nat.eqb (Str.count part fence mod 2) 0 then part
  else part ++ closing.

(** Lines 464-473: the body of the loop over [enumerate(parts)]. *)
Definition fix_part (fixed_format : bool) (part : string) : string :=
  let starts_with_code := Str.startswith part fence in
  let part_i :=
    if fixed_format && negb starts_with_code
    then "```" ++ nl ++ part
    else part in
  close_fence part_i.

Section Outbound.

(** [split_string_after], imported from [errbot.utils]; [list(...)] runs
    it to its end. *)
Variable split_string_after : string -> Z -> Exc (list string).

(** [MattermostBackend.prepare_message_body] (lines 446-475). *)
Definition prepare_message_body (body : string) (size_limit : Z)
  : Exc (list string) :=
  let fixed_format := Str.startswith body fence in
  match split_string_after body size_limit with
  | Raise e => Raise e
  | Ok parts =>
      match parts with
      | [part0] => Ok [close_fence part0]
      | _ => Ok (map (fix_part fixed_format) parts)
      end
  end.

End Outbound.

(** ** Python values *)

(** A float is kept as the decimal it was written as, [m * 10^e]; rounding
    to binary64 is not modelled. *)
Inductive pyfloat : Type :=
| FDec (m e : Z)
| FInf (negative : bool)
| FNaN.

(** The values [json.loads] produces, which are the values the event
    handlers and the platform client work on.  The keys of a [dict] are
    strings; a key is looked up from the left. *)
Inductive pyval : Type :=
| PNone
| PBool (b : bool)
| PInt (z : Z)
| PFloat (f : pyfloat)
| PStr (s : string)
| PList (l : list pyval)
| PDict (d : list (string * pyval)).

Module Py.

Fixpoint lookup (key : string) (d : list (string * pyval)) : option pyval :=
  match d with
  | [] => None
  | (k, v) :: d' => if String.eqb k key then Some v else lookup key d'
  end.

(** [sub in s] on text *)
Fixpoint str_contains (s sub : string) : bool :=
  Str.startswith s sub ||
  match s with
  | EmptyString => false
  | String _ s' => str_contains s' sub
  end.

(** [v == s] for a text [s] *)
Definition eq_str (v : pyval) (s : string) : bool :=
  match v with
  | PStr t => String.eqb t s
  | _ => false
  end.

(** [bool(v)] *)
Definition truthy (v : pyval) : bool :=
  match v with
  | PNone => false
  | PBool b => b
  | PInt z => negb (z =? 0)%Z
  | PFloat (FDec m _) => negb (m =? 0)%Z
  | PFloat _ => true
  | PStr s => negb (String.eqb s "")
  | PList l => match l with [] => false | _ => true end
  | PDict d => match d with [] => false | _ => true end
  end.

Definition is_none (v : pyval) : bool :=
  match v with PNone => true | _ => false end.

(** [v[key]] for a text [key] *)
Definition getitem (v : pyval) (key : string) : Exc pyval :=
  match v with
  | PDict d => match lookup key d with Some x => Ok x | None => Raise KeyError end
  | _ => Raise TypeError
  end.

(** [key in v] for a text [key] *)
Definition contains (key : string) (v : pyval) : Exc bool :=
  match v with
  | PDict d => Ok (match lookup key d with Some _ => true | None => false end)
  | PList l => Ok (existsb (fun x => eq_str x key) l)
  | PStr s => Ok (str_contains s key)
  | _ => Raise TypeError
  end.

(** The values [for x in v] runs through *)
Definition iter (v : pyval) : Exc (list pyval) :=
  match v with
  | PList l => Ok l
  | PDict d => Ok (map (fun kv => PStr (fst kv)) d)
  | PStr s => Ok (map (fun c => PStr (String c "")) (list_ascii_of_string s))
  | _ => Raise TypeError
  end.

(** [hash(v)] is defined *)
Definition hashable (v : pyval) : bool :=
  match v with
  | PList _ | PDict _ => false
  | _ => true
  end.

(** The number a hashable value compares as, [m * 10^e] *)
Definition numeric (v : pyval) : option (Z * Z) :=
  match v with
  | PBool b => Some (if b then 1%Z else 0%Z, 0%Z)
  | PInt z => Some (z, 0%Z)
  | PFloat (FDec m e) => Some (m, e)
  | _ => None
  end.

(** [a == b] on hashable values, as a cache or dict compares keys *)
Definition key_eqb (a b : pyval) : bool :=
  match numeric a, numeric b with
  | Some (m1, e1), Some (m2, e2) =>
      let e := Z.min e1 e2 in
      (m1 * 10 ^ (e1 - e) =? m2 * 10 ^ (e2 - e))%Z
  | _, _ =>
      match a, b with
      | PNone, PNone => true
      | PStr s, PStr t => String.eqb s t
      | PFloat (FInf x), PFloat (FInf y) => Bool.eqb x y
      | _, _ => false
      end
  end.

(** [format(v, 's')], the conversion behind a ['{name:s}'] field *)
Definition format_s (v : pyval) : Exc string :=
  match v with
  | PStr s => Ok s
  | PBool _ | PInt _ | PFloat _ => Raise ValueError
  | _ => Raise TypeError
  end.

(** [str.isspace] on a character below U+0100 *)
Definition isspace (c : ascii) : bool :=
  let n := nat_of_ascii c in
  ((9 <=? n)%nat && (n <=? 13)%nat) || ((28 <=? n)%nat && (n <=? 32)%nat)
  || (n =? 133)%nat || (n =? 160)%nat.

Fixpoint lstrip_by (p : ascii -> bool) (s : string) : string :=
  match s with
  | EmptyString => EmptyString
  | String c s' => if p c then lstrip_by p s' else s
  end.

Fixpoint rstrip_by (p : ascii -> bool) (s : string) : string :=
  match s with
  | EmptyString => EmptyString
  | String c s' =>
      match rstrip_by p s' with
      | EmptyString => if p c then EmptyString else String c EmptyString
      | r => String c r
      end
  end.

(** [s.strip()] *)
Definition strip (s : string) : string :=
  rstrip_by isspace (lstrip_by isspace s).

(** [s.lstrip(chars)] for a one-character [chars] *)
Definition lstrip (s : string) (c : ascii) : string :=
  lstrip_by (Ascii.eqb c) s.

(** [s[1:]] *)
Definition tail (s : string) : string :=
  match s with
  | EmptyString => EmptyString
  | String _ s' => s'
  end.

(** [str(n)] for an integer *)
Definition str_of_int (n : Z) : string :=
  NilZero.string_of_int (Z.to_int n).

End Py.

(** ** Identifiers, messages, presence *)

Module MattermostPerson.
(** [MattermostPerson.__init__(driver, userid=None, channelid=None,
    teamid=None)] stores its arguments (lines 33-37). *)
Record t : Type := init { userid : pyval; channelid : pyval; teamid : pyval }.
End MattermostPerson.

Module MattermostRoom.
(** The fields [_name], [_id] and [_teamid] of a [MattermostRoom]; [_id]
    is [None] until the id is resolved. *)
Record t : Type := make { _name : pyval; _id : pyval; _teamid : pyval }.
End MattermostRoom.

Module MattermostRoomOccupant.
Record t : Type := make { person : MattermostPerson.t; room : MattermostRoom.t }.
End MattermostRoomOccupant.

Inductive Identifier : Type :=
| IsPerson (p : MattermostPerson.t)
| IsRoomOccupant (o : MattermostRoomOccupant.t)
| IsRoom (r : MattermostRoom.t).

(** An [errbot] [Message]: [frm] and [to] are [None] until they are set;
    [extras] holds the keys the backend writes. *)
Record Message : Type := {
  body : pyval;
  extras_mattermost_event : pyval;
  extras_url : string;
  extras_attachments : option pyval;
  frm : option Identifier;
  to : option Identifier
}.

(** [msg.extras['attachments'] = file_ids] *)
Definition set_attachments (msg : Message) (file_ids : pyval) : Message :=
  {| body := body msg; extras_mattermost_event := extras_mattermost_event msg;
     extras_url := extras_url msg; extras_attachments := Some file_ids;
     frm := frm msg; to := to msg |}.

(** [msg.frm = f; msg.to = t] *)
Definition set_frm_to (msg : Message) (f t : Identifier) : Message :=
  {| body := body msg; extras_mattermost_event := extras_mattermost_event msg;
     extras_url := extras_url msg; extras_attachments := extras_attachments msg;
     frm := Some f; to := Some t |}.

Inductive status_t : Type := ONLINE | AWAY.

Record Presence : Type := { identifier : MattermostPerson.t; status : status_t }.

(** ** The world the backend runs in *)

(** The calls the module makes on the platform client
    ([self.driver.api[...]]). *)
Inductive request : Type :=
| get_user_by_username (username : string)
| create_direct_message_channel (userid : string) (other_user_id : pyval)
| get_channel (channel_id : pyval)
| get_channel_by_name (team_id : string) (channel_name : string).

Inductive level : Type := DEBUG | INFO | WARNING | ERROR | EXCEPTION.

(** What the backend does that the outside sees: log records (the format
    string and its arguments) and the callbacks into the bot framework. *)
Inductive event : Type :=
| Log (lvl : level) (fmt : string) (args : list pyval)
| CallbackMessage (msg : Message)
| CallbackMention (msg : Message) (mentions : list Identifier)
| CallbackPresence (p : Presence)
| ConnectCallback
| CallbackRoomJoined
| CallbackRoomLeft.

Definition is_callback (ev : event) : bool :=
  match ev with
  | Log _ _ _ => false
  | _ => true
  end.

(** The callbacks among the events of a trace, in order. *)
Definition callbacks (tr : list event) : list event := filter is_callback tr.

(** The state that changes while the backend runs: the calls made on the
    platform so far, the cache that [lru_cache] keeps for
    [get_direct_channel] (most recently used first), and the trace. *)
Record World : Type := {
  calls : list request;
  direct_channels : list ((string * pyval) * pyval);
  trace : list event
}.

(** The [MattermostBackend] object as the handlers read it.  [api] is the
    platform: what a call answers may depend on the calls made before it.
    [errbot] is the framework behind the callbacks: [Some e] when the
    callback raises [e]. *)
Record MattermostBackend : Type := {
  team : string;
  teamid : string;
  bot_userid : string;
  options_scheme : string;
  options_url : string;
  options_port : Z;
  api : list request -> request -> Exc pyval;
  errbot : event -> option exn
}.

(** [self.bot_identifier], built in [serve_once] (line 390). *)
Definition bot_identifier (self : MattermostBackend) : MattermostPerson.t :=
  MattermostPerson.init (PStr (bot_userid self)) PNone (PStr (teamid self)).

(** ** Computations: state, exceptions and early [return] *)

Inductive outcome (A : Type) : Type :=
| Val (a : A)
| Exn (e : exn)
| Return.
Arguments Val {A} a.
Arguments Exn {A} e.
Arguments Return {A}.

Definition M (A : Type) : Type := World -> outcome A * World.

Definition ret {A} (a : A) : M A := fun w => (Val a, w).

Definition bind {A B} (m : M A) (k : A -> M B) : M B :=
  fun w =>
    match m w with
    | (Val a, w') => k a w'
    | (Exn e, w') => (Exn e, w')
    | (Return, w') => (Return, w')
    end.

Notation "x <- m ;; k" := (bind m (fun x => k))
  (at level 61, m at next level, right associativity).
Notation "m ;;; k" := (bind m (fun _ => k))
  (at level 61, right associativity).

Definition raise {A} (e : exn) : M A := fun w => (Exn e, w).

(** A bare [return] in a function that returns nothing. *)
Definition return_ {A} : M A := fun w => (Return, w).

(** The boundary of a [def] whose [return]s carry no value. *)
Definition def_ (m : M unit) : M unit :=
  fun w =>
    match m w with
    | (Return, w') => (Val tt, w')
    | r => r
    end.

Definition lift {A} (r : Exc A) : M A :=
  fun w => (match r with Ok a => Val a | Raise e => Exn e end, w).

(** [try: m  except Exception: h] *)
Definition try_except {A} (m : M A) (h : exn -> M A) : M A :=
  fun w =>
    match m w with
    | (Exn e, w') => h e w'
    | r => r
    end.

Definition when (c : bool) (m : M unit) : M unit := if c then m else ret tt.

Definition log (lvl : level) (fmt : string) (args : list pyval) : M unit :=
  fun w => (Val tt, {| calls := calls w; direct_channels := direct_channels w;
                       trace := trace w ++ [Log lvl fmt args] |}).

(** A callback into the framework: it is recorded, and it returns or raises
    as the framework decides. *)
Definition callback (self : MattermostBackend) (ev : event) : M unit :=
  fun w => (match errbot self ev with Some e => Exn e | None => Val tt end,
            {| calls := calls w; direct_channels := direct_channels w;
               trace := trace w ++ [ev] |}).

(** A call on the platform client. *)
Definition call (self : MattermostBackend) (req : request) : M pyval :=
  fun w => (match api self (calls w) req with Ok v => Val v | Raise e => Exn e end,
            {| calls := calls w ++ [req]; direct_channels := direct_channels w;
               trace := trace w |}).

(** [quiet m]: whatever [m] does, it fires no callback. *)
Definition quiet {A} (m : M A) : Prop :=
  forall w r w', m w = (r, w') -> callbacks (trace w') = callbacks (trace w).

(** ** functools.lru_cache *)

Module Lru.

Definition key : Type := (string * pyval)%type.
Definition cache : Type := list (key * pyval).

Definition key_eqb (a b : key) : bool :=
  String.eqb (fst a) (fst b) && Py.key_eqb (snd a) (snd b).

Fixpoint find (k : key) (c : cache) : option (key * pyval) :=
  match c with
  | [] => None
  | (k', v) :: c' => if key_eqb k' k then Some (k', v) else find k c'
  end.

Fixpoint remove (k : key) (c : cache) : cache :=
  match c with
  | [] => []
  | (k', v) :: c' => if key_eqb k' k then c' else (k', v) :: remove k c'
  end.

Definition get_cache : M cache := fun w => (Val (direct_channels w), w).

Definition set_cache (c : cache) : M unit :=
  fun w => (Val tt, {| calls := calls w; direct_channels := c; trace := trace w |}).

(** [@lru_cache(maxsize)] around a method of two arguments, on the cache
    held in the world.  The key is [(userid, other_user_id)]: the backend
    itself, which Python puts in the key as well, is the same at every call.  A hit moves
    the entry to the front and does not run [f]; a miss runs [f] and, when
    [f] returns, stores the result at the front and drops what lies beyond
    [maxsize].  An exception of [f] is not stored. *)
Definition lru_cache (maxsize : nat) (f : string -> pyval -> M pyval)
  (userid : string) (other_user_id : pyval) : M pyval :=
  if negb (Py.hashable other_user_id) then raise TypeError
  else
    let k := (userid, other_user_id) in
    c <- get_cache ;;
    match find k c with
    | Some (k', v) =>
        set_cache ((k', v) :: remove k c) ;;;
        ret v
    | None =>
        v <- f userid other_user_id ;;
        c' <- get_cache ;;
        set_cache (firstn maxsize ((k, v) :: c')) ;;;
        ret v
    end.

End Lru.

(** ** mattermost.py: identity resolution *)

(** [self.userid] (lines 149-151) *)
Definition userid (self : MattermostBackend) : string := bot_userid self.

(** [username_to_userid] (lines 157-163) *)
Definition username_to_userid (self : MattermostBackend) (name : string) : M pyval :=
  let name := Py.lstrip name "@" in
  user <- call self (get_user_by_username name) ;;
  if Py.is_none user then raise UserDoesNotExistError
  else lift (Py.getitem user "id").

(** The body of [get_direct_channel] (lines 321-326) *)
Definition get_direct_channel_body (self : MattermostBackend)
  (userid : string) (other_user_id : pyval) : M pyval :=
  try_except
    (call self (create_direct_message_channel userid other_user_id))
    (fun e =>
       match e with
       | InvalidOrMissingParameters | NotEnoughPermissions =>
           raise RoomDoesNotExistError
       | _ => raise e
       end).

(** [get_direct_channel] (lines 315-326) *)
Definition get_direct_channel (self : MattermostBackend)
  : string -> pyval -> M pyval :=
  Lru.lru_cache 1024 (get_direct_channel_body self).

(** [channelid_to_channelname] (lines 536-543) *)
Definition channelid_to_channelname (self : MattermostBackend)
  (channelid : pyval) : M pyval :=
  channel <- call self (get_channel channelid) ;;
  has_name <- lift (Py.contains "name" channel) ;;
  if negb has_name then raise RoomDoesNotExistError
  else lift (Py.getitem channel "name").

(** [channelname_to_channelid] (lines 545-552) *)
Definition channelname_to_channelid (self : MattermostBackend)
  (name : string) : M pyval :=
  channel <- call self (get_channel_by_name (teamid self) name) ;;
  has_id <- lift (Py.contains "id" channel) ;;
  if negb has_id then raise RoomDoesNotExistError
  else lift (Py.getitem channel "id").

(** [MattermostRoom.__init__(name=None, channelid=None, teamid=None,
    bot=None)] (lines 559-576).  An argument left out is [None]. *)
Definition MattermostRoom_init (name channelid teamid : pyval)
  (bot : option MattermostBackend) : M MattermostRoom.t :=
  if negb (Py.is_none channelid) && negb (Py.is_none name)
  then raise ValueError
  else if Py.is_none teamid
  then raise ValueError
  else
    _name <- (if negb (Py.is_none name)
              then match name with
                   | PStr s =>
                       if Str.startswith s "~" then ret (PStr (Py.tail s))
                       else ret name
                   | _ => raise AttributeError
                   end
              else match bot with
                   | Some b => channelid_to_channelname b channelid
                   | None => raise AttributeError
                   end) ;;
    match bot with
    | Some _ => ret (MattermostRoom.make _name channelid teamid)
    | None => raise AttributeError
    end.

(** [MattermostRoomOccupant.__init__(client, teamid, userid, channelid, bot)]
    (lines 108-111) *)
Definition MattermostRoomOccupant_init (teamid userid channelid : pyval)
  (bot : option MattermostBackend) : M MattermostRoomOccupant.t :=
  _room <- MattermostRoom_init PNone channelid teamid bot ;;
  ret (MattermostRoomOccupant.make
         (MattermostPerson.init userid channelid teamid) _room).

(** [build_identifier] (lines 328-362) *)
Definition build_identifier (self : MattermostBackend) (txtrep : pyval)
  : M Identifier :=
  match txtrep with
  | PStr s =>
      let txtrep := Py.strip s in
      if Str.startswith txtrep "~" then
        channelid <- channelname_to_channelid self (Py.tail txtrep) ;;
        if negb (Py.is_none channelid) then
          r <- MattermostRoom_init PNone channelid (PStr (teamid self)) (Some self) ;;
          ret (IsRoom r)
        else raise PlainException
      else
        userid_ <- (if Str.startswith txtrep "@"
                    then username_to_userid self (Py.tail txtrep)
                    else ret (PStr txtrep)) ;;
        if negb (Py.is_none userid_) then
          channel <- get_direct_channel self (userid self) userid_ ;;
          channelid <- lift (Py.getitem channel "id") ;;
          ret (IsPerson (MattermostPerson.init userid_ channelid (PStr (teamid self))))
        else raise PlainException
  | _ => raise AttributeError
  end.

(** [mentions_build_identifier] (lines 364-371), the loop over a list of
    mentions already drawn from the iterable. *)
Fixpoint mentions_loop (self : MattermostBackend) (mentions : list pyval)
  : M (list Identifier) :=
  match mentions with
  | [] => ret []
  | mention :: rest =>
      head <- (if negb (Py.eq_str mention (bot_userid self))
               then i <- build_identifier self mention ;; ret [i]
               else ret []) ;;
      tail <- mentions_loop self rest ;;
      ret (head ++ tail)%list
  end.

Definition mentions_build_identifier (self : MattermostBackend)
  (mentions : pyval) : M (list Identifier) :=
  items <- lift (Py.iter mentions) ;;
  mentions_loop self items.

(** ** mattermost.py: event handlers *)

(** The local variables of [_message_event_handler] that are live at
    line 276. *)
Record locals : Type := {
  l_channel_type : pyval;
  l_channelid : pyval;
  l_channel : pyval;
  l_userid : pyval;
  l_msg : Message;
  l_mentions : list Identifier
}.

(** [_room_joined_event_handler] (lines 195-198) *)
Definition _room_joined_event_handler (self : MattermostBackend)
  (message : pyval) : M unit :=
  def_ (
    log DEBUG "User added to channel" [] ;;;
    data <- lift (Py.getitem message "data") ;;
    user_id <- lift (Py.getitem data "user_id") ;;
    when (Py.eq_str user_id (userid self)) (callback self CallbackRoomJoined)).

(** [_room_left_event_handler] (lines 200-203) *)
Definition _room_left_event_handler (self : MattermostBackend)
  (message : pyval) : M unit :=
  def_ (
    log DEBUG "User removed from channel" [] ;;;
    broadcast <- lift (Py.getitem message "broadcast") ;;
    user_id <- lift (Py.getitem broadcast "user_id") ;;
    when (Py.eq_str user_id (userid self)) (callback self CallbackRoomLeft)).

(** [_status_change_event_handler] (lines 295-308) *)
Definition _status_change_event_handler (self : MattermostBackend)
  (message : pyval) : M unit :=
  def_ (
    data <- lift (Py.getitem message "data") ;;
    user_id <- lift (Py.getitem data "user_id") ;;
    let idd := MattermostPerson.init user_id PNone PNone in
    data <- lift (Py.getitem message "data") ;;
    status <- lift (Py.getitem data "status") ;;
    status <- (if Py.eq_str status "online" then ret ONLINE
               else if Py.eq_str status "away" then ret AWAY
               else
                 log ERROR
                   "It appears the Mattermost API changed, I received an unknown status type %s"
                   [status] ;;;
                 ret ONLINE) ;;
    callback self (CallbackPresence {| identifier := idd; status := status |})).

(** [_hello_event_handler] (lines 310-313) *)
Definition _hello_event_handler (self : MattermostBackend)
  (message : pyval) : M unit :=
  def_ (
    callback self ConnectCallback ;;;
    callback self
      (CallbackPresence {| identifier := bot_identifier self; status := ONLINE |})).

(** Lines 276-293 of [_message_event_handler]: addressing, then the
    callbacks. *)
Definition _message_event_handler_addressing (self : MattermostBackend)
  (l : locals) : M unit :=
  let channel_type := l_channel_type l in
  let channelid := l_channelid l in
  let userid := l_userid l in
  msg <- (if Py.eq_str channel_type "D" then
            let f := MattermostPerson.init userid channelid (PStr (teamid self)) in
            let t := MattermostPerson.init (PStr (bot_userid self)) channelid
                       (PStr (teamid self)) in
            ret (set_frm_to (l_msg l) (IsPerson f) (IsPerson t))
          else if Py.eq_str channel_type "O" || Py.eq_str channel_type "P" then
            f <- MattermostRoomOccupant_init (PStr (teamid self)) userid channelid
                   (Some self) ;;
            t <- MattermostRoom_init (l_channel l) PNone (PStr (teamid self))
                   (Some self) ;;
            ret (set_frm_to (l_msg l) (IsRoomOccupant f) (IsRoom t))
          else
            log WARNING "Unknown channel type '{}'! Unable to handle {}."
              [channel_type; l_channel l] ;;;
            return_) ;;
  callback self (CallbackMessage msg) ;;;
  when (match l_mentions l with [] => false | _ => true end)
    (callback self (CallbackMention msg (l_mentions l))).

Section Handlers.

(** [json.loads] on a text, from the standard library. *)
Variable json_loads : string -> Exc pyval.

(** [json.loads(v)] on the value found in an event *)
Definition loads (v : pyval) : M pyval :=
  match v with
  | PStr s => lift (json_loads s)
  | _ => raise TypeError
  end.

(** Lines 206-273 of [_message_event_handler]: the fields of the event and
    the message built from them.  [data['team_id']] is read once. *)
Definition _message_event_handler_fields (self : MattermostBackend)
  (message : pyval) : M locals :=
  log DEBUG "%s" [message] ;;;
  data <- lift (Py.getitem message "data") ;;
  team_id <- lift (Py.getitem data "team_id") ;;
  when (negb (Py.eq_str team_id "") && negb (Py.eq_str team_id (teamid self)))
    (log INFO "Message came from another team ({}), ignoring..." [team_id] ;;;
     return_) ;;;
  broadcast <- lift (Py.getitem message "broadcast") ;;
  in_data <- lift (Py.contains "channel_id" data) ;;
  channelid <- (if in_data then lift (Py.getitem data "channel_id")
                else
                  in_broadcast <- lift (Py.contains "channel_id" broadcast) ;;
                  if in_broadcast then lift (Py.getitem broadcast "channel_id")
                  else
                    log ERROR "Couldn't find a channelid for event {}" [message] ;;;
                    return_) ;;
  channel_type <- lift (Py.getitem data "channel_type") ;;
  channel <- (if negb (Py.eq_str channel_type "D")
              then lift (Py.getitem data "channel_name")
              else ret channelid) ;;
  has_post <- lift (Py.contains "post" data) ;;
  post_vars <- (if has_post then
                  post_text <- lift (Py.getitem data "post") ;;
                  post <- loads post_text ;;
                  text <- lift (Py.getitem post "message") ;;
                  userid <- lift (Py.getitem post "user_id") ;;
                  has_files <- lift (Py.contains "file_ids" post) ;;
                  file_ids <- (if has_files then lift (Py.getitem post "file_ids")
                               else ret PNone) ;;
                  post_id <- lift (Py.getitem post "id") ;;
                  has_type <- lift (Py.contains "type" post) ;;
                  is_system <- (if has_type then
                                  ty <- lift (Py.getitem post "type") ;;
                                  ret (Py.eq_str ty "system_add_remove")
                                else ret false) ;;
                  when is_system
                    (log INFO "Ignoring message from System" [] ;;; return_) ;;;
                  ret (text, post_id, file_ids, userid)
                else ret (PStr "", PStr "", PNone, PNone)) ;;
  let '(text, post_id, file_ids, userid) := post_vars in
  has_user_id <- lift (Py.contains "user_id" data) ;;
  userid <- (if has_user_id then lift (Py.getitem data "user_id")
             else ret userid) ;;
  when (negb (Py.truthy userid))
    (log ERROR "No userid in event {}" [message] ;;; return_) ;;;
  has_mentions <- lift (Py.contains "mentions" data) ;;
  mentions <- (if has_mentions then
                 mentions_text <- lift (Py.getitem data "mentions") ;;
                 decoded <- loads mentions_text ;;
                 mentions_build_identifier self decoded
               else ret []) ;;
  postid <- lift (Py.format_s post_id) ;;
  let url := options_scheme self ++ "://" ++ options_url self ++ ":"
             ++ Py.str_of_int (options_port self) ++ "/" ++ team self
             ++ "/pl/" ++ postid in
  let msg := {| body := text; extras_mattermost_event := message;
                extras_url := url; extras_attachments := None;
                frm := None; to := None |} in
  let msg := if Py.truthy file_ids then set_attachments msg file_ids else msg in
  ret {| l_channel_type := channel_type; l_channelid := channelid;
         l_channel := channel; l_userid := userid; l_msg := msg;
         l_mentions := mentions |}.

(** [_message_event_handler] (lines 205-293) *)
Definition _message_event_handler (self : MattermostBackend)
  (message : pyval) : M unit :=
  def_ (
    l <- _message_event_handler_fields self message ;;
    _message_event_handler_addressing self l).

(** The dict [event_handlers] (lines 175-181) *)
Definition event_handlers (self : MattermostBackend)
  : list (string * (pyval -> M unit)) :=
  [ ("posted", _message_event_handler self);
    ("status_change", _status_change_event_handler self);
    ("hello", _hello_event_handler self);
    ("user_added", _room_joined_event_handler self);
    ("user_removed", _room_left_event_handler self) ].

Fixpoint assoc {A} (key : string) (d : list (string * A)) : option A :=
  match d with
  | [] => None
  | (k, v) :: d' => if String.eqb k key then Some v else assoc key d'
  end.

(** [event_handlers.get(event)]: the key is hashed first. *)
Definition event_handlers_get (self : MattermostBackend) (event : pyval)
  : Exc (option (pyval -> M unit)) :=
  if negb (Py.hashable event) then Raise TypeError
  else match event with
       | PStr kind => Ok (assoc kind (event_handlers self))
       | _ => Ok None
       end.

(** [mattermost_event_handler] (lines 165-193) *)
Definition mattermost_event_handler (self : MattermostBackend)
  (payload : string) : M unit :=
  def_ (
    when (String.eqb payload "") return_ ;;;
    payload <- lift (json_loads payload) ;;
    has_event <- lift (Py.contains "event" payload) ;;
    when (negb has_event)
      (log DEBUG "Message contains no event: {}" [payload] ;;; return_) ;;;
    event <- lift (Py.getitem payload "event") ;;
    event_handler <- lift (event_handlers_get self event) ;;
    match event_handler with
    | None =>
        log DEBUG "No event handler available for {}, ignoring." [event] ;;;
        return_
    | Some handler =>
        try_except (handler payload)
          (fun _ =>
             log EXCEPTION "{} event handler raised an exception" [event])
    end).

End Handlers.

(** ** A JSON decoder *)

(** A decoder to run the handlers on concrete payloads.  It follows the
    grammar [json.loads] accepts: objects (a repeated key keeps its first
    place and its last value), arrays, strings with their escapes, numbers,
    [true], [false], [null], [NaN], [Infinity] and [-Infinity], with
    whitespace between tokens.  Text is modelled over one-byte characters,
    so a [\uXXXX] escape above U+00FF is rejected here.  The theorems of
    Part II hold for any decoder; this one instantiates them. *)
Module Json.

Definition is_ws (c : ascii) : bool :=
  Ascii.eqb c " " || Ascii.eqb c "009" || Ascii.eqb c "010" || Ascii.eqb c "013".

Fixpoint skip_ws (s : string) : string :=
  match s with
  | String c s' => if is_ws c then skip_ws s' else s
  | EmptyString => s
  end.

Definition is_digit (c : ascii) : bool :=
  (48 <=? nat_of_ascii c)%nat && (nat_of_ascii c <=? 57)%nat.

Definition digit_val (c : ascii) : Z := Z.of_nat (nat_of_ascii c - 48).

Definition hex_val (c : ascii) : option nat :=
  let n := nat_of_ascii c in
  if ((48 <=? n) && (n <=? 57))%nat then Some (n - 48)%nat
  else if ((97 <=? n) && (n <=? 102))%nat then Some (n - 87)%nat
  else if ((65 <=? n) && (n <=? 70))%nat then Some (n - 55)%nat
  else None.

Definition unescape (c : ascii) : option ascii :=
  if Ascii.eqb c "034" then Some "034"%char
  else if Ascii.eqb c "\" then Some "\"%char
  else if Ascii.eqb c "/" then Some "/"%char
  else if Ascii.eqb c "b" then Some "008"%char
  else if Ascii.eqb c "f" then Some "012"%char
  else if Ascii.eqb c "n" then Some "010"%char
  else if Ascii.eqb c "r" then Some "013"%char
  else if Ascii.eqb c "t" then Some "009"%char
  else None.

(** The text of a string after its opening quote, and what follows the
    closing quote. *)
Fixpoint string_body (s : string) : option (string * string) :=
  match s with
  | EmptyString => None
  | String c s' =>
      if Ascii.eqb c "034" then Some (EmptyString, s')
      else if Ascii.eqb c "\" then
        match s' with
        | EmptyString => None
        | String e s'' =>
            if Ascii.eqb e "u" then
              match s'' with
              | String h1 (String h2 (String h3 (String h4 s4))) =>
                  match hex_val h1, hex_val h2, hex_val h3, hex_val h4 with
                  | Some 0%nat, Some 0%nat, Some a, Some b =>
                      match string_body s4 with
                      | Some (t, r) => Some (String (ascii_of_nat (16 * a + b)) t, r)
                      | None => None
                      end
                  | _, _, _, _ => None
                  end
              | _ => None
              end
            else
              match unescape e with
              | Some ch =>
                  match string_body s'' with
                  | Some (t, r) => Some (String ch t, r)
                  | None => None
                  end
              | None => None
              end
        end
      else if (nat_of_ascii c <? 32)%nat then None
      else
        match string_body s' with
        | Some (t, r) => Some (String c t, r)
        | None => None
        end
  end.

(** A run of digits: its value after [acc], its length, and the rest. *)
Fixpoint digits (s : string) (acc : Z) (n : Z) : Z * Z * string :=
  match s with
  | String c s' =>
      if is_digit c then digits s' (10 * acc + digit_val c)%Z (n + 1)%Z
      else (acc, n, s)
  | EmptyString => (acc, n, s)
  end.

Definition starts_with_digit (s : string) : bool :=
  match s with
  | String c _ => is_digit c
  | EmptyString => false
  end.

(** A number after its sign. *)
Definition unsigned_number (s : string) : option (pyval * string) :=
  match s with
  | String c s' =>
      if is_digit c then
        let '(i, _, r) :=
          if Ascii.eqb c "0" then (0%Z, 1%Z, s') else digits s 0%Z 0%Z in
        let '(m, k, r1, has_frac) :=
          match r with
          | String d r' =>
              if Ascii.eqb d "." && starts_with_digit r'
              then let '(m, k, r1) := digits r' i 0%Z in (m, k, r1, true)
              else (i, 0%Z, r, false)
          | EmptyString => (i, 0%Z, r, false)
          end in
        let '(e, r2, has_exp) :=
          match r1 with
          | String x r' =>
              if Ascii.eqb x "e" || Ascii.eqb x "E" then
                match r' with
                | String sg r'' =>
                    if (Ascii.eqb sg "+" || Ascii.eqb sg "-") && starts_with_digit r''
                    then let '(e, _, r2) := digits r'' 0%Z 0%Z in
                         (if Ascii.eqb sg "-" then (- e)%Z else e, r2, true)
                    else if is_digit sg
                    then let '(e, _, r2) := digits r' 0%Z 0%Z in (e, r2, true)
                    else (0%Z, r1, false)
                | EmptyString => (0%Z, r1, false)
                end
              else (0%Z, r1, false)
          | EmptyString => (0%Z, r1, false)
          end in
        if has_frac || has_exp then Some (PFloat (FDec m (e - k)), r2)
        else Some (PInt m, r2)
      else None
  | EmptyString => None
  end.

Definition negate (v : pyval) : pyval :=
  match v with
  | PInt z => PInt (- z)
  | PFloat (FDec m e) => PFloat (FDec (- m) e)
  | _ => v
  end.

(** [s] without the word [w] at its head *)
Fixpoint after (w s : string) : option string :=
  match w with
  | EmptyString => Some s
  | String a w' =>
      match s with
      | String b s' => if Ascii.eqb a b then after w' s' else None
      | EmptyString => None
      end
  end.

Definition literal (s : string) : option (pyval * string) :=
  match after "null" s with Some r => Some (PNone, r) | None =>
  match after "true" s with Some r => Some (PBool true, r) | None =>
  match after "false" s with Some r => Some (PBool false, r) | None =>
  match after "NaN" s with Some r => Some (PFloat FNaN, r) | None =>
  match after "Infinity" s with Some r => Some (PFloat (FInf false), r) | None =>
  match after "-Infinity" s with Some r => Some (PFloat (FInf true), r) | None =>
  match after "-" s with
  | Some r =>
      match unsigned_number r with
      | Some (v, r') => Some (negate v, r')
      | None => None
      end
  | None => unsigned_number s
  end end end end end end end.

(** [d[k] = v] while an object is built *)
Fixpoint dict_set (d : list (string * pyval)) (k : string) (v : pyval)
  : list (string * pyval) :=
  match d with
  | [] => [(k, v)]
  | (k', v') :: d' =>
      if String.eqb k' k then (k', v) :: d' else (k', v') :: dict_set d' k v
  end.

(** A value at the head of [s], which starts at a token; [members] and
    [elements] continue an object and an array. *)
Fixpoint value (fuel : nat) (s : string) {struct fuel}
  : option (pyval * string) :=
  match fuel with
  | O => None
  | S fuel' =>
      match s with
      | EmptyString => None
      | String c r =>
          if Ascii.eqb c "{" then
            match skip_ws r with
            | String c' r' =>
                if Ascii.eqb c' "}" then Some (PDict [], r')
                else members fuel' (String c' r') []
            | EmptyString => None
            end
          else if Ascii.eqb c "[" then
            match skip_ws r with
            | String c' r' =>
                if Ascii.eqb c' "]" then Some (PList [], r')
                else elements fuel' (String c' r') []
            | EmptyString => None
            end
          else if Ascii.eqb c "034" then
            match string_body r with
            | Some (t, r') => Some (PStr t, r')
            | None => None
            end
          else literal s
      end
  end

with members (fuel : nat) (s : string) (acc : list (string * pyval))
  {struct fuel} : option (pyval * string) :=
  match fuel with
  | O => None
  | S fuel' =>
      match after (String "034" EmptyString) s with
      | None => None
      | Some r =>
          match string_body r with
          | None => None
          | Some (k, r1) =>
              match after ":" (skip_ws r1) with
              | None => None
              | Some r2 =>
                  match value fuel' (skip_ws r2) with
                  | None => None
                  | Some (v, r3) =>
                      let acc' := dict_set acc k v in
                      match skip_ws r3 with
                      | String c r4 =>
                          if Ascii.eqb c "}" then Some (PDict acc', r4)
                          else if Ascii.eqb c ","
                          then members fuel' (skip_ws r4) acc'
                          else None
                      | EmptyString => None
                      end
                  end
              end
          end
      end
  end

with elements (fuel : nat) (s : string) (acc : list pyval)
  {struct fuel} : option (pyval * string) :=
  match fuel with
  | O => None
  | S fuel' =>
      match value fuel' s with
      | None => None
      | Some (v, r) =>
          match skip_ws r with
          | String c r' =>
              if Ascii.eqb c "]" then Some (PList (acc ++ [v]), r')
              else if Ascii.eqb c ","
              then elements fuel' (skip_ws r') (acc ++ [v])
              else None
          | EmptyString => None
          end
      end
  end.

(** [json.loads(s)] on this fragment; every call of [value] consumes a
    character, so the length of [s] is fuel enough. *)
Definition loads (s : string) : Exc pyval :=
  match value (S (String.length s)) (skip_ws s) with
  | Some (v, r) =>
      match skip_ws r with
      | EmptyString => Ok v
      | _ => Raise JSONDecodeError
      end
  | None => Raise JSONDecodeError
  end.

(** The text [s] with every ['] turned into the double quote, to write
    JSON texts down. *)
Fixpoint dq (s : string) : string :=
  match s with
  | EmptyString => EmptyString
  | String c s' => String (if Ascii.eqb c "'" then "034"%char else c) (dq s')
  end.

End Json.

(** ** The sender of a posted event, in words *)

(** The sender id of a posted event as the handler resolves it: the
    top-level [user_id] of [data] when [data] has one, and otherwise the
    [user_id] of the embedded post. *)
Definition resolved_sender (json_loads : string -> Exc pyval) (data : pyval)
  : option pyval :=
  match Py.getitem data "user_id" with
  | Ok user_id => Some user_id
  | Raise _ =>
      match Py.getitem data "post" with
      | Ok (PStr text) =>
          match json_loads text with
          | Ok post =>
              match Py.getitem post "user_id" with
              | Ok user_id => Some user_id
              | Raise _ => None
              end
          | Raise _ => None
          end
      | _ => None
      end
  end.

(** [msg.frm.userid] *)
Definition sender_userid (msg : Message) : option pyval :=
  match frm msg with
  | Some (IsPerson p) => Some (MattermostPerson.userid p)
  | Some (IsRoomOccupant o) =>
      Some (MattermostPerson.userid (MattermostRoomOccupant.person o))
  | _ => None
  end.

(** ** A platform and a bot to run the code on *)

Module Demo.

(** A platform where every user and every channel exists. *)
Definition platform (history : list request) (req : request) : Exc pyval :=
  match req with
  | get_user_by_username name =>
      Ok (PDict [("id", PStr ("id-of-" ++ name)); ("username", PStr name)])
  | create_direct_message_channel _ _ =>
      Ok (PDict [("id", PStr "DM1"); ("type", PStr "D")])
  | get_channel channel_id =>
      Ok (PDict [("id", channel_id); ("name", PStr "general")])
  | get_channel_by_name _ name =>
      Ok (PDict [("id", PStr "C1"); ("name", PStr name)])
  end.

Definition bot : MattermostBackend :=
  {| team := "main"; teamid := "T1"; bot_userid := "BOT";
     options_scheme := "https"; options_url := "chat.example.org";
     options_port := 8065; api := platform; errbot := fun _ => None |}.

Definition start : World :=
  {| calls := []; direct_channels := []; trace := [] |}.

(** A text of [n] letters. *)
Fixpoint filler (n : nat) : string :=
  match n with
  | O => EmptyString
  | S n' => String "a" (filler n')
  end.

(** The scenario of the contract, as the JSON text the platform sends. *)
Definition scenario_event : string :=
  Json.dq "{'event':'posted','data':{'team_id':'T1','channel_id':'C1','channel_type':'O','channel_name':'general','post':'{\'message\':\'hi\',\'user_id\':\'U1\',\'id\':\'P1\'}'}, 'broadcast':{}}".

(** The same event, decoded. *)
Definition scenario_message : pyval :=
  PDict [("event", PStr "posted");
         ("data",
          PDict [("team_id", PStr "T1"); ("channel_id", PStr "C1");
                 ("channel_type", PStr "O"); ("channel_name", PStr "general");
                 ("post", PStr (Json.dq "{'message':'hi','user_id':'U1','id':'P1'}"))]);
         ("broadcast", PDict [])].

(** A direct message whose post and whose envelope name different users. *)
Definition two_senders_data : pyval :=
  PDict [("team_id", PStr ""); ("channel_id", PStr "DM1");
         ("channel_type", PStr "D"); ("user_id", PStr "U2");
         ("post", PStr (Json.dq "{'message':'hi','user_id':'U1','id':'P1'}"))].

Definition two_senders_message : pyval :=
  PDict [("event", PStr "posted"); ("data", two_senders_data);
         ("broadcast", PDict [])].

(** A bot bound to another team. *)
Definition bot_T2 : MattermostBackend :=
  {| team := "other"; teamid := "T2"; bot_userid := "BOT";
     options_scheme := "https"; options_url := "chat.example.org";
     options_port := 8065; api := platform; errbot := fun _ => None |}.

Definition status_event (st : string) : pyval :=
  PDict [("event", PStr "status_change");
         ("data", PDict [("status", PStr st); ("user_id", PStr "U1")])].

(** An event of a kind without handler, an event whose handler raises
    (a status change without status), and an event whose kind is an array. *)
Definition typing_event : string := Json.dq "{'event':'typing','data':{}}".
Definition array_kind_event : string := Json.dq "{'event':['posted']}".
Definition broken_status_event : string :=
  Json.dq "{'event':'status_change','data':{'user_id':'U1'}}".

(** The removal of a user from a channel. *)
Definition user_removed_event (user_id : string) : string :=
  Json.dq "{'event':'user_removed','data':{},'broadcast':{'user_id':'"
  ++ user_id ++ Json.dq "'}}".

End Demo.

(** ** Invariants *)

(** The cache of [get_direct_channel] holds [maxsize] entries at most. *)
Definition cache_bounded (w : World) : Prop :=
  (length (direct_channels w) <= 1024)%nat.

(** [m] keeps the cache within its size, whatever it does. *)
Definition keeps_cache_bounded {A} (m : M A) : Prop :=
  forall w r w', m w = (r, w') -> cache_bounded w -> cache_bounded w'.

(** ** More platforms to run the code on *)

(** A platform that refuses to open direct channels, and a bot on it. *)
Definition refusing_platform (history : list request) (req : request) : Exc pyval :=
  match req with
  | create_direct_message_channel _ _ => Raise NotEnoughPermissions
  | _ => Demo.platform history req
  end.

Definition refusing_bot : MattermostBackend :=
  {| team := "main"; teamid := "T1"; bot_userid := "BOT";
     options_scheme := "https"; options_url := "chat.example.org";
     options_port := 8065; api := refusing_platform; errbot := fun _ => None |}.

(** A platform that knows no user and no channel, and a bot on it. *)
Definition empty_platform (history : list request) (req : request) : Exc pyval :=
  match req with
  | get_user_by_username _ => Ok PNone
  | get_channel_by_name _ _ => Ok (PDict [("status_code", PInt 404)])
  | get_channel _ => Ok (PDict [("status_code", PInt 404)])
  | create_direct_message_channel _ _ => Raise InvalidOrMissingParameters
  end.

Definition empty_bot : MattermostBackend :=
  {| team := "main"; teamid := "T1"; bot_userid := "BOT";
     options_scheme := "https"; options_url := "chat.example.org";
     options_port := 8065; api := empty_platform; errbot := fun _ => None |}.

(** ** Stripped text *)

(** A text that is empty or starts with a character outside [p]. *)
Definition clean_head (p : ascii -> bool) (s : string) : Prop :=
  match s with
  | EmptyString => True
  | String c _ => p c = false
  end.

(** ** Mentions of others *)

(** [mention != self.bot_identifier.userid], the test of line 367 *)
Definition not_own_id (self : MattermostBackend) (mention : pyval) : bool :=
  negb (Py.eq_str mention (bot_userid self)).

(** ** The message of a posted event, in words *)

(** The permalink of a post (lines 263-269). *)
Definition permalink (self : MattermostBackend) (post_id : string) : string :=
  options_scheme self ++ "://" ++ options_url self ++ ":"
  ++ Py.str_of_int (options_port self) ++ "/" ++ team self ++ "/pl/" ++ post_id.

(** The post embedded in the data of an event, decoded. *)
Definition embedded_post (json_loads : string -> Exc pyval) (data : pyval)
  : option pyval :=
  match Py.getitem data "post" with
  | Ok (PStr text) =>
      match json_loads text with
      | Ok post => Some post
      | Raise _ => None
      end
  | _ => None
  end.

(** The channel id of an event: that of [data] when [data] has one, that
    of [broadcast] otherwise. *)
Definition event_channel_id (message : pyval) : option pyval :=
  match Py.getitem message "data" with
  | Ok data =>
      match Py.getitem data "channel_id" with
      | Ok channel_id => Some channel_id
      | Raise _ =>
          match Py.getitem message "broadcast" with
          | Ok broadcast =>
              match Py.getitem broadcast "channel_id" with
              | Ok channel_id => Some channel_id
              | Raise _ => None
              end
          | Raise _ => None
          end
      end
  | Raise _ => None
  end.

(** ** More events to run the handlers on *)

(** The data of the scenario event, and its post. *)
Definition scenario_data : pyval :=
  PDict [("team_id", PStr "T1"); ("channel_id", PStr "C1");
         ("channel_type", PStr "O"); ("channel_name", PStr "general");
         ("post", PStr (Json.dq "{'message':'hi','user_id':'U1','id':'P1'}"))].

Definition scenario_post : pyval :=
  PDict [("message", PStr "hi"); ("user_id", PStr "U1"); ("id", PStr "P1")].

(** The notice that a user was added to a channel. *)
Definition system_data : pyval :=
  PDict [("team_id", PStr "T1"); ("channel_id", PStr "C1");
         ("channel_type", PStr "O"); ("channel_name", PStr "general");
         ("post",
          PStr (Json.dq "{'message':'U2 added','user_id':'U1','id':'P2','type':'system_add_remove'}"))].

Definition system_message : pyval :=
  PDict [("event", PStr "posted"); ("data", system_data); ("broadcast", PDict [])].

Definition system_post : pyval :=
  PDict [("message", PStr "U2 added"); ("user_id", PStr "U1"); ("id", PStr "P2");
         ("type", PStr "system_add_remove")].

(** A posted event that names no channel. *)
Definition no_channel_data : pyval :=
  PDict [("team_id", PStr "T1"); ("channel_type", PStr "D"); ("user_id", PStr "U1")].

Definition no_channel_message : pyval :=
  PDict [("event", PStr "posted"); ("data", no_channel_data);
         ("broadcast", PDict [("user_id", PStr "")])].

(** [offline m]: whatever [m] does, it neither calls the platform nor
    touches the cache of direct channels. *)
Definition offline {A} (m : M A) : Prop :=
  forall w r w', m w = (r, w') ->
                 calls w' = calls w /\ direct_channels w' = direct_channels w.

(** A direct message without mentions. *)
Definition direct_data : pyval :=
  PDict [("team_id", PStr ""); ("channel_id", PStr "DM1");
         ("channel_type", PStr "D");
         ("post", PStr (Json.dq "{'message':'hello','user_id':'U1','id':'P3'}"))].

Definition direct_message : pyval :=
  PDict [("event", PStr "posted"); ("data", direct_data); ("broadcast", PDict [])].

(** ** mattermost.py: replies *)

(** The [userid] attribute of an identifier; a [MattermostRoom] has none. *)
Definition identifier_userid (i : Identifier) : Exc pyval :=
  match i with
  | IsPerson p => Ok (MattermostPerson.userid p)
  | IsRoomOccupant o => Ok (MattermostPerson.userid (MattermostRoomOccupant.person o))
  | IsRoom _ => Raise AttributeError
  end.

(** [is_from_self] (lines 480-481) *)
Definition is_from_self (self : MattermostBackend) (message : Message) : Exc bool :=
  match frm message with
  | None => Raise AttributeError
  | Some i =>
      match identifier_userid i with
      | Ok user_id => Ok (Py.eq_str user_id (bot_userid self))
      | Raise e => Raise e
      end
  end.

Section Reply.

(** [self.build_message], inherited from errbot. *)
Variable build_message : pyval -> Exc Message.

(** [build_reply] (lines 495-502); [threaded] is not read. *)
Definition build_reply (self : MattermostBackend) (message : Message)
  (text : pyval) (private : bool) : Exc Message :=
  match build_message text with
  | Raise e => Raise e
  | Ok response =>
      let response_to :=
        if private then frm message
        else match frm message with
             | Some (IsRoomOccupant o) => Some (IsRoom (MattermostRoomOccupant.room o))
             | other => other
             end in
      Ok {| body := body response;
            extras_mattermost_event := extras_mattermost_event response;
            extras_url := extras_url response;
            extras_attachments := extras_attachments response;
            frm := Some (IsPerson (bot_identifier self));
            to := response_to |}
  end.

End Reply.

(** A plain message with the given body, to build replies from. *)
Definition plain_message (text : pyval) : Exc Message :=
  Ok {| body := text; extras_mattermost_event := PNone; extras_url := "";
        extras_attachments := None; frm := None; to := None |}.

(** What the repair adds to a chunk: nothing or the opening marker before
    it, nothing or the closing marker after it. *)
Definition repaired (body chunk part : string) : Prop :=
  exists pre post,
    part = (pre ++ chunk ++ post)%string
    /\ (pre = ""
        \/ (pre = ("```" ++ nl)%string
            /\ Str.startswith body fence = true
            /\ Str.startswith chunk fence = false))
    /\ (post = "" \/ post = closing).

(** ** mattermost.py: rooms and channels *)

(** [query_room] (lines 487-489): the argument is passed as the name. *)
Definition query_room (self : MattermostBackend) (room : pyval)
  : M MattermostRoom.t :=
  MattermostRoom_init room PNone (PStr (teamid self)) (Some self).

(** [len(v)]: the number of values [for x in v] runs through. *)
Definition py_len (v : pyval) : Exc nat :=
  match Py.iter v with
  | Ok l => Ok (List.length l)
  | Raise e => Raise e
  end.

Definition channel_page_limit : nat := 200.

Section PublicChannels.

(** [self.driver.api['channels'].get_public_channels(team_id, params)]:
    the answer of the platform to the request for page [page] of [per_page]
    channels of the team.  The loop asks for each page once, in order. *)
Variable driver_get_public_channels : string -> nat -> nat -> Exc pyval.

(** The loop of [get_public_channels] (lines 508-517), run for [fuel]
    requests at most; [None] when the loop is still running after them. *)
Fixpoint get_public_channels_loop (fuel : nat) (self : MattermostBackend)
  (channels : list pyval) (page : nat) : option (Exc (list pyval)) :=
  match fuel with
  | O => None
  | S fuel' =>
      match driver_get_public_channels (teamid self) page channel_page_limit with
      | Raise e => Some (Raise e)
      | Ok channel_list =>
          match py_len channel_list with
          | Raise e => Some (Raise e)
          | Ok n =>
              if Nat.eqb n 0 then Some (Ok channels)
              else
                match Py.iter channel_list with
                | Raise e => Some (Raise e)
                | Ok items =>
                    get_public_channels_loop fuel' self (channels ++ items)%list
                      (S page)
                end
          end
      end
  end.

(** [get_public_channels] (lines 504-518) *)
Definition get_public_channels (fuel : nat) (self : MattermostBackend)
  : option (Exc (list pyval)) :=
  get_public_channels_loop fuel self [] 0.

(** Page [page] of the team of [self] holds the channels [items]. *)
Definition page_holds (self : MattermostBackend) (page : nat)
  (items : list pyval) : Prop :=
  exists channel_list,
    driver_get_public_channels (teamid self) page channel_page_limit
    = Ok channel_list
    /\ Py.iter channel_list = Ok items.

End PublicChannels.

(** A platform with two pages of public channels, and one whose pages
    never run out. *)
Definition two_pages (team_id : string) (page per_page : nat) : Exc pyval :=
  match page with
  | 0 => Ok (PList [PStr "town-square"; PStr "off-topic"])
  | 1 => Ok (PList [PStr "dev"])
  | _ => Ok (PList [])
  end.

Definition endless_pages (team_id : string) (page per_page : nat) : Exc pyval :=
  Ok (PList [PStr "town-square"]).

Definition failing_second_page (team_id : string) (page per_page : nat)
  : Exc pyval :=
  match page with
  | 0 => Ok (PList [PStr "town-square"])
  | _ => Raise NotEnoughPermissions
  end.

(** ** A full cache *)

(** The cache of [get_direct_channel] with its 1024 entries taken, by the
    direct channels of the bot with the users U0, U1, ..., U1023. *)
Definition full_cache : list ((string * pyval) * pyval) :=
  map (fun k => (("BOT", PStr ("U" ++ Py.str_of_int (Z.of_nat k))),
                 PDict [("id", PStr ("D" ++ Py.str_of_int (Z.of_nat k)))]))
    (seq 0 1024).

Definition full_start : World :=
  {| calls := []; direct_channels := full_cache; trace := [] |}.

(** A message in a channel that mentions the user W1. *)
Definition mention_event : string :=
  Json.dq "{'event':'posted','data':{'team_id':'T1','channel_id':'C1','channel_type':'O','channel_name':'general','mentions':'[\'W1\']','post':'{\'message\':\'hi\',\'user_id\':\'U1\',\'id\':\'P1\'}'}, 'broadcast':{}}".

(* ================================================================== *)
(** * Part II: properties *)
(* ================================================================== *)

(** ** Outbound chunking *)

(** The scenario of the chunking contract: one fenced block longer than the
    limit is split, and every part is closed. *)
Example chunk_scenario :
  prepare_message_body Errbot.split_string_after
    ("```" ++ nl ++ "code" ++ nl ++ "```") 5
  = Ok [ "```" ++ nl ++ "c" ++ nl ++ "```" ++ nl;
         "```" ++ nl ++ "ode" ++ nl ++ "`" ++ nl ++ "```" ++ nl;
         "```" ++ nl ++ "``" ++ nl ++ "```" ++ nl ].
Proof. vm_compute. reflexivity. Qed.

(** *** The splitter of errbot *)

Lemma length_append (s t : string) :
  String.length (s ++ t) = String.length s + String.length t.
Proof. induction s as [|c s IH]; simpl; [reflexivity | now rewrite IH]. Qed.

Lemma length_substring (a n : nat) (s : string) :
  String.length (substring a n s) <= n.
Proof.
  revert a n. induction s as [|c s IH]; intros a n.
  - destruct a, n; simpl; lia.
  - destruct a as [|a].
    + destruct n as [|n]; simpl; [lia|]. specialize (IH 0 n). lia.
    + simpl. apply IH.
Qed.

Lemma substring_all (n : nat) (s : string) :
  String.length s <= n -> substring 0 n s = s.
Proof.
  revert n. induction s as [|c s IH]; intros n H.
  - destruct n; reflexivity.
  - destruct n as [|n]; simpl in *; [lia|]. f_equal. apply IH. lia.
Qed.

(** With a positive [n] the splitter returns, and every chunk is a slice of
    [n] characters at most. *)
Lemma split_string_after_total (str_ : string) (n : Z) :
  (0 < n)%Z ->
  exists chunks, Errbot.split_string_after str_ n = Ok chunks
                 /\ Forall (fun chunk => (Str.len chunk <= n)%Z) chunks.
Proof.
  intros Hn. unfold Errbot.split_string_after, py_range.
  destruct (Z.eqb_spec n 0) as [->|_]; [lia|].
  eexists. split; [reflexivity|].
  apply Forall_forall. intros p Hp.
  apply in_map_iff in Hp. destruct Hp as [st [<- _]].
  unfold Str.slice, Str.len.
  pose proof (length_substring (Z.to_nat st) (Z.to_nat (st + n - st)) str_).
  lia.
Qed.

(** A text no longer than [n] is its own single chunk. *)
Lemma split_string_after_short (str_ : string) (n : Z) :
  (0 < n)%Z -> (Str.len str_ <= n)%Z ->
  Errbot.split_string_after str_ n = Ok [str_].
Proof.
  intros Hn Hlen. unfold Errbot.split_string_after, py_range, Str.len in *.
  destruct (Z.eqb_spec n 0) as [->|_]; [lia|].
  destruct (Z.ltb_spec 0 n) as [_|]; [|lia].
  destruct (Z.ltb_spec 0 (Z.max (Z.of_nat (String.length str_)) 1)) as [_|]; [|lia].
  replace ((Z.max (Z.of_nat (String.length str_)) 1 - 0 - 1) / n)%Z with 0%Z
    by (symmetry; apply Z.div_small; lia).
  simpl. unfold Str.slice. f_equal. f_equal.
  replace (Z.to_nat 0) with 0 by reflexivity.
  apply substring_all. lia.
Qed.

(** *** Fence markers *)

Lemma startswith_length (s p : string) :
  Str.startswith s p = true -> String.length p <= String.length s.
Proof.
  revert s. induction p as [|a p IH]; intros s H; simpl in *; [lia|].
  destruct s as [|b s]; [discriminate|].
  apply andb_prop in H. destruct H as [_ H]. apply IH in H. simpl. lia.
Qed.

Lemma startswith_closing (s : string) :
  Str.startswith (s ++ closing) fence = Str.startswith s fence.
Proof.
  unfold fence, closing, nl.
  destruct s as [|a [|b [|c s]]]; cbn [Str.startswith append];
    repeat match goal with
           | |- context [Ascii.eqb ?x ?y] =>
               is_var y; destruct (Ascii.eqb x y); cbn [andb]
           end;
    reflexivity.
Qed.

Lemma count_fence (s : string) : Str.count s fence = Str.count_from fence 0 s.
Proof. reflexivity. Qed.

(** The closing marker adds one occurrence: it starts on a line of its
    own, so it joins no backtick that ends the part. *)
Lemma count_from_closing (s : string) (skip : nat) :
  skip <= String.length s ->
  Str.count_from fence skip (s ++ closing) = S (Str.count_from fence skip s).
Proof.
  revert skip. induction s as [|c s IH]; intros skip Hskip.
  - simpl in Hskip. assert (skip = 0) as -> by lia. reflexivity.
  - change ((String c s ++ closing)%string) with (String c (s ++ closing)).
    cbn [Str.count_from]. destruct skip as [|k].
    + change (String c (s ++ closing)) with ((String c s ++ closing)%string).
      rewrite startswith_closing.
      destruct (Str.startswith (String c s) fence) eqn:E.
      * apply startswith_length in E. simpl in E.
        f_equal. apply IH. simpl. lia.
      * apply IH. lia.
    + apply IH. simpl in Hskip. lia.
Qed.

Lemma count_closing (s : string) :
  Str.count (s ++ closing) fence = S (Str.count s fence).
Proof. rewrite !count_fence. apply count_from_closing. lia. Qed.

(** The opening marker put before a continued part adds one occurrence. *)
Lemma count_opening (s : string) :
  Str.count ("```" ++ nl ++ s) fence = S (Str.count s fence).
Proof. reflexivity. Qed.

Lemma close_fence_even (part : string) :
  Str.count (close_fence part) fence mod 2 = 0.
Proof.
  unfold close_fence.
  destruct (Nat.eqb_spec (Str.count part fence mod 2) 0) as [E|E]; [exact E|].
  rewrite count_closing.
  pose proof (Nat.mod_upper_bound (Str.count part fence) 2).
  rewrite (Nat.div_mod_eq (Str.count part fence) 2) at 1.
  replace (S (2 * (Str.count part fence / 2) + Str.count part fence mod 2))
    with (0 + (Str.count part fence / 2 + 1) * 2)
    by lia.
  rewrite Nat.Div0.mod_add. reflexivity.
Qed.

Lemma close_fence_length (part : string) :
  String.length (close_fence part) <= String.length part + 5.
Proof.
  unfold close_fence. destruct (Nat.eqb _ 0); [lia|].
  rewrite length_append. simpl. lia.
Qed.

Lemma close_fence_balanced (part : string) :
  Str.count part fence mod 2 = 0 -> close_fence part = part.
Proof. intros E. unfold close_fence. now rewrite E. Qed.

Lemma fix_part_even (fixed_format : bool) (part : string) :
  Str.count (fix_part fixed_format part) fence mod 2 = 0.
Proof. unfold fix_part. apply close_fence_even. Qed.

Lemma fix_part_length (fixed_format : bool) (part : string) :
  String.length (fix_part fixed_format part) <= String.length part + 9.
Proof.
  unfold fix_part.
  destruct (fixed_format && negb (Str.startswith part fence)).
  - etransitivity; [apply close_fence_length|]. simpl. lia.
  - etransitivity; [apply close_fence_length|]. lia.
Qed.

(** *** The chunker over any splitter *)

Section Chunking.

Variable split_string_after : string -> Z -> Exc (list string).

(** The parts [prepare_message_body] returns are the chunks of the
    splitter, each one repaired. *)
Lemma prepare_message_body_parts (body : string) (size_limit : Z)
  (chunks : list string) :
  split_string_after body size_limit = Ok chunks ->
  exists parts,
    prepare_message_body split_string_after body size_limit = Ok parts
    /\ Forall2 (fun chunk part =>
                  part = close_fence chunk
                  \/ part = fix_part (Str.startswith body fence) chunk)
         chunks parts.
Proof.
  intros E. unfold prepare_message_body. rewrite E.
  destruct chunks as [|c0 [|c1 chunks]].
  - eexists. split; [reflexivity|]. constructor.
  - eexists. split; [reflexivity|]. constructor; [now left | constructor].
  - eexists. split; [reflexivity|].
    generalize (c0 :: c1 :: chunks). intros l.
    induction l as [|c l IH]; simpl; constructor; [now right | exact IH].
Qed.

End Chunking.

(** C4 (as amended).  Whatever the splitter, when it cuts the body into
    chunks of at most [limit] characters, [prepare_message_body] returns
    parts that are at most nine characters longer than the limit: the chunk,
    the opening marker of four characters and the closing marker of five. *)
Theorem prepare_message_body_length
  (split_string_after : string -> Z -> Exc (list string))
  (body : string) (limit : Z) (chunks : list string) :
  split_string_after body limit = Ok chunks ->
  Forall (fun chunk => (Str.len chunk <= limit)%Z) chunks ->
  exists parts,
    prepare_message_body split_string_after body limit = Ok parts
    /\ Forall (fun part => (Str.len part <= limit + 9)%Z) parts.
Proof.
  intros E Hchunks.
  destruct (prepare_message_body_parts _ body limit chunks E) as [parts [Eparts H2]].
  exists parts. split; [exact Eparts|].
  clear E Eparts. induction H2 as [|chunk part chunks parts Hpart _ IH].
  - constructor.
  - inversion Hchunks as [|? ? Hc Hcs]; subst. constructor; [|now apply IH].
    unfold Str.len in *.
    destruct Hpart as [-> | ->].
    + pose proof (close_fence_length chunk). lia.
    + pose proof (fix_part_length (Str.startswith body fence) chunk). lia.
Qed.

(** With the splitter of errbot and limit 3, the second part of
    ["```aaa"] reaches the bound, twelve characters. *)
Lemma prepare_message_body_length_witness :
  exists parts,
    prepare_message_body Errbot.split_string_after "```aaa" 3 = Ok parts
    /\ Forall (fun part => (Str.len part <= 3 + 9)%Z) parts.
Proof.
  apply (prepare_message_body_length Errbot.split_string_after "```aaa" 3
           ["```"; "aaa"]).
  - reflexivity.
  - repeat constructor; vm_compute; discriminate.
Defined.

(** C4 (as stated) fails: with limit 3 the body of one fence marker comes
    back as one part of eight characters, the marker and its closing. *)
Lemma prepare_message_body_exceeds_limit :
  prepare_message_body Errbot.split_string_after "```" 3
  = Ok ["```" ++ nl ++ "```" ++ nl]
  /\ ~ (forall body limit parts,
          (0 < limit)%Z ->
          prepare_message_body Errbot.split_string_after body limit = Ok parts ->
          Forall (fun part => (Str.len part <= limit)%Z) parts).
Proof.
  split; [reflexivity|].
  intros H. specialize (H "```" 3%Z _ eq_refl eq_refl).
  inversion H as [|? ? Hlen _]; subst. vm_compute in Hlen. apply Hlen. reflexivity.
Qed.

(** At the limit the module passes, a continued part of a fixed block
    reaches 4003 characters. *)
Example part_at_message_limit :
  exists first second,
    prepare_message_body Errbot.split_string_after
      ("```" ++ Demo.filler (Z.to_nat 7985)) MATTERMOST_MESSAGE_LIMIT
    = Ok [first; second]
    /\ Str.len second = 4003%Z.
Proof. do 2 eexists. split; [vm_compute; reflexivity | vm_compute; reflexivity]. Qed.

(** C5.  Whatever the splitter, when it returns the chunks of the body,
    [prepare_message_body] returns, and every part it returns holds an even
    number of fence markers. *)
Theorem prepare_message_body_fences_even
  (split_string_after : string -> Z -> Exc (list string))
  (body : string) (limit : Z) (chunks : list string) :
  split_string_after body limit = Ok chunks ->
  exists parts,
    prepare_message_body split_string_after body limit = Ok parts
    /\ Forall (fun part => Str.count part "```" mod 2 = 0) parts.
Proof.
  intros E.
  destruct (prepare_message_body_parts _ body limit chunks E) as [parts [Eparts H2]].
  exists parts. split; [exact Eparts|].
  clear E Eparts. induction H2 as [|chunk part chunks parts Hpart _ IH].
  - constructor.
  - constructor; [|exact IH].
    destruct Hpart as [-> | ->]; [apply close_fence_even | apply fix_part_even].
Qed.

Lemma prepare_message_body_fences_even_witness :
  exists parts,
    prepare_message_body Errbot.split_string_after
      ("```" ++ nl ++ "code" ++ nl ++ "```") 5 = Ok parts
    /\ Forall (fun part => Str.count part "```" mod 2 = 0) parts.
Proof.
  apply (prepare_message_body_fences_even Errbot.split_string_after
           ("```" ++ nl ++ "code" ++ nl ++ "```") 5
           ["```" ++ nl ++ "c"; "ode" ++ nl ++ "`"; "``"]).
  reflexivity.
Defined.

(** C10.  With a splitter that leaves a text no longer than the limit in
    one piece, a body no longer than the (positive) limit that holds an even
    number of fence markers comes back unchanged, as the only part. *)
Theorem prepare_message_body_identity
  (split_string_after : string -> Z -> Exc (list string))
  (body : string) (limit : Z) :
  (forall str_ n, (0 < n)%Z -> (Str.len str_ <= n)%Z ->
                  split_string_after str_ n = Ok [str_]) ->
  (0 < limit)%Z ->
  (Str.len body <= limit)%Z ->
  Str.count body "```" mod 2 = 0 ->
  prepare_message_body split_string_after body limit = Ok [body].
Proof.
  intros Hshort Hlimit Hlen Heven.
  unfold prepare_message_body.
  rewrite (Hshort body limit Hlimit Hlen).
  now rewrite (close_fence_balanced body Heven).
Qed.

Lemma prepare_message_body_identity_witness :
  prepare_message_body Errbot.split_string_after
    ("```" ++ nl ++ "ls" ++ nl ++ "```") MATTERMOST_MESSAGE_LIMIT
  = Ok ["```" ++ nl ++ "ls" ++ nl ++ "```"].
Proof.
  apply (prepare_message_body_identity Errbot.split_string_after
           ("```" ++ nl ++ "ls" ++ nl ++ "```") MATTERMOST_MESSAGE_LIMIT).
  - exact split_string_after_short.
  - reflexivity.
  - vm_compute. discriminate.
  - reflexivity.
Defined.

(** ** Computations that fire no callback *)

Section Quiet.

Lemma callbacks_app (t1 t2 : list event) :
  callbacks (t1 ++ t2) = (callbacks t1 ++ callbacks t2)%list.
Proof. apply filter_app. Qed.

Lemma callbacks_log (t : list event) lvl fmt args :
  callbacks (t ++ [Log lvl fmt args]) = callbacks t.
Proof. rewrite callbacks_app. simpl. apply app_nil_r. Qed.

Lemma quiet_ret {A} (a : A) : quiet (ret a).
Proof. intros w r w' H. inversion H. reflexivity. Qed.

Lemma quiet_raise {A} (e : exn) : quiet (@raise A e).
Proof. intros w r w' H. inversion H. reflexivity. Qed.

Lemma quiet_return {A} : quiet (@return_ A).
Proof. intros w r w' H. inversion H. reflexivity. Qed.

Lemma quiet_lift {A} (x : Exc A) : quiet (lift x).
Proof. intros w r w' H. inversion H. reflexivity. Qed.

Lemma quiet_log lvl fmt args : quiet (log lvl fmt args).
Proof. intros w r w' H. inversion H. simpl. apply callbacks_log. Qed.

Lemma quiet_call self req : quiet (call self req).
Proof. intros w r w' H. inversion H. reflexivity. Qed.

Lemma quiet_get_cache : quiet Lru.get_cache.
Proof. intros w r w' H. inversion H. reflexivity. Qed.

Lemma quiet_set_cache c : quiet (Lru.set_cache c).
Proof. intros w r w' H. inversion H. reflexivity. Qed.

Lemma quiet_bind {A B} (m : M A) (k : A -> M B) :
  quiet m -> (forall a, quiet (k a)) -> quiet (bind m k).
Proof.
  intros Hm Hk w r w' H. unfold bind in H.
  destruct (m w) as [[a|e|] w1] eqn:E.
  - rewrite (Hk a _ _ _ H). exact (Hm _ _ _ E).
  - inversion H; subst. exact (Hm _ _ _ E).
  - inversion H; subst. exact (Hm _ _ _ E).
Qed.

Lemma quiet_try_except {A} (m : M A) (h : exn -> M A) :
  quiet m -> (forall e, quiet (h e)) -> quiet (try_except m h).
Proof.
  intros Hm Hh w r w' H. unfold try_except in H.
  destruct (m w) as [[a|e|] w1] eqn:E.
  - inversion H; subst. exact (Hm _ _ _ E).
  - rewrite (Hh e _ _ _ H). exact (Hm _ _ _ E).
  - inversion H; subst. exact (Hm _ _ _ E).
Qed.

Lemma quiet_def (m : M unit) : quiet m -> quiet (def_ m).
Proof.
  intros Hm w r w' H. unfold def_ in H.
  destruct (m w) as [[a|e|] w1] eqn:E; inversion H; subst; exact (Hm _ _ _ E).
Qed.

Lemma quiet_when (c : bool) (m : M unit) : quiet m -> quiet (when c m).
Proof. intros Hm. destruct c; [exact Hm | apply quiet_ret]. Qed.

End Quiet.

Create HintDb quiet.
#[export] Hint Resolve quiet_ret quiet_raise quiet_return quiet_lift quiet_log
  quiet_call quiet_get_cache quiet_set_cache quiet_when : quiet.

(** Walks through a computation built from the steps above. *)
Ltac quiet_step :=
  match goal with
  | |- quiet (bind _ _) => apply quiet_bind; [|intros ?]
  | |- quiet (try_except _ _) => apply quiet_try_except; [|intros ?]
  | |- quiet (def_ _) => apply quiet_def
  | |- quiet (when _ _) => apply quiet_when
  | |- quiet (if ?c then _ else _) => destruct c
  | |- quiet (match ?x with _ => _ end) => destruct x
  | |- quiet (let '(_, _) := ?x in _) => destruct x
  | |- quiet _ => solve [auto with quiet]
  end.

Ltac quiet := repeat quiet_step.

Section QuietFunctions.

Variable self : MattermostBackend.

Lemma quiet_lru_cache n f a b :
  (forall x y, quiet (f x y)) -> quiet (Lru.lru_cache n f a b).
Proof. intros Hf. unfold Lru.lru_cache. quiet. Qed.

Lemma quiet_username_to_userid name : quiet (username_to_userid self name).
Proof. unfold username_to_userid. quiet. Qed.

Lemma quiet_get_direct_channel a b : quiet (get_direct_channel self a b).
Proof.
  apply quiet_lru_cache. intros x y. unfold get_direct_channel_body. quiet.
Qed.

Lemma quiet_channelid_to_channelname c : quiet (channelid_to_channelname self c).
Proof. unfold channelid_to_channelname. quiet. Qed.

Lemma quiet_channelname_to_channelid c : quiet (channelname_to_channelid self c).
Proof. unfold channelname_to_channelid. quiet. Qed.

End QuietFunctions.

#[export] Hint Resolve quiet_username_to_userid quiet_get_direct_channel
  quiet_channelid_to_channelname quiet_channelname_to_channelid : quiet.

Lemma quiet_MattermostRoom_init name channelid teamid bot :
  quiet (MattermostRoom_init name channelid teamid bot).
Proof. unfold MattermostRoom_init. quiet. Qed.
#[export] Hint Resolve quiet_MattermostRoom_init : quiet.

Lemma quiet_MattermostRoomOccupant_init teamid userid channelid bot :
  quiet (MattermostRoomOccupant_init teamid userid channelid bot).
Proof. unfold MattermostRoomOccupant_init. quiet. Qed.
#[export] Hint Resolve quiet_MattermostRoomOccupant_init : quiet.

Lemma quiet_build_identifier self txtrep : quiet (build_identifier self txtrep).
Proof. unfold build_identifier. quiet. Qed.
#[export] Hint Resolve quiet_build_identifier : quiet.

Lemma quiet_mentions_loop self mentions : quiet (mentions_loop self mentions).
Proof.
  induction mentions as [|mention rest IH]; cbn [mentions_loop]; quiet.
Qed.
#[export] Hint Resolve quiet_mentions_loop : quiet.

Lemma quiet_mentions_build_identifier self mentions :
  quiet (mentions_build_identifier self mentions).
Proof. unfold mentions_build_identifier. quiet. Qed.
#[export] Hint Resolve quiet_mentions_build_identifier : quiet.

Lemma quiet_loads json_loads v : quiet (loads json_loads v).
Proof. unfold loads. quiet. Qed.
#[export] Hint Resolve quiet_loads : quiet.

(** Up to line 273 the message handler reads, logs and resolves mentions:
    no callback fires. *)
Lemma quiet_fields json_loads self message :
  quiet (_message_event_handler_fields json_loads self message).
Proof. unfold _message_event_handler_fields. quiet. Qed.

(** ** Values *)

Lemma eq_str_true (v : pyval) (s : string) : Py.eq_str v s = true <-> v = PStr s.
Proof.
  destruct v; simpl; try (split; [discriminate | intros H; discriminate H]).
  rewrite String.eqb_eq. split; [now intros -> | now intros [= ->]].
Qed.

Lemma eq_str_false (v : pyval) (s : string) : v <> PStr s -> Py.eq_str v s = false.
Proof.
  intros H. destruct (Py.eq_str v s) eqn:E; [|reflexivity].
  apply eq_str_true in E. contradiction.
Qed.

(** ** The message handler: cross-team events *)

(** C3.  A posted event whose [data.team_id] is not the empty text and is
    not the team the bot is bound to is dropped: the handler returns,
    no callback fires and the platform is not called. *)
Theorem cross_team_event_dropped
  (json_loads : string -> Exc pyval) (self : MattermostBackend)
  (message data team_id : pyval) (w : World) :
  Py.getitem message "data" = Ok data ->
  Py.getitem data "team_id" = Ok team_id ->
  team_id <> PStr "" ->
  team_id <> PStr (teamid self) ->
  exists w',
    _message_event_handler json_loads self message w = (Val tt, w')
    /\ callbacks (trace w') = callbacks (trace w)
    /\ calls w' = calls w.
Proof.
  intros Hdata Hteam Hne Hother.
  unfold _message_event_handler, _message_event_handler_fields, def_, bind, lift, log.
  rewrite Hdata. cbn. rewrite Hteam. cbn.
  rewrite (eq_str_false _ _ Hne), (eq_str_false _ _ Hother). cbn.
  eexists. split; [reflexivity|]. cbn. split; [|reflexivity].
  rewrite <- app_assoc. cbn. rewrite callbacks_app. cbn. apply app_nil_r.
Qed.


Lemma cross_team_event_dropped_witness :
  exists w',
    _message_event_handler Json.loads Demo.bot_T2 Demo.scenario_message Demo.start
    = (Val tt, w')
    /\ callbacks (trace w') = callbacks (trace Demo.start)
    /\ calls w' = calls Demo.start.
Proof.
  apply (cross_team_event_dropped Json.loads Demo.bot_T2 Demo.scenario_message
           (PDict [("team_id", PStr "T1"); ("channel_id", PStr "C1");
                   ("channel_type", PStr "O"); ("channel_name", PStr "general");
                   ("post",
                    PStr (Json.dq "{'message':'hi','user_id':'U1','id':'P1'}"))])
           (PStr "T1") Demo.start).
  - reflexivity.
  - reflexivity.
  - discriminate.
  - discriminate.
Defined.

(** ** The presence handler *)

(** C7.  For a status-change event that carries a user id and a status, the
    presence callback fires once: with Online for ["online"], with Away for
    ["away"], and for any other status with Online after an error is
    logged. *)
Theorem status_change_presence
  (self : MattermostBackend) (message data user_id st : pyval) (w : World) :
  Py.getitem message "data" = Ok data ->
  Py.getitem data "user_id" = Ok user_id ->
  Py.getitem data "status" = Ok st ->
  let idd := MattermostPerson.init user_id PNone PNone in
  exists out w',
    _status_change_event_handler self message w = (out, w')
    /\ (st = PStr "online" ->
        trace w' = (trace w
                    ++ [CallbackPresence {| identifier := idd; status := ONLINE |}])%list)
    /\ (st = PStr "away" ->
        trace w' = (trace w
                    ++ [CallbackPresence {| identifier := idd; status := AWAY |}])%list)
    /\ (st <> PStr "online" -> st <> PStr "away" ->
        trace w' =
          (trace w
           ++ [Log ERROR
                 "It appears the Mattermost API changed, I received an unknown status type %s"
                 [st];
               CallbackPresence {| identifier := idd; status := ONLINE |}])%list).
Proof.
  intros Hdata Huser Hstatus idd.
  unfold _status_change_event_handler, def_, bind, lift, callback, log, ret.
  rewrite Hdata. cbn. rewrite Huser. cbn. rewrite Hstatus. cbn.
  destruct (Py.eq_str st "online") eqn:Eon; [|destruct (Py.eq_str st "away") eqn:Eaw].
  - apply eq_str_true in Eon. subst st.
    destruct (errbot self _); (do 2 eexists; split; [reflexivity|]);
      (split; [|split]; [reflexivity | discriminate | congruence]).
  - apply eq_str_true in Eaw. subst st.
    destruct (errbot self _); (do 2 eexists; split; [reflexivity|]);
      (split; [|split]; [discriminate | reflexivity | congruence]).
  - destruct (errbot self _); (do 2 eexists; split; [reflexivity|]);
      (split; [|split];
       [ intros ->; discriminate Eon
       | intros ->; discriminate Eaw
       | intros _ _; cbn; now rewrite <- app_assoc ]).
Qed.


Lemma status_change_presence_witness :
  exists out w',
    _status_change_event_handler Demo.bot (Demo.status_event "dnd") Demo.start = (out, w')
    /\ trace w' =
         [Log ERROR
            "It appears the Mattermost API changed, I received an unknown status type %s"
            [PStr "dnd"];
          CallbackPresence
            {| identifier := MattermostPerson.init (PStr "U1") PNone PNone;
               status := ONLINE |}].
Proof.
  destruct (status_change_presence Demo.bot (Demo.status_event "dnd")
              (PDict [("status", PStr "dnd"); ("user_id", PStr "U1")])
              (PStr "U1") (PStr "dnd") Demo.start eq_refl eq_refl eq_refl)
    as [out [w' [H [_ [_ Hother]]]]].
  exists out, w'. split; [exact H|].
  apply Hother; discriminate.
Defined.

(** ** The event dispatcher *)

Section Dispatcher.

Variable json_loads : string -> Exc pyval.
Variable self : MattermostBackend.

(** A [def] never leaks its early [return]. *)
Lemma def_outcome (m : M unit) (w : World) :
  (exists w', def_ m w = (Val tt, w')) \/ (exists e w', def_ m w = (Exn e, w')).
Proof.
  unfold def_. destruct (m w) as [[[]|e|] w'].
  - left. now exists w'.
  - right. now exists e, w'.
  - left. now exists w'.
Qed.

(** Every handler of the table is a [def]. *)
Lemma event_handlers_defs (kind : string) (handler : pyval -> M unit) :
  assoc kind (event_handlers json_loads self) = Some handler ->
  exists body, handler = fun message => def_ (body message).
Proof.
  unfold event_handlers. cbn [assoc].
  repeat match goal with
         | |- context [String.eqb ?a kind] => destruct (String.eqb a kind)
         end;
    intros [= <-]; eexists; reflexivity.
Qed.

Lemma event_handlers_get_hashable (event : pyval) :
  Py.hashable event = true ->
  exists found, event_handlers_get json_loads self event = Ok found.
Proof.
  intros H. unfold event_handlers_get. rewrite H. cbn.
  destruct event; eexists; reflexivity.
Qed.

Lemma event_handlers_get_def (event : pyval) (handler : pyval -> M unit) :
  event_handlers_get json_loads self event = Ok (Some handler) ->
  exists body, handler = fun message => def_ (body message).
Proof.
  unfold event_handlers_get.
  destruct (Py.hashable event); cbn; [|discriminate].
  destruct event; try discriminate.
  intros [= H]. exact (event_handlers_defs _ _ H).
Qed.

End Dispatcher.

(** C1 (as amended).  A payload that decodes to a JSON object whose
    ["event"] value, if any, is neither an array nor an object makes the
    dispatcher return normally.  When the handler of the event kind raises,
    the exception is caught and logged; when the kind has no handler, this
    is logged and no handler runs. *)
Theorem mattermost_event_handler_returns
  (json_loads : string -> Exc pyval) (self : MattermostBackend)
  (payload : string) (d : list (string * pyval)) (w : World) :
  json_loads payload = Ok (PDict d) ->
  (forall event, Py.lookup "event" d = Some event -> Py.hashable event = true) ->
  exists w',
    mattermost_event_handler json_loads self payload w = (Val tt, w')
    /\ (forall event handler e w1,
          payload <> "" ->
          Py.lookup "event" d = Some event ->
          event_handlers_get json_loads self event = Ok (Some handler) ->
          handler (PDict d) w = (Exn e, w1) ->
          log EXCEPTION "{} event handler raised an exception" [event] w1
          = (Val tt, w'))
    /\ (forall event,
          payload <> "" ->
          Py.lookup "event" d = Some event ->
          event_handlers_get json_loads self event = Ok None ->
          log DEBUG "No event handler available for {}, ignoring." [event] w
          = (Val tt, w')).
Proof.
  intros Hloads Hhash.
  unfold mattermost_event_handler, def_, bind, when.
  destruct (String.eqb_spec payload "") as [->|Hne].
  { cbn. exists w. split; [reflexivity|]. split; intros; congruence. }
  cbn. unfold lift. rewrite Hloads. cbn.
  destruct (Py.lookup "event" d) as [event|] eqn:Elook.
  2:{ cbn. eexists. split; [reflexivity|]. split; intros; discriminate. }
  cbn.
  destruct (event_handlers_get_hashable json_loads self event (Hhash _ eq_refl))
    as [found Efound].
  rewrite Efound. cbn.
  destruct found as [handler|].
  - destruct (event_handlers_get_def _ _ _ _ Efound) as [body Hbody].
    subst handler. unfold try_except.
    destruct (def_outcome (body (PDict d)) w) as [[w1 E]|[e [w1 E]]]; rewrite E.
    + exists w1. split; [reflexivity|]. split.
      * intros ev h e0 w2 _ [= <-] Hh Hraise.
        rewrite Hh in Efound. injection Efound as Hsame. subst h.
        rewrite E in Hraise. discriminate.
      * intros ev _ [= <-] Hnone. rewrite Hnone in Efound. discriminate.
    + cbn. eexists. split; [reflexivity|]. split.
      * intros ev h e0 w2 _ [= <-] Hh Hraise.
        rewrite Hh in Efound. injection Efound as Hsame. subst h.
        rewrite E in Hraise. injection Hraise as <- <-. reflexivity.
      * intros ev _ [= <-] Hnone. rewrite Hnone in Efound. discriminate.
  - cbn. eexists. split; [reflexivity|]. split.
    + intros ev h e0 w2 _ [= <-] Hh. rewrite Hh in Efound. discriminate.
    + intros ev _ [= <-] _. reflexivity.
Qed.


Lemma mattermost_event_handler_returns_witness :
  exists w',
    mattermost_event_handler Json.loads Demo.bot Demo.broken_status_event Demo.start
    = (Val tt, w')
    /\ trace w' = [Log EXCEPTION "{} event handler raised an exception"
                     [PStr "status_change"]].
Proof.
  destruct (mattermost_event_handler_returns Json.loads Demo.bot
              Demo.broken_status_event
              [("event", PStr "status_change");
               ("data", PDict [("user_id", PStr "U1")])]
              Demo.start)
    as [w' [H [Hraise _]]].
  - reflexivity.
  - intros event [= <-]. reflexivity.
  - exists w'. split; [exact H|].
    specialize (Hraise (PStr "status_change")
                  (_status_change_event_handler Demo.bot) KeyError Demo.start).
    assert (log EXCEPTION "{} event handler raised an exception"
              [PStr "status_change"] Demo.start = (Val tt, w')) as E.
    { apply Hraise; [discriminate | reflexivity | reflexivity | reflexivity]. }
    injection E as <-. reflexivity.
Defined.

Example unknown_kind_ignored :
  mattermost_event_handler Json.loads Demo.bot Demo.typing_event Demo.start
  = (Val tt,
     {| calls := []; direct_channels := [];
        trace := [Log DEBUG "No event handler available for {}, ignoring."
                    [PStr "typing"]] |}).
Proof. reflexivity. Qed.

(** The bot leaves a room when it is the user that was removed, and only
    then. *)
Example room_left_scenario :
  exists w1 w2,
    mattermost_event_handler Json.loads Demo.bot (Demo.user_removed_event "BOT")
      Demo.start = (Val tt, w1)
    /\ callbacks (trace w1) = [CallbackRoomLeft]
    /\ mattermost_event_handler Json.loads Demo.bot (Demo.user_removed_event "U7")
         Demo.start = (Val tt, w2)
    /\ callbacks (trace w2) = [].
Proof.
  do 2 eexists. split; [vm_compute; reflexivity|]. split; [reflexivity|].
  split; [vm_compute; reflexivity|]. reflexivity.
Qed.

(** C1 (as stated) fails: a payload that is not JSON makes [json.loads]
    raise before the [try], and the dispatcher lets the error through; so
    does the lookup of an event kind that cannot be hashed. *)
Lemma mattermost_event_handler_decode_error_escapes :
  mattermost_event_handler Json.loads Demo.bot "{" Demo.start
  = (Exn JSONDecodeError, Demo.start)
  /\ mattermost_event_handler Json.loads Demo.bot Demo.array_kind_event Demo.start
     = (Exn TypeError, Demo.start)
  /\ ~ (forall payload,
          exists w',
            mattermost_event_handler Json.loads Demo.bot payload Demo.start
            = (Val tt, w')).
Proof.
  split; [reflexivity|]. split; [reflexivity|].
  intros H. destruct (H "{") as [w' E]. discriminate E.
Qed.

(** ** The message handler *)

(** *** Reading a computation that returned a value *)

Lemma bind_val_inv {A B} (m : M A) (k : A -> M B) w b w' :
  bind m k w = (Val b, w') ->
  exists a w1, m w = (Val a, w1) /\ k a w1 = (Val b, w').
Proof.
  unfold bind. destruct (m w) as [[a|e|] w1]; try discriminate.
  intros H. now exists a, w1.
Qed.

Lemma lift_val_inv {A} (x : Exc A) w a w' :
  lift x w = (Val a, w') -> x = Ok a /\ w' = w.
Proof. unfold lift. destruct x; intros [= <- <-]; auto. Qed.

Lemma ret_val_inv {A} (x : A) w a w' :
  ret x w = (Val a, w') -> a = x /\ w' = w.
Proof. intros [= <- <-]; auto. Qed.

Lemma when_log_return_inv c lvl fmt args w a w' :
  when c (log lvl fmt args ;;; return_) w = (Val a, w') -> c = false.
Proof. destruct c; [discriminate | reflexivity]. Qed.

Lemma loads_val_inv json_loads v w p w' :
  loads json_loads v w = (Val p, w') ->
  exists text, v = PStr text /\ json_loads text = Ok p.
Proof.
  destruct v; try discriminate. cbn. intros H.
  apply lift_val_inv in H. destruct H as [H _]. now exists s.
Qed.

Lemma contains_false_getitem data key :
  Py.contains key data = Ok false ->
  (exists d, data = PDict d) ->
  exists e, Py.getitem data key = Raise e.
Proof.
  intros H [d ->]. cbn in *. destruct (Py.lookup key d); [discriminate|].
  now exists KeyError.
Qed.

Lemma getitem_dict v key x : Py.getitem v key = Ok x -> exists d, v = PDict d.
Proof. destruct v; try discriminate. intros _. now eexists. Qed.

Tactic Notation "inv_bind" hyp(H) "as" ident(a) ident(H1) :=
  let w := fresh "w" in
  apply bind_val_inv in H; destruct H as (a & w & H1 & H).

Tactic Notation "inv_lift" hyp(H) "as" ident(a) ident(E) :=
  let w := fresh "w" in
  apply bind_val_inv in H; destruct H as (a & w & E & H);
  apply lift_val_inv in E; destruct E as [E ->].

Ltac skip_bind H :=
  let a := fresh "a" in let w := fresh "w" in let H1 := fresh "H" in
  apply bind_val_inv in H; destruct H as (a & w & H1 & H); clear H1.

(** What the locals hold when lines 206-273 come to their end: the channel
    type is that of the event, and the sender id is truthy and comes from the
    top-level [user_id] or else from the post. *)
Lemma fields_inv json_loads self message w l w1 data :
  Py.getitem message "data" = Ok data ->
  _message_event_handler_fields json_loads self message w = (Val l, w1) ->
  Py.getitem data "channel_type" = Ok (l_channel_type l)
  /\ resolved_sender json_loads data = Some (l_userid l)
  /\ Py.truthy (l_userid l) = true.
Proof.
  intros Hdata H. unfold _message_event_handler_fields in H.
  skip_bind H.
  inv_lift H as data' E. rewrite Hdata in E. injection E as <-.
  inv_lift H as team_id Eteam.
  do 4 skip_bind H.
  inv_lift H as channel_type Ect.
  skip_bind H.
  inv_lift H as has_post Epost.
  inv_bind H as post_vars Hpost.
  destruct post_vars as [[[text post_id] file_ids] userid].
  inv_lift H as has_user_id Ehas.
  inv_bind H as userid' Huser.
  inv_bind H as u Htruthy.
  apply when_log_return_inv in Htruthy. apply negb_false_iff in Htruthy.
  do 3 skip_bind H.
  apply ret_val_inv in H. destruct H as [-> _]. cbn.
  split; [exact Ect|]. split; [|exact Htruthy].
  unfold resolved_sender.
  destruct has_user_id.
  - apply lift_val_inv in Huser. destruct Huser as [-> _]. reflexivity.
  - apply ret_val_inv in Huser. destruct Huser as [-> _].
    destruct (contains_false_getitem _ _ Ehas (getitem_dict _ _ _ Eteam)) as [e ->].
    destruct has_post.
    + inv_lift Hpost as post_text Etext.
      inv_bind Hpost as post Hloads.
      apply loads_val_inv in Hloads. destruct Hloads as [t [-> Hjson]].
      skip_bind Hpost. inv_lift Hpost as uid Euid.
      do 6 skip_bind Hpost.
      apply ret_val_inv in Hpost. destruct Hpost as [[= _ _ _ ->] _].
      rewrite Etext, Hjson, Euid. reflexivity.
    + apply ret_val_inv in Hpost. destruct Hpost as [[= _ _ _ ->] _].
      discriminate Htruthy.
Qed.

(** Lines 290-293: the message callback fires, then the mention callback
    when there are mentions and the first callback returned. *)
Lemma emit_callbacks self msg mentions w :
  exists out w' rest,
    (callback self (CallbackMessage msg) ;;;
     when (match mentions with [] => false | _ => true end)
       (callback self (CallbackMention msg mentions))) w = (out, w')
    /\ out <> Return
    /\ callbacks (trace w') = (callbacks (trace w) ++ CallbackMessage msg :: rest)%list
    /\ (rest = [] \/ rest = [CallbackMention msg mentions]).
Proof.
  unfold bind, callback, when.
  destruct (errbot self (CallbackMessage msg)).
  - exists (Exn e). eexists. exists []. split; [reflexivity|]. split; [discriminate|].
    cbn. rewrite callbacks_app. auto.
  - destruct mentions as [|m ms].
    + exists (Val tt). eexists. exists []. split; [reflexivity|]. split; [discriminate|].
      cbn. rewrite callbacks_app. auto.
    + destruct (errbot self (CallbackMention msg (m :: ms))) eqn:E;
        do 2 eexists; exists [CallbackMention msg (m :: ms)];
        (split; [reflexivity|]); (split; [discriminate|]);
        cbn; rewrite !callbacks_app, <- app_assoc; auto.
Qed.

Lemma MattermostRoomOccupant_init_person teamid userid channelid bot w o w' :
  MattermostRoomOccupant_init teamid userid channelid bot w = (Val o, w') ->
  MattermostRoomOccupant.person o = MattermostPerson.init userid channelid teamid.
Proof.
  unfold MattermostRoomOccupant_init. intros H.
  apply bind_val_inv in H. destruct H as (r & w1 & _ & H).
  apply ret_val_inv in H. destruct H as [-> _]. reflexivity.
Qed.

(** Lines 276-293 by channel type. *)
Lemma addressing_cases self l w :
  exists out w',
    _message_event_handler_addressing self l w = (out, w')
    /\ (l_channel_type l = PStr "D" ->
        exists rest,
          out <> Return /\
          callbacks (trace w') =
            (callbacks (trace w)
             ++ CallbackMessage
                  (set_frm_to (l_msg l)
                     (IsPerson (MattermostPerson.init (l_userid l) (l_channelid l)
                                  (PStr (teamid self))))
                     (IsPerson (MattermostPerson.init (PStr (bot_userid self))
                                  (l_channelid l) (PStr (teamid self)))))
                :: rest)%list)
    /\ (l_channel_type l = PStr "O" \/ l_channel_type l = PStr "P" ->
        callbacks (trace w') = callbacks (trace w)
        \/ exists o r rest,
             MattermostRoomOccupant.person o
             = MattermostPerson.init (l_userid l) (l_channelid l) (PStr (teamid self))
             /\ callbacks (trace w') =
                (callbacks (trace w)
                 ++ CallbackMessage
                      (set_frm_to (l_msg l) (IsRoomOccupant o) (IsRoom r))
                    :: rest)%list)
    /\ (l_channel_type l <> PStr "D" -> l_channel_type l <> PStr "O" ->
        l_channel_type l <> PStr "P" ->
        out = Return /\ callbacks (trace w') = callbacks (trace w)).
Proof.
  unfold _message_event_handler_addressing.
  destruct (Py.eq_str (l_channel_type l) "D") eqn:ED.
  { apply eq_str_true in ED.
    unfold bind at 1. cbn [ret].
    match goal with |- context [CallbackMessage ?m] => set (msg := m) end.
    destruct (emit_callbacks self msg (l_mentions l) w) as (out & w' & rest & E & Hout & Hcb & _).
    exists out, w'. split; [exact E|]. split; [|split].
    - intros _. exists rest. auto.
    - rewrite ED. intros [H|H]; discriminate H.
    - intros H. contradiction. }
  destruct (Py.eq_str (l_channel_type l) "O" || Py.eq_str (l_channel_type l) "P") eqn:EOP.
  { assert (l_channel_type l = PStr "O" \/ l_channel_type l = PStr "P") as HOP.
    { apply orb_true_iff in EOP. destruct EOP as [H|H]; apply eq_str_true in H; auto. }
    unfold bind at 1, bind at 1.
    destruct (MattermostRoomOccupant_init _ _ _ _ w) as [[o| |] wa] eqn:Eo;
      pose proof (quiet_MattermostRoomOccupant_init _ _ _ _ _ _ _ Eo) as Qo.
    2,3: do 2 eexists; (split; [reflexivity|]); (split; [|split]);
         [ intros H; rewrite H in ED; discriminate ED | intros _; left; exact Qo
         | intros _ H1 H2; destruct HOP; contradiction ].
    unfold bind at 1.
    destruct (MattermostRoom_init _ _ _ _ wa) as [[r| |] wb] eqn:Er;
      pose proof (quiet_MattermostRoom_init _ _ _ _ _ _ _ Er) as Qr.
    2,3: do 2 eexists; (split; [reflexivity|]); (split; [|split]);
         [ intros H; rewrite H in ED; discriminate ED
         | intros _; left; rewrite Qr; exact Qo
         | intros _ H1 H2; destruct HOP; contradiction ].
    cbn [ret].
    match goal with |- context [CallbackMessage ?m] => set (msg := m) end.
    destruct (emit_callbacks self msg (l_mentions l) wb) as (out & w' & rest & E & Hout & Hcb & _).
    exists out, w'. split; [exact E|]. split; [|split].
    - intros H; rewrite H in ED; discriminate ED.
    - intros _. right. exists o, r, rest. split.
      + exact (MattermostRoomOccupant_init_person _ _ _ _ _ _ _ Eo).
      + rewrite Hcb, Qr, Qo. reflexivity.
    - intros _ H1 H2; destruct HOP; contradiction. }
  apply orb_false_iff in EOP. destruct EOP as [EO EP].
  do 2 eexists. split; [reflexivity|]. split; [|split].
  - intros H. apply eq_str_true in H. congruence.
  - intros [H|H]; apply eq_str_true in H; congruence.
  - intros _ _ _. split; [reflexivity|]. cbn. apply callbacks_log.
Qed.

(** *** The constructors of the group addressing *)

(** The world after one call on the platform. *)
Lemma channelid_to_channelname_known self channelid w channel name :
  api self (calls w) (get_channel channelid) = Ok channel ->
  Py.getitem channel "name" = Ok name ->
  channelid_to_channelname self channelid w
  = (Val name,
     {| calls := calls w ++ [get_channel channelid];
        direct_channels := direct_channels w; trace := trace w |}).
Proof.
  intros Hapi Hname. unfold channelid_to_channelname, bind, call, lift.
  rewrite Hapi. destruct (getitem_dict _ _ _ Hname) as [d ->].
  cbn in *. destruct (Py.lookup "name" d); [|discriminate].
  cbn. unfold lift. cbn. now injection Hname as ->.
Qed.

Lemma channelid_to_channelname_not_return self channelid w w' :
  channelid_to_channelname self channelid w <> (Return, w').
Proof.
  unfold channelid_to_channelname, bind, call, lift, raise.
  destruct (api self (calls w) (get_channel channelid)) as [channel|e];
    [|discriminate].
  destruct (Py.contains "name" channel) as [[|]|]; cbn; try discriminate.
  destruct (Py.getitem channel "name"); discriminate.
Qed.

Lemma MattermostRoom_init_not_return name channelid teamid bot w w' :
  MattermostRoom_init name channelid teamid bot w <> (Return, w').
Proof.
  unfold MattermostRoom_init.
  destruct (negb (Py.is_none channelid) && negb (Py.is_none name)); [discriminate|].
  destruct (Py.is_none teamid); [discriminate|].
  unfold bind.
  destruct (negb (Py.is_none name)).
  - destruct name; try discriminate.
    destruct (Str.startswith s "~"); destruct bot; discriminate.
  - destruct bot as [b|]; [|discriminate].
    destruct (channelid_to_channelname b channelid w) as [[n|e|] w1] eqn:E;
      try discriminate.
    now apply channelid_to_channelname_not_return in E.
Qed.

Lemma MattermostRoom_init_named self text teamid_ w :
  MattermostRoom_init (PStr text) PNone (PStr teamid_) (Some self) w
  = (Val (MattermostRoom.make
            (PStr (if Str.startswith text "~" then Py.tail text else text))
            PNone (PStr teamid_)), w).
Proof.
  unfold MattermostRoom_init, bind. cbn [Py.is_none negb andb].
  destruct (Str.startswith text "~"); reflexivity.
Qed.

Lemma MattermostRoomOccupant_init_not_return teamid_ userid_ channelid bot w w' :
  MattermostRoomOccupant_init teamid_ userid_ channelid bot w <> (Return, w').
Proof.
  unfold MattermostRoomOccupant_init, bind.
  destruct (MattermostRoom_init PNone channelid teamid_ bot w) as [[r|e|] w1] eqn:E;
    try discriminate.
  now apply MattermostRoom_init_not_return in E.
Qed.

Lemma MattermostRoomOccupant_init_known self teamid_ userid_ channelid w channel name :
  api self (calls w) (get_channel channelid) = Ok channel ->
  Py.getitem channel "name" = Ok name ->
  MattermostRoomOccupant_init (PStr teamid_) userid_ channelid (Some self) w
  = (Val (MattermostRoomOccupant.make
            (MattermostPerson.init userid_ channelid (PStr teamid_))
            (MattermostRoom.make name channelid (PStr teamid_))),
     {| calls := calls w ++ [get_channel channelid];
        direct_channels := direct_channels w; trace := trace w |}).
Proof.
  intros Hapi Hname.
  unfold MattermostRoomOccupant_init, MattermostRoom_init.
  cbn [Py.is_none negb andb]. rewrite andb_false_r.
  unfold bind at 1 2.
  rewrite (channelid_to_channelname_known _ _ _ _ _ Hapi Hname). reflexivity.
Qed.

(** For a channel type other than ["D"], line 224 reads the channel name. *)
Lemma fields_channel_name json_loads self message w l w1 data :
  Py.getitem message "data" = Ok data ->
  _message_event_handler_fields json_loads self message w = (Val l, w1) ->
  Py.eq_str (l_channel_type l) "D" = false ->
  Py.getitem data "channel_name" = Ok (l_channel l).
Proof.
  intros Hdata H HD. unfold _message_event_handler_fields in H.
  skip_bind H.
  inv_lift H as data' E. rewrite Hdata in E. injection E as <-.
  inv_lift H as team_id Eteam.
  do 4 skip_bind H.
  inv_lift H as channel_type Ect.
  inv_bind H as channel Hchannel.
  skip_bind H.
  inv_bind H as post_vars Hpost.
  destruct post_vars as [[[text post_id] file_ids] userid].
  do 6 skip_bind H.
  apply ret_val_inv in H. destruct H as [-> _]. cbn in *.
  rewrite HD in Hchannel. cbn in Hchannel.
  apply lift_val_inv in Hchannel. tauto.
Qed.

(** Lines 284-293 for the channel types ["O"] and ["P"]: the two
    constructors raise and nothing fires, or the message is emitted from a
    RoomOccupant to a Room; it is emitted when the platform knows the
    channel and the event names it. *)
Lemma addressing_group self l w :
  Py.eq_str (l_channel_type l) "D" = false ->
  Py.eq_str (l_channel_type l) "O" || Py.eq_str (l_channel_type l) "P" = true ->
  exists out w',
    _message_event_handler_addressing self l w = (out, w')
    /\ out <> Return
    /\ ((exists e, out = Exn e /\ callbacks (trace w') = callbacks (trace w))
        \/ exists o r rest,
             callbacks (trace w')
             = (callbacks (trace w)
                ++ CallbackMessage (set_frm_to (l_msg l) (IsRoomOccupant o) (IsRoom r))
                   :: rest)%list)
    /\ (forall channel room_name channel_name,
          api self (calls w) (get_channel (l_channelid l)) = Ok channel ->
          Py.getitem channel "name" = Ok room_name ->
          l_channel l = PStr channel_name ->
          exists rest,
            callbacks (trace w')
            = (callbacks (trace w)
               ++ CallbackMessage
                    (set_frm_to (l_msg l)
                       (IsRoomOccupant
                          (MattermostRoomOccupant.make
                             (MattermostPerson.init (l_userid l) (l_channelid l)
                                (PStr (teamid self)))
                             (MattermostRoom.make room_name (l_channelid l)
                                (PStr (teamid self)))))
                       (IsRoom
                          (MattermostRoom.make
                             (PStr (if Str.startswith channel_name "~"
                                    then Py.tail channel_name else channel_name))
                             PNone (PStr (teamid self)))))
                  :: rest)%list).
Proof.
  intros ED EOP. unfold _message_event_handler_addressing. rewrite ED, EOP.
  unfold bind at 1, bind at 1.
  destruct (MattermostRoomOccupant_init _ _ _ _ w) as [[o|e|] wa] eqn:Eo;
    pose proof (quiet_MattermostRoomOccupant_init _ _ _ _ _ _ _ Eo) as Qo.
  3: now apply MattermostRoomOccupant_init_not_return in Eo.
  2: { exists (Exn e), wa. split; [reflexivity|]. split; [discriminate|]. split.
       - left. now exists e.
       - intros channel room_name channel_name Hapi Hname _.
         rewrite (MattermostRoomOccupant_init_known _ _ _ _ _ _ _ Hapi Hname) in Eo.
         discriminate Eo. }
  unfold bind at 1.
  destruct (MattermostRoom_init _ _ _ _ wa) as [[r|e|] wb] eqn:Er;
    pose proof (quiet_MattermostRoom_init _ _ _ _ _ _ _ Er) as Qr.
  3: now apply MattermostRoom_init_not_return in Er.
  2: { exists (Exn e), wb. split; [reflexivity|]. split; [discriminate|]. split.
       - left. exists e. split; [reflexivity|]. now rewrite Qr.
       - intros channel room_name channel_name _ _ Hch.
         rewrite Hch, MattermostRoom_init_named in Er. discriminate Er. }
  cbn [ret].
  match goal with |- context [CallbackMessage ?m] => set (msg := m) end.
  destruct (emit_callbacks self msg (l_mentions l) wb)
    as (out & w' & rest & E & Hout & Hcb & _).
  exists out, w'. split; [exact E|]. split; [exact Hout|].
  rewrite Qr, Qo in Hcb. split.
  - right. exists o, r, rest. exact Hcb.
  - intros channel room_name channel_name Hapi Hname Hch.
    rewrite (MattermostRoomOccupant_init_known _ _ _ _ _ _ _ Hapi Hname) in Eo.
    injection Eo as <- <-.
    rewrite Hch, MattermostRoom_init_named in Er. injection Er as <- _.
    exists rest. exact Hcb.
Qed.

(** C6.  For a posted event that reaches the addressing step (lines 206-273
    came to their end with locals [l]): with channel type ["D"] a message is
    emitted whose sender is a Person and whose recipient is the bot as a
    Person.  With ["O"] or ["P"] the message is emitted with a RoomOccupant
    as sender and a Room as recipient, unless one of the two constructors
    raises, in which case the handler raises and nothing fires; it is
    emitted whenever the platform knows the channel of the event and the
    event names the channel, the sender then being the occupant of that
    channel and the recipient the room of that name.  With any other channel
    type the handler returns and no callback fires. *)
Theorem addressing_by_channel_type
  (json_loads : string -> Exc pyval) (self : MattermostBackend)
  (message data channel_type : pyval) (w : World) (l : locals) (w1 : World) :
  Py.getitem message "data" = Ok data ->
  Py.getitem data "channel_type" = Ok channel_type ->
  _message_event_handler_fields json_loads self message w = (Val l, w1) ->
  exists out w',
    _message_event_handler json_loads self message w = (out, w')
    /\ (channel_type = PStr "D" ->
        exists msg rest,
          callbacks (trace w') = (callbacks (trace w) ++ CallbackMessage msg :: rest)%list
          /\ frm msg = Some (IsPerson (MattermostPerson.init (l_userid l) (l_channelid l)
                                         (PStr (teamid self))))
          /\ to msg = Some (IsPerson (MattermostPerson.init (PStr (bot_userid self))
                                        (l_channelid l) (PStr (teamid self)))))
    /\ (channel_type = PStr "O" \/ channel_type = PStr "P" ->
        ((exists e, out = Exn e /\ callbacks (trace w') = callbacks (trace w))
         \/ exists msg o r rest,
              callbacks (trace w')
              = (callbacks (trace w) ++ CallbackMessage msg :: rest)%list
              /\ frm msg = Some (IsRoomOccupant o)
              /\ to msg = Some (IsRoom r))
        /\ (forall channel room_name channel_name,
              api self (calls w1) (get_channel (l_channelid l)) = Ok channel ->
              Py.getitem channel "name" = Ok room_name ->
              Py.getitem data "channel_name" = Ok (PStr channel_name) ->
              exists msg rest,
                callbacks (trace w')
                = (callbacks (trace w) ++ CallbackMessage msg :: rest)%list
                /\ frm msg
                   = Some (IsRoomOccupant
                             (MattermostRoomOccupant.make
                                (MattermostPerson.init (l_userid l) (l_channelid l)
                                   (PStr (teamid self)))
                                (MattermostRoom.make room_name (l_channelid l)
                                   (PStr (teamid self)))))
                /\ to msg
                   = Some (IsRoom
                             (MattermostRoom.make
                                (PStr (if Str.startswith channel_name "~"
                                       then Py.tail channel_name else channel_name))
                                PNone (PStr (teamid self))))))
    /\ (channel_type <> PStr "D" -> channel_type <> PStr "O" ->
        channel_type <> PStr "P" ->
        out = Val tt /\ callbacks (trace w') = callbacks (trace w)).
Proof.
  intros Hdata Hct Hfields.
  destruct (fields_inv _ _ _ _ _ _ _ Hdata Hfields) as [Hct' _].
  rewrite Hct in Hct'. injection Hct' as ->.
  pose proof (quiet_fields _ _ _ _ _ _ Hfields) as Q.
  destruct (Py.eq_str (l_channel_type l) "D") eqn:ED.
  2: destruct (Py.eq_str (l_channel_type l) "O" || Py.eq_str (l_channel_type l) "P")
       eqn:EOP.
  2: { destruct (addressing_group self l w1 ED EOP)
         as (out & w' & E & Hout & Hall & Hknown).
       exists out, w'. split.
       { unfold _message_event_handler, def_, bind. rewrite Hfields, E.
         destruct out; [reflexivity | reflexivity | contradiction]. }
       rewrite <- Q. split; [|split].
       - intros H. rewrite H in ED. discriminate ED.
       - intros _. split.
         + destruct Hall as [Hexn | (o & r & rest & Hcb)]; [now left|].
           right. eexists. exists o, r, rest. split; [exact Hcb|]. split; reflexivity.
         + intros channel room_name channel_name Hapi Hname Hch.
           pose proof (fields_channel_name _ _ _ _ _ _ _ Hdata Hfields ED) as Hl.
           rewrite Hch in Hl. injection Hl as Hl.
           destruct (Hknown channel room_name channel_name Hapi Hname (eq_sym Hl))
             as (rest & Hcb).
           eexists. exists rest. split; [exact Hcb|]. split; reflexivity.
       - intros _ H1 H2. apply orb_true_iff in EOP.
         destruct EOP as [H|H]; apply eq_str_true in H; contradiction. }
  all: destruct (addressing_cases self l w1) as (out & w' & E & HD & _ & Hother);
    exists (match out with Return => Val tt | _ => out end), w';
    (split; [unfold _message_event_handler, def_, bind; rewrite Hfields, E;
             destruct out; reflexivity|]);
    rewrite <- Q; (split; [|split]).
  - intros H. destruct (HD H) as (rest & _ & Hcb).
    eexists. exists rest. split; [exact Hcb|]. split; reflexivity.
  - apply eq_str_true in ED. rewrite ED. intros [H|H]; discriminate H.
  - intros H. apply eq_str_true in ED. contradiction.
  - intros H. rewrite H in ED. discriminate ED.
  - apply orb_false_iff in EOP. destruct EOP as [EO EP].
    intros [H|H]; rewrite H in *; discriminate.
  - intros H1 H2 H3. destruct (Hother H1 H2 H3) as [-> Hcb].
    split; [reflexivity | exact Hcb].
Qed.

(** What the message handler fires: nothing, or a message whose sender id
    is the truthy id that [resolved_sender] names. *)
Lemma sender_id_cases
  (json_loads : string -> Exc pyval) (self : MattermostBackend)
  (message data : pyval) (w : World) (out : outcome unit) (w' : World) :
  Py.getitem message "data" = Ok data ->
  _message_event_handler json_loads self message w = (out, w') ->
  callbacks (trace w') = callbacks (trace w)
  \/ exists user_id msg rest,
       resolved_sender json_loads data = Some user_id
       /\ Py.truthy user_id = true
       /\ callbacks (trace w') = (callbacks (trace w) ++ CallbackMessage msg :: rest)%list
       /\ sender_userid msg = Some user_id.
Proof.
  intros Hdata H.
  unfold _message_event_handler, def_, bind in H.
  destruct (_message_event_handler_fields json_loads self message w)
    as [[l|e|] w1] eqn:Hfields;
    pose proof (quiet_fields _ _ _ _ _ _ Hfields) as Q.
  2,3: left; injection H as _ <-; exact Q.
  destruct (fields_inv _ _ _ _ _ _ _ Hdata Hfields) as (_ & Hres & Htruthy).
  destruct (addressing_cases self l w1) as (out1 & w2 & E & HD & HOP & Hother).
  rewrite E in H.
  assert (w' = w2) as -> by (destruct out1; injection H as _ <-; reflexivity).
  rewrite <- Q.
  destruct (Py.eq_str (l_channel_type l) "D") eqn:ED.
  { apply eq_str_true in ED. destruct (HD ED) as (rest & _ & Hcb).
    right. exists (l_userid l). eexists. exists rest.
    split; [exact Hres|]. split; [exact Htruthy|]. split; [exact Hcb|]. reflexivity. }
  destruct (Py.eq_str (l_channel_type l) "O") eqn:EO.
  { apply eq_str_true in EO.
    destruct (HOP (or_introl EO)) as [Hcb | (o & r & rest & Hp & Hcb)]; [now left|].
    right. exists (l_userid l). eexists. exists rest.
    split; [exact Hres|]. split; [exact Htruthy|]. split; [exact Hcb|].
    unfold sender_userid. cbn. rewrite Hp. reflexivity. }
  destruct (Py.eq_str (l_channel_type l) "P") eqn:EP.
  { apply eq_str_true in EP.
    destruct (HOP (or_intror EP)) as [Hcb | (o & r & rest & Hp & Hcb)]; [now left|].
    right. exists (l_userid l). eexists. exists rest.
    split; [exact Hres|]. split; [exact Htruthy|]. split; [exact Hcb|].
    unfold sender_userid. cbn. rewrite Hp. reflexivity. }
  left. apply Hother; intros Hc; apply eq_str_true in Hc; congruence.
Qed.

(** C2 (as amended).  Whatever the message handler does on a posted event,
    either no callback fires, or a message is emitted whose sender id is the
    one [resolved_sender] names: the top-level [data.user_id] when the event
    has one, with or without an embedded post, and the post's [user_id]
    otherwise.  When that id is missing or falsy, no callback fires. *)
Theorem sender_id_source
  (json_loads : string -> Exc pyval) (self : MattermostBackend)
  (message data : pyval) (w : World) (out : outcome unit) (w' : World) :
  Py.getitem message "data" = Ok data ->
  _message_event_handler json_loads self message w = (out, w') ->
  (callbacks (trace w') = callbacks (trace w)
   \/ exists user_id msg rest,
        resolved_sender json_loads data = Some user_id
        /\ Py.truthy user_id = true
        /\ callbacks (trace w')
           = (callbacks (trace w) ++ CallbackMessage msg :: rest)%list
        /\ sender_userid msg = Some user_id)
  /\ (resolved_sender json_loads data = None
      \/ (exists user_id, resolved_sender json_loads data = Some user_id
                          /\ Py.truthy user_id = false) ->
      callbacks (trace w') = callbacks (trace w)).
Proof.
  intros Hdata H.
  pose proof (sender_id_cases json_loads self message data w out w' Hdata H) as Hcases.
  split; [exact Hcases|].
  intros Hnone.
  destruct Hcases as [Hcb | (user_id & msg & rest & Hres & Htruthy & _)]; [exact Hcb|].
  destruct Hnone as [Hn | (u & Hu & Hfalsy)]; congruence.
Qed.

(** *** The handler on concrete events *)

Example scenario_decodes : Json.loads Demo.scenario_event = Ok Demo.scenario_message.
Proof. vm_compute. reflexivity. Qed.

(** The scenario of the contract with the bot bound to team T1: one message
    with body ["hi"], sent by the RoomOccupant U1 to the Room general. *)
Example scenario_bound_team :
  exists w' msg o r,
    _message_event_handler Json.loads Demo.bot Demo.scenario_message Demo.start
    = (Val tt, w')
    /\ callbacks (trace w') = [CallbackMessage msg]
    /\ body msg = PStr "hi"
    /\ frm msg = Some (IsRoomOccupant o)
    /\ MattermostPerson.userid (MattermostRoomOccupant.person o) = PStr "U1"
    /\ to msg = Some (IsRoom r)
    /\ MattermostRoom._name r = PStr "general"
    /\ extras_url msg = "https://chat.example.org:8065/main/pl/P1".
Proof.
  do 4 eexists. split; [vm_compute; reflexivity|].
  repeat (split; [reflexivity|]). reflexivity.
Qed.

Lemma addressing_by_channel_type_witness :
  exists out w' msg rest,
    _message_event_handler Json.loads Demo.bot Demo.scenario_message Demo.start
    = (out, w')
    /\ callbacks (trace w')
       = (callbacks (trace Demo.start) ++ CallbackMessage msg :: rest)%list
    /\ frm msg
       = Some (IsRoomOccupant
                 (MattermostRoomOccupant.make
                    (MattermostPerson.init (PStr "U1") (PStr "C1") (PStr "T1"))
                    (MattermostRoom.make (PStr "general") (PStr "C1") (PStr "T1"))))
    /\ to msg
       = Some (IsRoom (MattermostRoom.make (PStr "general") PNone (PStr "T1"))).
Proof.
  edestruct (addressing_by_channel_type Json.loads Demo.bot Demo.scenario_message)
    as (out & w' & E & _ & HOP & _).
  - reflexivity.
  - reflexivity.
  - vm_compute. reflexivity.
  - destruct (HOP (or_introl eq_refl)) as [_ Hknown].
    edestruct Hknown as (msg & rest & Hcb & Hfrm & Hto).
    + reflexivity.
    + reflexivity.
    + reflexivity.
    + exists out, w', msg, rest. split; [exact E|]. split; [exact Hcb|].
      split; [exact Hfrm | exact Hto].
Defined.

Lemma sender_id_source_witness :
  exists w' user_id msg rest,
    _message_event_handler Json.loads Demo.bot Demo.two_senders_message Demo.start
    = (Val tt, w')
    /\ callbacks (trace w')
       = (callbacks (trace Demo.start) ++ CallbackMessage msg :: rest)%list
    /\ sender_userid msg = Some user_id
    /\ user_id = PStr "U2".
Proof.
  eexists.
  edestruct (sender_id_source Json.loads Demo.bot Demo.two_senders_message
               Demo.two_senders_data Demo.start)
    as [[Hcb | (user_id & msg & rest & Hres & _ & Hcb & Hsender)] _].
  - reflexivity.
  - vm_compute. reflexivity.
  - vm_compute in Hcb. discriminate Hcb.
  - exists user_id, msg, rest. split; [reflexivity|]. split; [exact Hcb|].
    split; [exact Hsender|]. injection Hres as <-. reflexivity.
Defined.

(** C2 (as stated) fails: the event embeds a post of user U1 and names U2 in
    its top-level [user_id]; the message that is emitted comes from U2. *)
Lemma top_level_user_id_overrides_post :
  exists post w' msg,
    Json.loads (Json.dq "{'message':'hi','user_id':'U1','id':'P1'}") = Ok post
    /\ Py.getitem post "user_id" = Ok (PStr "U1")
    /\ _message_event_handler Json.loads Demo.bot Demo.two_senders_message Demo.start
       = (Val tt, w')
    /\ callbacks (trace w') = [CallbackMessage msg]
    /\ sender_userid msg = Some (PStr "U2").
Proof.
  do 3 eexists. split; [vm_compute; reflexivity|].
  split; [reflexivity|]. split; [vm_compute; reflexivity|].
  split; reflexivity.
Qed.

(** ** Rooms *)

(** C9.  [MattermostRoom] needs a team id and one of name and channel id.
    It refuses, with [ValueError], a name together with a channel id, and an
    absent team id.  With a team id and a bot: a name alone (a text) makes
    the room without calling the platform, and a channel id alone makes the
    room, named as the platform names that channel, with one lookup.  With
    neither name nor channel id the constructor has no check of its own: it
    looks up the channel of id [None], and as the platform has no such
    channel, construction raises. *)
Theorem MattermostRoom_init_validation
  (name channelid teamid : pyval) (bot : option MattermostBackend) (w : World) :
  (name <> PNone -> channelid <> PNone ->
   MattermostRoom_init name channelid teamid bot w = (Exn ValueError, w))
  /\ (teamid = PNone ->
      MattermostRoom_init name channelid teamid bot w = (Exn ValueError, w))
  /\ (name = PNone -> channelid = PNone ->
      (forall self channel room_name,
         bot = Some self ->
         api self (calls w) (get_channel PNone) = Ok channel ->
         Py.getitem channel "name" <> Ok room_name) ->
      exists e w', MattermostRoom_init name channelid teamid bot w = (Exn e, w'))
  /\ (forall text self,
        name = PStr text -> channelid = PNone -> teamid <> PNone -> bot = Some self ->
        MattermostRoom_init name channelid teamid bot w
        = (Val (MattermostRoom.make
                  (PStr (if Str.startswith text "~" then Py.tail text else text))
                  PNone teamid), w))
  /\ (forall self channel room_name,
        name = PNone -> channelid <> PNone -> teamid <> PNone -> bot = Some self ->
        api self (calls w) (get_channel channelid) = Ok channel ->
        Py.getitem channel "name" = Ok room_name ->
        MattermostRoom_init name channelid teamid bot w
        = (Val (MattermostRoom.make room_name channelid teamid),
           {| calls := calls w ++ [get_channel channelid];
              direct_channels := direct_channels w; trace := trace w |}))
  /\ (forall self,
        name = PNone -> teamid <> PNone -> bot = Some self ->
        MattermostRoom_init name channelid teamid bot w
        = (_name <- channelid_to_channelname self channelid ;;
           ret (MattermostRoom.make _name channelid teamid)) w).
Proof.
  unfold MattermostRoom_init. split; [|split; [|split; [|split; [|split]]]].
  - intros Hn Hc. destruct name, channelid; try contradiction; reflexivity.
  - intros ->. destruct (negb (Py.is_none channelid) && negb (Py.is_none name));
      reflexivity.
  - intros -> -> Hnone. cbn [Py.is_none negb andb].
    destruct (Py.is_none teamid); [now exists ValueError, w|].
    destruct bot as [self|]; [|now exists AttributeError, w].
    unfold bind at 1.
    destruct (channelid_to_channelname self PNone w) as [[n|e|] w1] eqn:E.
    + exfalso. revert E.
      unfold channelid_to_channelname, bind, call, lift, raise.
      destruct (api self (calls w) (get_channel PNone)) as [channel|e] eqn:Hapi;
        [|discriminate].
      destruct (Py.contains "name" channel) as [[|]|]; cbn; try discriminate.
      destruct (Py.getitem channel "name") as [n'|] eqn:Hname; [|discriminate].
      now destruct (Hnone self channel n' eq_refl Hapi).
    + now exists e, w1.
    + now apply channelid_to_channelname_not_return in E.
  - intros text self -> -> Ht ->. unfold bind.
    destruct teamid; try contradiction;
      destruct (Str.startswith text "~"); reflexivity.
  - intros self channel room_name -> Hc Ht -> Hapi Hname.
    rewrite andb_false_r. cbn [Py.is_none negb].
    destruct (Py.is_none teamid) eqn:En; [destruct teamid; try discriminate En; contradiction|].
    unfold bind at 1.
    rewrite (channelid_to_channelname_known _ _ _ _ _ Hapi Hname). reflexivity.
  - intros self -> Ht ->. rewrite andb_false_r.
    destruct teamid; try contradiction; reflexivity.
Qed.

Lemma MattermostRoom_init_validation_witness :
  MattermostRoom_init (PStr "~general") PNone (PStr "T1") (Some Demo.bot) Demo.start
  = (Val (MattermostRoom.make (PStr "general") PNone (PStr "T1")), Demo.start)
  /\ MattermostRoom_init PNone (PStr "C1") (PStr "T1") (Some Demo.bot) Demo.start
     = (Val (MattermostRoom.make (PStr "general") (PStr "C1") (PStr "T1")),
        {| calls := [get_channel (PStr "C1")]; direct_channels := []; trace := [] |})
  /\ exists e w',
       MattermostRoom_init PNone PNone (PStr "T1") (Some empty_bot) Demo.start
       = (Exn e, w').
Proof.
  split; [|split].
  - apply (proj1 (proj2 (proj2 (proj2
             (MattermostRoom_init_validation (PStr "~general") PNone (PStr "T1")
                (Some Demo.bot) Demo.start))))
             "~general" Demo.bot eq_refl eq_refl).
    + discriminate.
    + reflexivity.
  - apply (proj1 (proj2 (proj2 (proj2 (proj2
             (MattermostRoom_init_validation PNone (PStr "C1") (PStr "T1")
                (Some Demo.bot) Demo.start)))))
             Demo.bot (PDict [("id", PStr "C1"); ("name", PStr "general")])
             (PStr "general") eq_refl).
    + discriminate.
    + discriminate.
    + reflexivity.
    + reflexivity.
    + reflexivity.
  - apply (proj1 (proj2 (proj2
             (MattermostRoom_init_validation PNone PNone (PStr "T1")
                (Some empty_bot) Demo.start)))
             eq_refl eq_refl).
    intros self channel room_name [= <-] Hapi.
    cbn in Hapi. injection Hapi as <-. discriminate.
Defined.

(** ** Identity resolution and the direct-channel cache *)

(** A hashable value equals itself as a key, except NaN. *)
Lemma key_eqb_refl (v : pyval) :
  Py.hashable v = true -> v <> PFloat FNaN -> Py.key_eqb v v = true.
Proof.
  intros Hh Hn. destruct v as [| b | z | [m e | neg |] | s | l | d]; cbn in *;
    try discriminate; try reflexivity.
  - apply Z.eqb_refl.
  - apply Z.eqb_refl.
  - apply Z.eqb_refl.
  - apply Bool.eqb_reflx.
  - contradiction.
  - apply String.eqb_refl.
Qed.

Lemma lru_key_eqb_refl (u : string) (v : pyval) :
  Py.hashable v = true -> v <> PFloat FNaN -> Lru.key_eqb (u, v) (u, v) = true.
Proof.
  intros Hh Hn. unfold Lru.key_eqb. cbn. rewrite String.eqb_refl.
  now apply key_eqb_refl.
Qed.

Lemma lru_find_key k c k' v : Lru.find k c = Some (k', v) -> Lru.key_eqb k' k = true.
Proof.
  induction c as [|[k0 v0] c IH]; cbn; [discriminate|].
  destruct (Lru.key_eqb k0 k) eqn:E; [|exact IH].
  intros [= <- <-]. exact E.
Qed.

Lemma lru_remove_length k c k' v :
  Lru.find k c = Some (k', v) -> S (length (Lru.remove k c)) = length c.
Proof.
  induction c as [|[k0 v0] c IH]; cbn; [discriminate|].
  destruct (Lru.key_eqb k0 k) eqn:E; [reflexivity|].
  intros H. cbn. now rewrite (IH H).
Qed.

(** What a call of the cached method that returns leaves behind. *)
Lemma lru_cache_val n f u v w x w' :
  0 < n ->
  v <> PFloat FNaN ->
  Lru.lru_cache n f u v w = (Val x, w') ->
  Py.hashable v = true
  /\ (exists k', Lru.find (u, v) (direct_channels w') = Some (k', x))
  /\ (length (direct_channels w) <= n -> length (direct_channels w') <= n).
Proof.
  intros Hn Hnan. unfold Lru.lru_cache.
  destruct (Py.hashable v) eqn:Hh; cbn [negb]; [|discriminate].
  unfold bind, Lru.get_cache, Lru.set_cache, ret.
  destruct (Lru.find (u, v) (direct_channels w)) as [[k' x']|] eqn:Efind.
  - intros [= <- <-]. cbn. split; [reflexivity|]. split.
    + exists k'. now rewrite (lru_find_key _ _ _ _ Efind).
    + intros Hlen. pose proof (lru_remove_length _ _ _ _ Efind). cbn. unfold Lru.key in *. lia.
  - destruct (f u v w) as [[y| |] wa]; try discriminate.
    intros [= <- <-]. cbn. split; [reflexivity|]. split.
    + exists (u, v). destruct n as [|n]; [lia|]. cbn.
      now rewrite (lru_key_eqb_refl u v Hh Hnan).
    + intros _. rewrite length_firstn. lia.
Qed.

(** A hit: the stored value comes back and [f] does not run. *)
Lemma lru_cache_hit n f u v w k' x :
  Py.hashable v = true ->
  Lru.find (u, v) (direct_channels w) = Some (k', x) ->
  Lru.lru_cache n f u v w
  = (Val x, {| calls := calls w;
               direct_channels := (k', x) :: Lru.remove (u, v) (direct_channels w);
               trace := trace w |}).
Proof.
  intros Hh Hfind. unfold Lru.lru_cache. rewrite Hh. cbn [negb].
  unfold bind, Lru.get_cache, Lru.set_cache, ret. now rewrite Hfind.
Qed.

Lemma username_to_userid_world self name w r w' :
  username_to_userid self name w = (r, w') ->
  w' = {| calls := calls w ++ [get_user_by_username (Py.lstrip name "@")];
          direct_channels := direct_channels w; trace := trace w |}.
Proof.
  unfold username_to_userid, bind, call, lift, raise.
  destruct (api self (calls w) _) as [user|e]; [|now intros [= _ <-]].
  destruct (Py.is_none user); [now intros [= _ <-]|].
  destruct (Py.getitem user "id"); now intros [= _ <-].
Qed.

Lemma startswith_at_not_tilde s :
  Str.startswith s "@" = true -> Str.startswith s "~" = false.
Proof.
  destruct s as [|c s]; [discriminate|]. cbn [Str.startswith].
  rewrite !andb_true_r. intros H. apply Ascii.eqb_eq in H. now subst c.
Qed.

(** C8.  When [build_identifier] has resolved an ["@username"] reference to
    the Person [p1], and the platform names the same user id for that name
    again, resolving the reference a second time returns the same Person
    (same userid, same channelid).  The second resolution calls the platform
    once, for the user name: the direct channel comes from the cache of
    [get_direct_channel], which holds 1024 entries at most.  (A user id that
    is NaN never equals itself as a cache key, and is left out.) *)
Theorem build_identifier_twice
  (self : MattermostBackend) (txtrep : string) (w w1 w1' : World)
  (p1 : MattermostPerson.t) :
  Str.startswith (Py.strip txtrep) "@" = true ->
  build_identifier self (PStr txtrep) w = (Val (IsPerson p1), w1) ->
  username_to_userid self (Py.tail (Py.strip txtrep)) w1
  = (Val (MattermostPerson.userid p1), w1') ->
  MattermostPerson.userid p1 <> PFloat FNaN ->
  exists w2,
    build_identifier self (PStr txtrep) w1 = (Val (IsPerson p1), w2)
    /\ calls w2
       = (calls w1
          ++ [get_user_by_username (Py.lstrip (Py.tail (Py.strip txtrep)) "@")])%list
    /\ (length (direct_channels w) <= 1024 -> length (direct_channels w2) <= 1024).
Proof.
  intros Hat Hfirst Hsecond Hnan.
  unfold build_identifier in *.
  rewrite (startswith_at_not_tilde _ Hat), Hat in *.
  apply bind_val_inv in Hfirst. destruct Hfirst as (uid & wa & Hlookup & Hfirst).
  destruct (Py.is_none uid) eqn:Enone; cbn [negb] in Hfirst; [discriminate|].
  apply bind_val_inv in Hfirst. destruct Hfirst as (channel & wb & Hchan & Hfirst).
  apply bind_val_inv in Hfirst. destruct Hfirst as (cid & wc & Hid & Hfirst).
  apply lift_val_inv in Hid. destruct Hid as [Hid ->].
  apply ret_val_inv in Hfirst. destruct Hfirst as [[= ->] ->].
  cbn [MattermostPerson.userid] in *.
  apply (lru_cache_val 1024) in Hchan; [|lia|exact Hnan].
  destruct Hchan as (Hh & [k' Hfind] & Hcap).
  pose proof (username_to_userid_world _ _ _ _ _ Hlookup) as Hwa.
  pose proof (username_to_userid_world _ _ _ _ _ Hsecond) as Hw1'.
  unfold bind at 1. rewrite Hsecond. rewrite Enone. cbn [negb].
  unfold bind at 1. unfold get_direct_channel.
  rewrite (lru_cache_hit 1024 _ _ _ w1' k' channel Hh)
    by (rewrite Hw1'; exact Hfind).
  unfold bind, lift, ret. rewrite Hid.
  eexists. split; [reflexivity|]. cbn. rewrite Hw1'. cbn. split; [reflexivity|].
  intros Hlen. pose proof (lru_remove_length _ _ _ _ Hfind) as Hrem.
  assert (length (direct_channels wb) <= 1024) by (apply Hcap; rewrite Hwa; exact Hlen).
  cbn. unfold Lru.key in *. lia.
Qed.

Lemma build_identifier_twice_witness :
  exists p1 w1 w2,
    build_identifier Demo.bot (PStr " @alice") Demo.start = (Val (IsPerson p1), w1)
    /\ build_identifier Demo.bot (PStr " @alice") w1 = (Val (IsPerson p1), w2)
    /\ calls w2 = [get_user_by_username "alice";
                   create_direct_message_channel "BOT" (PStr "id-of-alice");
                   get_user_by_username "alice"]
    /\ length (direct_channels w2) <= 1024.
Proof.
  eexists. eexists.
  edestruct (build_identifier_twice Demo.bot " @alice" Demo.start) as (w2 & E & Hcalls & Hcap).
  - reflexivity.
  - vm_compute. reflexivity.
  - vm_compute. reflexivity.
  - discriminate.
  - exists w2. split; [reflexivity|]. split; [exact E|]. split; [exact Hcalls|].
    apply Hcap. cbn. lia.
Defined.

(** ** The size of the direct-channel cache *)

Lemma bounded_same_cache {A} (m : M A) :
  (forall w r w', m w = (r, w') -> direct_channels w' = direct_channels w) ->
  keeps_cache_bounded m.
Proof. intros H w r w' E. unfold cache_bounded. now rewrite (H _ _ _ E). Qed.

Lemma bounded_ret {A} (a : A) : keeps_cache_bounded (ret a).
Proof. apply bounded_same_cache. now intros w r w' [= _ <-]. Qed.
Lemma bounded_raise {A} (e : exn) : keeps_cache_bounded (@raise A e).
Proof. apply bounded_same_cache. now intros w r w' [= _ <-]. Qed.
Lemma bounded_return {A} : keeps_cache_bounded (@return_ A).
Proof. apply bounded_same_cache. now intros w r w' [= _ <-]. Qed.
Lemma bounded_lift {A} (x : Exc A) : keeps_cache_bounded (lift x).
Proof. apply bounded_same_cache. now intros w r w' [= _ <-]. Qed.
Lemma bounded_log lvl fmt args : keeps_cache_bounded (log lvl fmt args).
Proof. apply bounded_same_cache. now intros w r w' [= _ <-]. Qed.
Lemma bounded_call self req : keeps_cache_bounded (call self req).
Proof. apply bounded_same_cache. now intros w r w' [= _ <-]. Qed.
Lemma bounded_callback self ev : keeps_cache_bounded (callback self ev).
Proof. apply bounded_same_cache. now intros w r w' [= _ <-]. Qed.

Lemma bounded_bind {A B} (m : M A) (k : A -> M B) :
  keeps_cache_bounded m -> (forall a, keeps_cache_bounded (k a)) ->
  keeps_cache_bounded (bind m k).
Proof.
  intros Hm Hk w r w' H Hw. unfold bind in H.
  destruct (m w) as [[a|e|] w1] eqn:E.
  - exact (Hk a _ _ _ H (Hm _ _ _ E Hw)).
  - injection H as _ <-. exact (Hm _ _ _ E Hw).
  - injection H as _ <-. exact (Hm _ _ _ E Hw).
Qed.

Lemma bounded_try_except {A} (m : M A) (h : exn -> M A) :
  keeps_cache_bounded m -> (forall e, keeps_cache_bounded (h e)) ->
  keeps_cache_bounded (try_except m h).
Proof.
  intros Hm Hh w r w' H Hw. unfold try_except in H.
  destruct (m w) as [[a|e|] w1] eqn:E.
  - injection H as _ <-. exact (Hm _ _ _ E Hw).
  - exact (Hh e _ _ _ H (Hm _ _ _ E Hw)).
  - injection H as _ <-. exact (Hm _ _ _ E Hw).
Qed.

Lemma bounded_def (m : M unit) : keeps_cache_bounded m -> keeps_cache_bounded (def_ m).
Proof.
  intros Hm w r w' H Hw. unfold def_ in H.
  destruct (m w) as [[a|e|] w1] eqn:E; injection H as _ <-; exact (Hm _ _ _ E Hw).
Qed.

Lemma bounded_when (c : bool) (m : M unit) :
  keeps_cache_bounded m -> keeps_cache_bounded (when c m).
Proof. intros Hm. destruct c; [exact Hm | apply bounded_ret]. Qed.

Create HintDb bounded.
#[export] Hint Resolve bounded_ret bounded_raise bounded_return bounded_lift
  bounded_log bounded_call bounded_callback bounded_when : bounded.

(** Walks through a computation, as [quiet] does. *)
Ltac bounded_step :=
  match goal with
  | |- keeps_cache_bounded (bind _ _) => apply bounded_bind; [|intros ?]
  | |- keeps_cache_bounded (try_except _ _) => apply bounded_try_except; [|intros ?]
  | |- keeps_cache_bounded (def_ _) => apply bounded_def
  | |- keeps_cache_bounded (when _ _) => apply bounded_when
  | |- keeps_cache_bounded (if ?c then _ else _) => destruct c
  | |- keeps_cache_bounded (match ?x with _ => _ end) => destruct x
  | |- keeps_cache_bounded (let '(_, _) := ?x in _) => destruct x
  | |- keeps_cache_bounded _ => solve [auto with bounded]
  end.
Ltac bounded := repeat bounded_step.

Lemma get_direct_channel_body_cache self u v w r w' :
  get_direct_channel_body self u v w = (r, w') ->
  direct_channels w' = direct_channels w.
Proof.
  unfold get_direct_channel_body, try_except, call, raise.
  destruct (api self (calls w) _) as [x|e]; [now intros [= _ <-]|].
  destruct e; now intros [= _ <-].
Qed.

(** A cached method whose body leaves the cache alone keeps it within
    [maxsize]: a hit reorders, a miss stores one entry and cuts the tail. *)
Lemma lru_cache_length n f u v w r w' :
  (forall w r w', f u v w = (r, w') -> direct_channels w' = direct_channels w) ->
  Lru.lru_cache n f u v w = (r, w') ->
  (length (direct_channels w) <= n)%nat ->
  (length (direct_channels w') <= n)%nat.
Proof.
  intros Hf H Hw. unfold Lru.lru_cache in H.
  destruct (Py.hashable v); cbn [negb] in H; [|now injection H as _ <-].
  unfold bind, Lru.get_cache, Lru.set_cache, ret in H.
  destruct (Lru.find (u, v) (direct_channels w)) as [[k' x]|] eqn:Efind.
  - injection H as _ <-. cbn [direct_channels length].
    pose proof (lru_remove_length _ _ _ _ Efind). unfold Lru.key in *. lia.
  - destruct (f u v w) as [[y| |] wa] eqn:Ebody;
      pose proof (Hf _ _ _ Ebody) as Hc;
      injection H as _ <-; cbn [direct_channels].
    + rewrite length_firstn. lia.
    + now rewrite Hc.
    + now rewrite Hc.
Qed.

Lemma bounded_get_direct_channel self u v :
  keeps_cache_bounded (get_direct_channel self u v).
Proof.
  intros w r w' H Hw. unfold cache_bounded in *.
  apply (lru_cache_length 1024 (get_direct_channel_body self) u v w r w'); auto.
  apply get_direct_channel_body_cache.
Qed.
#[export] Hint Resolve bounded_get_direct_channel : bounded.

Lemma bounded_username_to_userid self name : keeps_cache_bounded (username_to_userid self name).
Proof. unfold username_to_userid. bounded. Qed.
Lemma bounded_channelid_to_channelname self c : keeps_cache_bounded (channelid_to_channelname self c).
Proof. unfold channelid_to_channelname. bounded. Qed.
Lemma bounded_channelname_to_channelid self c : keeps_cache_bounded (channelname_to_channelid self c).
Proof. unfold channelname_to_channelid. bounded. Qed.
#[export] Hint Resolve bounded_username_to_userid bounded_channelid_to_channelname
  bounded_channelname_to_channelid : bounded.

Lemma bounded_MattermostRoom_init name channelid teamid bot :
  keeps_cache_bounded (MattermostRoom_init name channelid teamid bot).
Proof. unfold MattermostRoom_init. bounded. Qed.
#[export] Hint Resolve bounded_MattermostRoom_init : bounded.

Lemma bounded_MattermostRoomOccupant_init teamid userid channelid bot :
  keeps_cache_bounded (MattermostRoomOccupant_init teamid userid channelid bot).
Proof. unfold MattermostRoomOccupant_init. bounded. Qed.
#[export] Hint Resolve bounded_MattermostRoomOccupant_init : bounded.

Lemma bounded_build_identifier self txtrep : keeps_cache_bounded (build_identifier self txtrep).
Proof. unfold build_identifier. bounded. Qed.
#[export] Hint Resolve bounded_build_identifier : bounded.

Lemma bounded_mentions_loop self mentions : keeps_cache_bounded (mentions_loop self mentions).
Proof. induction mentions as [|mention rest IH]; cbn [mentions_loop]; bounded. Qed.
#[export] Hint Resolve bounded_mentions_loop : bounded.

Lemma bounded_mentions_build_identifier self mentions :
  keeps_cache_bounded (mentions_build_identifier self mentions).
Proof. unfold mentions_build_identifier. bounded. Qed.
#[export] Hint Resolve bounded_mentions_build_identifier : bounded.

Lemma bounded_loads json_loads v : keeps_cache_bounded (loads json_loads v).
Proof. unfold loads. bounded. Qed.
#[export] Hint Resolve bounded_loads : bounded.

Lemma bounded_message_event_handler json_loads self message :
  keeps_cache_bounded (_message_event_handler json_loads self message).
Proof.
  unfold _message_event_handler, _message_event_handler_fields,
    _message_event_handler_addressing. bounded.
Qed.

Lemma bounded_event_handlers json_loads self kind handler message :
  assoc kind (event_handlers json_loads self) = Some handler ->
  keeps_cache_bounded (handler message).
Proof.
  unfold event_handlers. cbn [assoc].
  repeat match goal with
         | |- context [String.eqb ?a kind] => destruct (String.eqb a kind)
         end; intros [= <-].
  - apply bounded_message_event_handler.
  - unfold _status_change_event_handler. bounded.
  - unfold _hello_event_handler. bounded.
  - unfold _room_joined_event_handler. bounded.
  - unfold _room_left_event_handler. bounded.
Qed.

Lemma bounded_bind_val {A B} (m : M A) (k : A -> M B) :
  keeps_cache_bounded m ->
  (forall a w w1, m w = (Val a, w1) -> keeps_cache_bounded (k a)) ->
  keeps_cache_bounded (bind m k).
Proof.
  intros Hm Hk w r w' H Hw. unfold bind in H.
  destruct (m w) as [[a|e|] w1] eqn:E.
  - exact (Hk a _ _ E _ _ _ H (Hm _ _ _ E Hw)).
  - injection H as _ <-. exact (Hm _ _ _ E Hw).
  - injection H as _ <-. exact (Hm _ _ _ E Hw).
Qed.

Lemma bounded_event_handlers_get json_loads self event handler message :
  event_handlers_get json_loads self event = Ok (Some handler) ->
  keeps_cache_bounded (handler message).
Proof.
  unfold event_handlers_get.
  destruct (Py.hashable event); cbn [negb]; [|discriminate].
  destruct event; try discriminate.
  intros [= H]. exact (bounded_event_handlers _ _ _ _ _ H).
Qed.

(** X1.  Whatever payload the dispatcher receives and however handling it
    ends, the cache of [get_direct_channel] stays within its 1024 entries. *)
Theorem direct_channel_cache_bounded
  (json_loads : string -> Exc pyval) (self : MattermostBackend)
  (payload : string) (w : World) (r : outcome unit) (w' : World) :
  mattermost_event_handler json_loads self payload w = (r, w') ->
  (length (direct_channels w) <= 1024)%nat ->
  (length (direct_channels w') <= 1024)%nat.
Proof.
  revert w r w'.
  change (keeps_cache_bounded (mattermost_event_handler json_loads self payload)).
  unfold mattermost_event_handler.
  apply bounded_def.
  do 5 (apply bounded_bind; [solve [bounded] | intros ?]).
  apply bounded_bind_val; [bounded|].
  intros found w0 w1 E. apply lift_val_inv in E. destruct E as [E _].
  destruct found as [handler|]; [|bounded].
  apply bounded_try_except; [|intros ?; bounded].
  exact (bounded_event_handlers_get _ _ _ _ _ E).
Qed.

Lemma direct_channel_cache_bounded_witness :
  exists r w',
    mattermost_event_handler Json.loads Demo.bot mention_event full_start = (r, w')
    /\ length (direct_channels full_start) = 1024%nat
    /\ calls w'
       = [create_direct_message_channel "BOT" (PStr "W1");
          get_channel (PStr "C1")]
    /\ direct_channels w'
       = (("BOT", PStr "W1"), PDict [("id", PStr "DM1"); ("type", PStr "D")])
         :: removelast full_cache
    /\ (length (direct_channels w') <= 1024)%nat.
Proof.
  do 2 eexists. split; [vm_compute; reflexivity|].
  split; [vm_compute; reflexivity|]. split; [vm_compute; reflexivity|].
  split; [vm_compute; reflexivity|].
  eapply (direct_channel_cache_bounded Json.loads Demo.bot mention_event full_start).
  - vm_compute. reflexivity.
  - apply Nat.leb_le. vm_compute. reflexivity.
Defined.

(** ** The direct-channel cache: misses *)

(** A miss of a cached method whose body returns [x]: the entry goes to the
    front, and with a full cache the last entry, the least recently used,
    is dropped. *)
Lemma lru_cache_miss n f u v w x wa :
  Py.hashable v = true ->
  Lru.find (u, v) (direct_channels w) = None ->
  f u v w = (Val x, wa) ->
  Lru.lru_cache (S n) f u v w
  = (Val x, {| calls := calls wa;
               direct_channels := ((u, v), x) :: firstn n (direct_channels wa);
               trace := trace wa |}).
Proof.
  intros Hh Hfind Hf. unfold Lru.lru_cache. rewrite Hh. cbn [negb].
  unfold bind, Lru.get_cache, Lru.set_cache, ret. rewrite Hfind, Hf.
  rewrite firstn_cons. reflexivity.
Qed.

Lemma firstn_removelast {A} (n : nat) (l : list A) :
  length l = S n -> firstn n l = removelast l.
Proof.
  intros H. rewrite removelast_firstn_len. now rewrite H.
Qed.

(** X2.  When [get_direct_channel] is asked for a pair that is not cached
    and the platform answers, the answer is stored as the most recent entry;
    if the cache is full (1024 entries), it is the last entry, the least
    recently used one, that is dropped, and otherwise nothing is. *)
Theorem get_direct_channel_evicts_oldest
  (self : MattermostBackend) (userid_ : string) (other_user_id x : pyval)
  (w : World) :
  Py.hashable other_user_id = true ->
  Lru.find (userid_, other_user_id) (direct_channels w) = None ->
  api self (calls w) (create_direct_message_channel userid_ other_user_id) = Ok x ->
  (length (direct_channels w) <= 1024)%nat ->
  exists w',
    get_direct_channel self userid_ other_user_id w = (Val x, w')
    /\ calls w' = (calls w ++ [create_direct_message_channel userid_ other_user_id])%list
    /\ ((length (direct_channels w) < 1024)%nat ->
        direct_channels w' = ((userid_, other_user_id), x) :: direct_channels w)
    /\ (length (direct_channels w) = 1024%nat ->
        direct_channels w'
        = ((userid_, other_user_id), x) :: removelast (direct_channels w)).
Proof.
  intros Hh Hfind Hapi Hlen.
  unfold get_direct_channel.
  assert (get_direct_channel_body self userid_ other_user_id w
          = (Val x, {| calls := calls w
                         ++ [create_direct_message_channel userid_ other_user_id];
                       direct_channels := direct_channels w;
                       trace := trace w |})) as Hbody.
  { unfold get_direct_channel_body, try_except, call. now rewrite Hapi. }
  rewrite (lru_cache_miss 1023 _ _ _ _ _ _ Hh Hfind Hbody).
  eexists. split; [reflexivity|]. cbn [calls direct_channels].
  split; [reflexivity|]. split.
  - intros Hlt. f_equal. apply firstn_all2. lia.
  - intros Heq. f_equal. apply firstn_removelast. exact Heq.
Qed.

Lemma get_direct_channel_evicts_oldest_witness :
  exists w',
    get_direct_channel Demo.bot "BOT" (PStr "U1") Demo.start
    = (Val (PDict [("id", PStr "DM1"); ("type", PStr "D")]), w')
    /\ direct_channels w'
       = [(("BOT", PStr "U1"), PDict [("id", PStr "DM1"); ("type", PStr "D")])].
Proof.
  destruct (get_direct_channel_evicts_oldest Demo.bot "BOT" (PStr "U1")
              (PDict [("id", PStr "DM1"); ("type", PStr "D")]) Demo.start)
    as (w' & E & _ & Hsmall & _).
  - reflexivity.
  - reflexivity.
  - reflexivity.
  - cbn. lia.
  - exists w'. split; [exact E|]. apply Hsmall. cbn. lia.
Defined.

(** X3.  When the pair is not cached and the platform call raises,
    [get_direct_channel] raises too: [RoomDoesNotExistError] in place of
    [InvalidOrMissingParameters] and [NotEnoughPermissions], the platform's
    exception otherwise.  Nothing is stored: the cache is as it was, so the
    next call asks the platform again. *)
Theorem get_direct_channel_failure_not_cached
  (self : MattermostBackend) (userid_ : string) (other_user_id : pyval)
  (e : exn) (w : World) :
  Py.hashable other_user_id = true ->
  Lru.find (userid_, other_user_id) (direct_channels w) = None ->
  api self (calls w) (create_direct_message_channel userid_ other_user_id)
  = Raise e ->
  exists e',
    get_direct_channel self userid_ other_user_id w
    = (Exn e',
       {| calls := calls w ++ [create_direct_message_channel userid_ other_user_id];
          direct_channels := direct_channels w;
          trace := trace w |})
    /\ (e = InvalidOrMissingParameters \/ e = NotEnoughPermissions ->
        e' = RoomDoesNotExistError)
    /\ (e <> InvalidOrMissingParameters -> e <> NotEnoughPermissions -> e' = e).
Proof.
  intros Hh Hfind Hapi.
  unfold get_direct_channel, Lru.lru_cache. rewrite Hh. cbn [negb].
  unfold bind, Lru.get_cache, Lru.set_cache, ret. rewrite Hfind.
  unfold get_direct_channel_body, try_except, call. rewrite Hapi.
  destruct e; cbn; eexists; (split; [reflexivity|]);
    (split; [intros [H|H]; try discriminate H; reflexivity
            | intros H1 H2; try reflexivity; congruence]).
Qed.

Lemma get_direct_channel_failure_not_cached_witness :
  exists w',
    get_direct_channel refusing_bot "BOT" (PStr "U1") Demo.start
    = (Exn RoomDoesNotExistError, w')
    /\ direct_channels w' = [].
Proof.
  edestruct (get_direct_channel_failure_not_cached refusing_bot
               "BOT" (PStr "U1") NotEnoughPermissions Demo.start)
    as (e' & E & Htr & _).
  - reflexivity.
  - reflexivity.
  - reflexivity.
  - eexists. rewrite E. rewrite (Htr (or_intror eq_refl)). split; reflexivity.
Defined.

(** ** Identity resolution: the forms of a reference *)

(** *** Stripping *)

Lemma lstrip_by_clean (p : ascii -> bool) (s : string) :
  clean_head p (Py.lstrip_by p s).
Proof.
  induction s as [|c s IH]; cbn; [exact I|].
  destruct (p c) eqn:E; [exact IH | exact E].
Qed.

Lemma lstrip_by_of_clean (p : ascii -> bool) (s : string) :
  clean_head p s -> Py.lstrip_by p s = s.
Proof. destruct s as [|c s]; cbn; [reflexivity|]. now intros ->. Qed.

Lemma rstrip_by_cons (p : ascii -> bool) (c : ascii) (s : string) :
  p c = false -> Py.rstrip_by p (String c s) = String c (Py.rstrip_by p s).
Proof. intros E. cbn. rewrite E. now destruct (Py.rstrip_by p s). Qed.

Lemma rstrip_by_clean (p : ascii -> bool) (s : string) :
  clean_head p s -> clean_head p (Py.rstrip_by p s).
Proof.
  destruct s as [|c s]; [intros _; exact I|].
  intros E. cbn in E. rewrite (rstrip_by_cons p c s E). exact E.
Qed.

Lemma rstrip_by_idempotent (p : ascii -> bool) (s : string) :
  Py.rstrip_by p (Py.rstrip_by p s) = Py.rstrip_by p s.
Proof.
  induction s as [|c s IH]; [reflexivity|].
  cbn [Py.rstrip_by]. destruct (Py.rstrip_by p s) as [|d r] eqn:E.
  - destruct (p c) eqn:Ec; [reflexivity|]. cbn. now rewrite Ec.
  - cbn [Py.rstrip_by]. cbn [Py.rstrip_by] in IH. rewrite IH. reflexivity.
Qed.

Lemma strip_idempotent (s : string) : Py.strip (Py.strip s) = Py.strip s.
Proof.
  unfold Py.strip.
  rewrite (lstrip_by_of_clean _ _
             (rstrip_by_clean _ _ (lstrip_by_clean Py.isspace s))).
  apply rstrip_by_idempotent.
Qed.

(** X4.  [build_identifier] does not see the whitespace around a
    reference: a text and its stripped form resolve alike, in every state. *)
Theorem build_identifier_ignores_whitespace
  (self : MattermostBackend) (txtrep : string) (w : World) :
  build_identifier self (PStr txtrep) w
  = build_identifier self (PStr (Py.strip txtrep)) w.
Proof. unfold build_identifier. now rewrite strip_idempotent. Qed.

(** *** What comes back *)

Lemma MattermostRoom_init_val name channelid teamid bot w r w' :
  MattermostRoom_init name channelid teamid bot w = (Val r, w') ->
  MattermostRoom._id r = channelid /\ MattermostRoom._teamid r = teamid.
Proof.
  unfold MattermostRoom_init.
  destruct (negb (Py.is_none channelid) && negb (Py.is_none name)); [discriminate|].
  destruct (Py.is_none teamid); [discriminate|].
  intros H. apply bind_val_inv in H. destruct H as (n & w1 & _ & H).
  destruct bot; [|discriminate].
  apply ret_val_inv in H. destruct H as [-> _]. split; reflexivity.
Qed.

Lemma is_none_false (v : pyval) : Py.is_none v = false -> v <> PNone.
Proof. intros H ->. discriminate H. Qed.

(** X5.  What [build_identifier] returns is decided by the first character
    of the stripped reference: a Room of the bot's team, with its channel id
    set, for ["~..."], and a Person of the bot's team otherwise; never a
    RoomOccupant, and nothing at all for a reference that is not a text. *)
Theorem build_identifier_kind
  (self : MattermostBackend) (txtrep : pyval) (w : World)
  (i : Identifier) (w' : World) :
  build_identifier self txtrep w = (Val i, w') ->
  exists s,
    txtrep = PStr s
    /\ match i with
       | IsRoom r =>
           Str.startswith (Py.strip s) "~" = true
           /\ MattermostRoom._teamid r = PStr (teamid self)
           /\ MattermostRoom._id r <> PNone
       | IsPerson p =>
           Str.startswith (Py.strip s) "~" = false
           /\ MattermostPerson.teamid p = PStr (teamid self)
           /\ MattermostPerson.userid p <> PNone
       | IsRoomOccupant _ => False
       end.
Proof.
  unfold build_identifier. destruct txtrep as [| | | |s| |]; try discriminate.
  intros H. exists s. split; [reflexivity|].
  destruct (Str.startswith (Py.strip s) "~") eqn:Etilde.
  - apply bind_val_inv in H. destruct H as (channelid & w1 & _ & H).
    destruct (Py.is_none channelid) eqn:En; cbn [negb] in H; [discriminate|].
    apply bind_val_inv in H. destruct H as (r & w2 & Hroom & H).
    apply ret_val_inv in H. destruct H as [-> _].
    apply MattermostRoom_init_val in Hroom. destruct Hroom as [Hid Hteam].
    split; [reflexivity|]. split; [exact Hteam|].
    rewrite Hid. now apply is_none_false.
  - apply bind_val_inv in H. destruct H as (uid & w1 & _ & H).
    destruct (Py.is_none uid) eqn:En; cbn [negb] in H; [discriminate|].
    apply bind_val_inv in H. destruct H as (channel & w2 & _ & H).
    apply bind_val_inv in H. destruct H as (cid & w3 & _ & H).
    apply ret_val_inv in H. destruct H as [-> _]. cbn.
    split; [reflexivity|]. split; [reflexivity|]. now apply is_none_false.
Qed.

Lemma build_identifier_kind_witness :
  exists r w',
    build_identifier Demo.bot (PStr "~general") Demo.start = (Val (IsRoom r), w')
    /\ MattermostRoom._teamid r = PStr "T1"
    /\ MattermostRoom._id r <> PNone.
Proof.
  do 2 eexists. split; [vm_compute; reflexivity|].
  edestruct (build_identifier_kind Demo.bot (PStr "~general") Demo.start)
    as (s & _ & H); [vm_compute; reflexivity|].
  cbn in H. destruct H as (_ & Hteam & Hid). split; [exact Hteam | exact Hid].
Defined.

(** A reference that starts with a character which is no whitespace keeps
    it when stripped. *)
Lemma strip_cons (c : ascii) (s : string) :
  Py.isspace c = false ->
  Py.strip (String c s) = String c (Py.rstrip_by Py.isspace s).
Proof.
  intros E. unfold Py.strip. cbn [Py.lstrip_by]. rewrite E.
  now apply rstrip_by_cons.
Qed.

(** X6.  Any number of ["@"] in front of a user name is accepted:
    ["@@name"] resolves as ["@name"] does. *)
Theorem build_identifier_repeated_at
  (self : MattermostBackend) (name : string) (w : World) :
  build_identifier self (PStr ("@@" ++ name)) w
  = build_identifier self (PStr ("@" ++ name)) w.
Proof.
  unfold build_identifier.
  change ("@@" ++ name) with (String "@" (String "@" name)).
  change ("@" ++ name) with (String "@" name).
  rewrite !strip_cons by reflexivity.
  rewrite (rstrip_by_cons Py.isspace "@" name eq_refl).
  reflexivity.
Qed.

(** X7.  A reference that starts with neither ["~"] nor ["@"] is taken as
    a user id as it stands: no user name is looked up, the platform is
    called at most once, for the direct channel of that id, and the Person
    that comes back carries the stripped text as its userid. *)
Theorem build_identifier_raw_id
  (self : MattermostBackend) (txtrep : string) (w : World)
  (r : outcome Identifier) (w' : World) :
  Str.startswith (Py.strip txtrep) "~" = false ->
  Str.startswith (Py.strip txtrep) "@" = false ->
  build_identifier self (PStr txtrep) w = (r, w') ->
  (calls w' = calls w
   \/ calls w'
      = (calls w
         ++ [create_direct_message_channel (bot_userid self)
               (PStr (Py.strip txtrep))])%list)
  /\ (forall i, r = Val i ->
      exists p, i = IsPerson p
                /\ MattermostPerson.userid p = PStr (Py.strip txtrep)).
Proof.
  intros Htilde Hat. unfold build_identifier. rewrite Htilde, Hat.
  unfold bind at 1. cbn [ret Py.is_none negb].
  unfold get_direct_channel, Lru.lru_cache, userid. cbn [Py.hashable negb].
  unfold bind, Lru.get_cache, Lru.set_cache, ret, lift.
  destruct (Lru.find _ (direct_channels w)) as [[k' x]|].
  - destruct (Py.getitem x "id"); intros [= <- <-]; cbn [calls];
      (split; [now left|]); intros i [= <-]; eexists; split; reflexivity.
  - unfold get_direct_channel_body, try_except, call.
    destruct (api self (calls w) _) as [x|e].
    + destruct (Py.getitem x "id"); intros [= <- <-]; cbn [calls];
        (split; [now right|]); intros i [= <-]; eexists; split; reflexivity.
    + destruct e; intros [= <- <-]; cbn [calls];
        (split; [now right|]); intros i [= ].
Qed.

Lemma build_identifier_raw_id_witness :
  exists p w',
    build_identifier Demo.bot (PStr " U42 ") Demo.start = (Val (IsPerson p), w')
    /\ MattermostPerson.userid p = PStr "U42"
    /\ calls w' = [create_direct_message_channel "BOT" (PStr "U42")].
Proof.
  destruct (build_identifier_raw_id Demo.bot " U42 " Demo.start
              (Val (IsPerson (MattermostPerson.init (PStr "U42") (PStr "DM1")
                                (PStr "T1"))))
              {| calls := [create_direct_message_channel "BOT" (PStr "U42")];
                 direct_channels :=
                   [(("BOT", PStr "U42"),
                     PDict [("id", PStr "DM1"); ("type", PStr "D")])];
                 trace := [] |})
    as [_ Hp].
  - reflexivity.
  - reflexivity.
  - vm_compute. reflexivity.
  - destruct (Hp _ eq_refl) as (p & Hi & Hu). injection Hi as <-.
    do 2 eexists. split; [vm_compute; reflexivity|]. split; [exact Hu | reflexivity].
Defined.

(** X8.  When the platform knows no user of the name (it answers [None]),
    resolving ["@name"] raises [UserDoesNotExistError] after that one
    lookup: no direct channel is asked for and the cache is untouched. *)
Theorem build_identifier_unknown_user
  (self : MattermostBackend) (txtrep : string) (w : World) :
  Str.startswith (Py.strip txtrep) "@" = true ->
  api self (calls w)
    (get_user_by_username (Py.lstrip (Py.tail (Py.strip txtrep)) "@"))
  = Ok PNone ->
  build_identifier self (PStr txtrep) w
  = (Exn UserDoesNotExistError,
     {| calls := calls w
                 ++ [get_user_by_username
                       (Py.lstrip (Py.tail (Py.strip txtrep)) "@")];
        direct_channels := direct_channels w;
        trace := trace w |}).
Proof.
  intros Hat Hapi. unfold build_identifier.
  rewrite (startswith_at_not_tilde _ Hat), Hat.
  unfold bind at 1. unfold username_to_userid, bind, call, raise.
  now rewrite Hapi.
Qed.

Lemma build_identifier_unknown_user_witness :
  build_identifier empty_bot (PStr "@nobody") Demo.start
  = (Exn UserDoesNotExistError,
     {| calls := [get_user_by_username "nobody"]; direct_channels := [];
        trace := [] |}).
Proof.
  apply (build_identifier_unknown_user empty_bot "@nobody" Demo.start);
    reflexivity.
Defined.

(** X9.  When the platform's answer for a channel name carries no id,
    resolving ["~name"] raises [RoomDoesNotExistError] after that one
    lookup, and no Room is made. *)
Theorem build_identifier_unknown_channel
  (self : MattermostBackend) (txtrep : string) (channel : pyval) (w : World) :
  Str.startswith (Py.strip txtrep) "~" = true ->
  api self (calls w)
    (get_channel_by_name (teamid self) (Py.tail (Py.strip txtrep)))
  = Ok channel ->
  Py.contains "id" channel = Ok false ->
  build_identifier self (PStr txtrep) w
  = (Exn RoomDoesNotExistError,
     {| calls := calls w
                 ++ [get_channel_by_name (teamid self)
                       (Py.tail (Py.strip txtrep))];
        direct_channels := direct_channels w;
        trace := trace w |}).
Proof.
  intros Htilde Hapi Hid. unfold build_identifier. rewrite Htilde.
  unfold bind at 1. unfold channelname_to_channelid, bind, call, lift, raise.
  rewrite Hapi, Hid. reflexivity.
Qed.

Lemma build_identifier_unknown_channel_witness :
  build_identifier empty_bot (PStr "~nowhere") Demo.start
  = (Exn RoomDoesNotExistError,
     {| calls := [get_channel_by_name "T1" "nowhere"]; direct_channels := [];
        trace := [] |}).
Proof.
  apply (build_identifier_unknown_channel empty_bot "~nowhere"
           (PDict [("status_code", PInt 404)]) Demo.start); reflexivity.
Defined.

(** ** Mentions *)

Lemma mentions_loop_length self items w ids w' :
  mentions_loop self items w = (Val ids, w') ->
  length ids = length (filter (not_own_id self) items).
Proof.
  revert w ids w'. induction items as [|m items IH]; intros w ids w' H.
  - apply ret_val_inv in H. destruct H as [-> _]. reflexivity.
  - cbn [mentions_loop] in H.
    apply bind_val_inv in H. destruct H as (head & w1 & Hhead & H).
    apply bind_val_inv in H. destruct H as (tail & w2 & Htail & H).
    apply ret_val_inv in H. destruct H as [-> _].
    rewrite length_app, (IH _ _ _ Htail). cbn [filter]. unfold not_own_id at 2.
    destruct (negb (Py.eq_str m (bot_userid self))).
    + apply bind_val_inv in Hhead. destruct Hhead as (i & w3 & _ & Hhead).
      apply ret_val_inv in Hhead. destruct Hhead as [-> _]. reflexivity.
    + apply ret_val_inv in Hhead. destruct Hhead as [-> _]. reflexivity.
Qed.

Lemma mentions_loop_own_only self items w :
  (forall m, In m items -> m = PStr (bot_userid self)) ->
  mentions_loop self items w = (Val [], w).
Proof.
  induction items as [|m items IH]; intros Hall; [reflexivity|].
  cbn [mentions_loop].
  rewrite (Hall m (or_introl eq_refl)). cbn [Py.eq_str].
  rewrite String.eqb_refl. cbn [negb]. unfold bind at 1. cbn [ret].
  unfold bind. rewrite IH by (intros m' Hm'; apply Hall; now right).
  reflexivity.
Qed.

(** X10.  [mentions_build_identifier] leaves the bot's own id out: when it
    returns, it returns one identifier for each mention that differs from
    the bot's id, and mentions of the bot alone give the empty list without
    any call to the platform. *)
Theorem mentions_build_identifier_skips_own_id
  (self : MattermostBackend) (mentions : pyval) (items : list pyval)
  (w : World) :
  Py.iter mentions = Ok items ->
  (forall ids w',
     mentions_build_identifier self mentions w = (Val ids, w') ->
     length ids = length (filter (not_own_id self) items))
  /\ ((forall m, In m items -> m = PStr (bot_userid self)) ->
      mentions_build_identifier self mentions w = (Val [], w)).
Proof.
  intros Hiter. unfold mentions_build_identifier, bind, lift. rewrite Hiter.
  split.
  - intros ids w'. apply mentions_loop_length.
  - apply mentions_loop_own_only.
Qed.

Lemma mentions_build_identifier_skips_own_id_witness :
  exists ids w',
    mentions_build_identifier Demo.bot (PList [PStr "U1"; PStr "BOT"; PStr "U2"])
      Demo.start = (Val ids, w')
    /\ length ids = 2%nat.
Proof.
  destruct (mentions_build_identifier_skips_own_id Demo.bot
              (PList [PStr "U1"; PStr "BOT"; PStr "U2"])
              [PStr "U1"; PStr "BOT"; PStr "U2"] Demo.start eq_refl)
    as [Hlen _].
  do 2 eexists. split; [vm_compute; reflexivity|].
  erewrite Hlen by (vm_compute; reflexivity). reflexivity.
Defined.

Lemma mentions_loop_not_text self items m w ids w' :
  In m items -> (forall s, m <> PStr s) ->
  mentions_loop self items w <> (Val ids, w').
Proof.
  revert w ids w'. induction items as [|m0 items IH]; intros w ids w' Hin Hm H;
    [contradiction|].
  cbn [mentions_loop] in H.
  apply bind_val_inv in H. destruct H as (head & w1 & Hhead & H).
  apply bind_val_inv in H. destruct H as (tail & w2 & Htail & H).
  destruct Hin as [<- | Hin].
  - rewrite eq_str_false in Hhead by apply Hm. cbn [negb] in Hhead.
    apply bind_val_inv in Hhead. destruct Hhead as (i & w3 & Hbuild & _).
    unfold build_identifier in Hbuild.
    destruct m0; try discriminate Hbuild. now apply (Hm s).
  - exact (IH _ _ _ Hin Hm Htail).
Qed.

(** X11.  One mention that is not a text makes the whole resolution fail:
    [mentions_build_identifier] returns no list, not even of the mentions
    it could resolve. *)
Theorem mentions_build_identifier_all_or_nothing
  (self : MattermostBackend) (mentions : pyval) (items : list pyval)
  (m : pyval) (w : World) (ids : list Identifier) (w' : World) :
  Py.iter mentions = Ok items ->
  In m items ->
  (forall s, m <> PStr s) ->
  mentions_build_identifier self mentions w <> (Val ids, w').
Proof.
  intros Hiter Hin Hm. unfold mentions_build_identifier, bind, lift.
  rewrite Hiter. now apply (mentions_loop_not_text self items m).
Qed.

Lemma mentions_build_identifier_all_or_nothing_witness :
  exists e w',
    mentions_build_identifier Demo.bot (PList [PStr "U1"; PInt 7]) Demo.start
    = (Exn e, w')
    /\ forall ids w'',
         mentions_build_identifier Demo.bot (PList [PStr "U1"; PInt 7]) Demo.start
         <> (Val ids, w'').
Proof.
  do 2 eexists. split; [vm_compute; reflexivity|].
  intros ids w''.
  apply (mentions_build_identifier_all_or_nothing Demo.bot
           (PList [PStr "U1"; PInt 7]) [PStr "U1"; PInt 7] (PInt 7)).
  - reflexivity.
  - right. left. reflexivity.
  - discriminate.
Defined.

(** ** Membership and connection events *)

(** X12.  [_room_joined_event_handler] reads [data.user_id]: the
    room-joined callback fires when that id is the bot's, and nothing fires
    when it is another user's. *)
Theorem room_joined_only_for_bot
  (self : MattermostBackend) (message data user_id : pyval) (w : World) :
  Py.getitem message "data" = Ok data ->
  Py.getitem data "user_id" = Ok user_id ->
  exists out w',
    _room_joined_event_handler self message w = (out, w')
    /\ callbacks (trace w')
       = (callbacks (trace w)
          ++ (if Py.eq_str user_id (bot_userid self) then [CallbackRoomJoined]
              else []))%list.
Proof.
  intros Hdata Huser.
  unfold _room_joined_event_handler, def_, bind, lift, log, when, callback, userid.
  rewrite Hdata. cbn. rewrite Huser. cbn.
  destruct (Py.eq_str user_id (bot_userid self)).
  - destruct (errbot self CallbackRoomJoined); do 2 eexists;
      (split; [reflexivity|]); cbn; rewrite !callbacks_app; cbn;
      now rewrite app_nil_r.
  - do 2 eexists. split; [reflexivity|]. cbn. rewrite callbacks_app. cbn.
    now rewrite !app_nil_r.
Qed.

Lemma room_joined_only_for_bot_witness :
  exists out w',
    _room_joined_event_handler Demo.bot
      (PDict [("event", PStr "user_added");
              ("data", PDict [("user_id", PStr "BOT")])]) Demo.start
    = (out, w')
    /\ callbacks (trace w') = [CallbackRoomJoined].
Proof.
  apply (room_joined_only_for_bot Demo.bot
           (PDict [("event", PStr "user_added");
                   ("data", PDict [("user_id", PStr "BOT")])])
           (PDict [("user_id", PStr "BOT")]) (PStr "BOT") Demo.start);
    reflexivity.
Defined.

(** X13.  [_room_left_event_handler] reads [broadcast.user_id], not
    [data.user_id]: the room-left callback fires when that id is the bot's,
    and nothing fires when it is another user's. *)
Theorem room_left_only_for_bot
  (self : MattermostBackend) (message broadcast user_id : pyval) (w : World) :
  Py.getitem message "broadcast" = Ok broadcast ->
  Py.getitem broadcast "user_id" = Ok user_id ->
  exists out w',
    _room_left_event_handler self message w = (out, w')
    /\ callbacks (trace w')
       = (callbacks (trace w)
          ++ (if Py.eq_str user_id (bot_userid self) then [CallbackRoomLeft]
              else []))%list.
Proof.
  intros Hdata Huser.
  unfold _room_left_event_handler, def_, bind, lift, log, when, callback, userid.
  rewrite Hdata. cbn. rewrite Huser. cbn.
  destruct (Py.eq_str user_id (bot_userid self)).
  - destruct (errbot self CallbackRoomLeft); do 2 eexists;
      (split; [reflexivity|]); cbn; rewrite !callbacks_app; cbn;
      now rewrite app_nil_r.
  - do 2 eexists. split; [reflexivity|]. cbn. rewrite callbacks_app. cbn.
    now rewrite !app_nil_r.
Qed.

Lemma room_left_only_for_bot_witness :
  exists out w',
    _room_left_event_handler Demo.bot
      (PDict [("event", PStr "user_removed"); ("data", PDict []);
              ("broadcast", PDict [("user_id", PStr "U7")])]) Demo.start
    = (out, w')
    /\ callbacks (trace w') = [].
Proof.
  apply (room_left_only_for_bot Demo.bot
           (PDict [("event", PStr "user_removed"); ("data", PDict []);
                   ("broadcast", PDict [("user_id", PStr "U7")])])
           (PDict [("user_id", PStr "U7")]) (PStr "U7") Demo.start);
    reflexivity.
Defined.

(** X14.  On [hello] the connect callback comes first and the bot's own
    Online presence second; when the connect callback raises, the presence
    is not announced. *)
Theorem hello_connects_then_announces
  (self : MattermostBackend) (message : pyval) (w : World) :
  exists out w',
    _hello_event_handler self message w = (out, w')
    /\ (errbot self ConnectCallback = None ->
        trace w'
        = (trace w
           ++ [ConnectCallback;
               CallbackPresence {| identifier := bot_identifier self;
                                   status := ONLINE |}])%list)
    /\ (forall e, errbot self ConnectCallback = Some e ->
        out = Exn e /\ trace w' = (trace w ++ [ConnectCallback])%list).
Proof.
  unfold _hello_event_handler, def_, bind, callback.
  destruct (errbot self ConnectCallback) as [e|].
  - do 2 eexists. split; [reflexivity|]. split; [discriminate|].
    intros e' [= <-]. split; reflexivity.
  - destruct (errbot self (CallbackPresence _)); do 2 eexists;
      (split; [reflexivity|]);
      (split; [intros _; cbn; now rewrite <- app_assoc | discriminate]).
Qed.

(** ** The message handler: what is emitted *)

Lemma contains_true_getitem data key :
  Py.contains key data = Ok true ->
  (exists d, data = PDict d) ->
  exists x, Py.getitem data key = Ok x.
Proof.
  intros H [d ->]. cbn in *. destruct (Py.lookup key d) as [x|]; [|discriminate].
  now exists x.
Qed.

Lemma contains_dict data key b :
  Py.contains key data = Ok b ->
  (exists d, data = PDict d) ->
  b = match Py.getitem data key with Ok _ => true | Raise _ => false end.
Proof.
  intros H [d ->]. cbn in *. destruct (Py.lookup key d); now injection H as <-.
Qed.

(** What the locals hold when lines 206-273 come to their end. *)
Lemma fields_locals json_loads self message w l w1 data :
  Py.getitem message "data" = Ok data ->
  _message_event_handler_fields json_loads self message w = (Val l, w1) ->
  event_channel_id message = Some (l_channelid l)
  /\ extras_mattermost_event (l_msg l) = message
  /\ frm (l_msg l) = None /\ to (l_msg l) = None
  /\ (Py.contains "mentions" data = Ok false -> l_mentions l = [])
  /\ (Py.contains "post" data = Ok false ->
      body (l_msg l) = PStr "" /\ extras_url (l_msg l) = permalink self ""
      /\ extras_attachments (l_msg l) = None)
  /\ (forall post, embedded_post json_loads data = Some post ->
      Py.getitem post "message" = Ok (body (l_msg l))
      /\ (exists post_id, Py.getitem post "id" = Ok (PStr post_id)
                          /\ extras_url (l_msg l) = permalink self post_id)
      /\ Py.getitem post "type" <> Ok (PStr "system_add_remove")
      /\ (forall file_ids, Py.getitem post "file_ids" = Ok file_ids ->
          extras_attachments (l_msg l)
          = if Py.truthy file_ids then Some file_ids else None)).
Proof.
  intros Hdata H. unfold _message_event_handler_fields in H.
  skip_bind H.
  inv_lift H as data' E. rewrite Hdata in E. injection E as <-.
  inv_lift H as team_id Eteam.
  pose proof (getitem_dict _ _ _ Eteam) as Hdict.
  skip_bind H.
  inv_lift H as broadcast Ebroad.
  inv_lift H as in_data Ein.
  inv_bind H as channelid Hchan.
  inv_lift H as channel_type Ect.
  skip_bind H.
  inv_lift H as has_post Epost.
  inv_bind H as post_vars Hpost.
  destruct post_vars as [[[text post_id] file_ids] userid].
  inv_lift H as has_user_id Ehas.
  inv_bind H as userid' Huser.
  skip_bind H.
  inv_lift H as has_mentions Ement.
  inv_bind H as mentions Hment.
  inv_lift H as postid Eformat.
  apply ret_val_inv in H. destruct H as [-> _]. cbn [l_channelid l_msg l_mentions].
  assert (exists pid, post_id = PStr pid /\ postid = pid) as (pid & -> & ->).
  { destruct post_id; try discriminate Eformat. injection Eformat as <-. now eexists. }
  split.
  { unfold event_channel_id. rewrite Hdata.
    rewrite (contains_dict _ _ _ Ein Hdict) in Hchan.
    destruct (Py.getitem data "channel_id") as [c|e] eqn:Ec.
    - apply lift_val_inv in Hchan. destruct Hchan as [Hchan _]. congruence.
    - rewrite Ebroad.
      inv_lift Hchan as in_broadcast Einb.
      destruct in_broadcast.
      + apply lift_val_inv in Hchan. destruct Hchan as [-> _]. reflexivity.
      + apply bind_val_inv in Hchan. destruct Hchan as (? & ? & _ & Hchan).
        discriminate Hchan. }
  split. { destruct (Py.truthy file_ids); reflexivity. }
  split. { destruct (Py.truthy file_ids); reflexivity. }
  split. { destruct (Py.truthy file_ids); reflexivity. }
  split.
  { intros Hno. rewrite Hno in Ement. injection Ement as <-.
    apply ret_val_inv in Hment. destruct Hment as [-> _]. reflexivity. }
  split.
  { intros Hno. rewrite Hno in Epost. injection Epost as <-.
    apply ret_val_inv in Hpost. destruct Hpost as [[= -> -> -> _] _].
    cbn. repeat split. }
  intros post Hemb. unfold embedded_post in Hemb.
  destruct (Py.getitem data "post") as [pt|] eqn:Ept; [|discriminate].
  destruct pt as [| | | |t| |]; try discriminate.
  destruct (json_loads t) as [post'|] eqn:Ejson; [|discriminate].
  injection Hemb as ->.
  rewrite (contains_dict _ _ _ Epost Hdict), Ept in Hpost.
  inv_lift Hpost as post_text Etext. injection Etext as <-.
  inv_bind Hpost as post' Hloads.
  apply loads_val_inv in Hloads. destruct Hloads as (t' & [= <-] & Hjson).
  rewrite Ejson in Hjson. injection Hjson as <-.
  inv_lift Hpost as text' Emsg.
  inv_lift Hpost as uid Euid.
  pose proof (getitem_dict _ _ _ Emsg) as Hpdict.
  inv_lift Hpost as has_files Efiles.
  inv_bind Hpost as file_ids' Hfiles.
  inv_lift Hpost as post_id' Eid.
  inv_lift Hpost as has_type Etype.
  inv_bind Hpost as is_system Hsys.
  inv_bind Hpost as u Hwhen.
  apply when_log_return_inv in Hwhen. subst is_system.
  apply ret_val_inv in Hpost. destruct Hpost as [[= -> <- -> _] _].
  split. { destruct (Py.truthy file_ids'); exact Emsg. }
  split. { exists pid. split; [exact Eid|]. destruct (Py.truthy file_ids'); reflexivity. }
  split.
  { intros Hty. rewrite (contains_dict _ _ _ Etype Hpdict), Hty in Hsys.
    inv_lift Hsys as ty Ety. injection Ety as <-.
    apply ret_val_inv in Hsys. destruct Hsys as [Hsys _]. discriminate Hsys. }
  intros fids Hfids.
  rewrite (contains_dict _ _ _ Efiles Hpdict), Hfids in Hfiles.
  apply lift_val_inv in Hfiles. destruct Hfiles as [Hf _].
  injection Hf as <-.
  destruct (Py.truthy fids); reflexivity.
Qed.

(** Lines 290-293 for any outcome: the message callback, and after it the
    mention callback when there are mentions. *)
Lemma emit_shape self msg mentions w out w' :
  (callback self (CallbackMessage msg) ;;;
   when (match mentions with [] => false | _ => true end)
     (callback self (CallbackMention msg mentions))) w = (out, w') ->
  out <> Return
  /\ (callbacks (trace w') = (callbacks (trace w) ++ [CallbackMessage msg])%list
      \/ (mentions <> []
          /\ callbacks (trace w')
             = (callbacks (trace w)
                ++ [CallbackMessage msg; CallbackMention msg mentions])%list)).
Proof.
  unfold bind, callback, when.
  destruct (errbot self (CallbackMessage msg)).
  - intros [= <- <-]. split; [discriminate|]. left. cbn.
    now rewrite callbacks_app.
  - destruct mentions as [|m ms].
    + intros [= <- <-]. split; [discriminate|]. left. cbn.
      now rewrite callbacks_app.
    + intros H. assert (out <> Return /\ trace w'
                        = ((trace w ++ [CallbackMessage msg])
                           ++ [CallbackMention msg (m :: ms)])%list) as [Ho Ht].
      { destruct (errbot self (CallbackMention msg (m :: ms)));
          injection H as <- <-; split; try discriminate; reflexivity. }
      split; [exact Ho|]. right. split; [discriminate|].
      rewrite Ht, !callbacks_app, <- app_assoc. reflexivity.
Qed.

Lemma MattermostRoomOccupant_init_val teamid userid channelid bot w o w' :
  MattermostRoomOccupant_init teamid userid channelid bot w = (Val o, w') ->
  MattermostRoomOccupant.person o = MattermostPerson.init userid channelid teamid
  /\ MattermostRoom._id (MattermostRoomOccupant.room o) = channelid
  /\ MattermostRoom._teamid (MattermostRoomOccupant.room o) = teamid.
Proof.
  unfold MattermostRoomOccupant_init. intros H.
  apply bind_val_inv in H. destruct H as (r & w1 & Hr & H).
  apply ret_val_inv in H. destruct H as [-> _]. cbn.
  split; [reflexivity|]. exact (MattermostRoom_init_val _ _ _ _ _ _ _ Hr).
Qed.

(** Lines 276-293 for any outcome: nothing fires, or one message fires,
    addressed by the channel type, with the mention callback behind it. *)
Lemma addressing_shape self l w out w' :
  _message_event_handler_addressing self l w = (out, w') ->
  callbacks (trace w') = callbacks (trace w)
  \/ exists f t,
       (callbacks (trace w')
        = (callbacks (trace w) ++ [CallbackMessage (set_frm_to (l_msg l) f t)])%list
        \/ (l_mentions l <> []
            /\ callbacks (trace w')
               = (callbacks (trace w)
                  ++ [CallbackMessage (set_frm_to (l_msg l) f t);
                      CallbackMention (set_frm_to (l_msg l) f t) (l_mentions l)])%list))
       /\ ((l_channel_type l = PStr "D"
            /\ f = IsPerson (MattermostPerson.init (l_userid l) (l_channelid l)
                               (PStr (teamid self))))
           \/ exists o,
                f = IsRoomOccupant o
                /\ MattermostRoomOccupant.person o
                   = MattermostPerson.init (l_userid l) (l_channelid l)
                       (PStr (teamid self))
                /\ MattermostRoom._id (MattermostRoomOccupant.room o) = l_channelid l
                /\ MattermostRoom._teamid (MattermostRoomOccupant.room o)
                   = PStr (teamid self)).
Proof.
  unfold _message_event_handler_addressing.
  destruct (Py.eq_str (l_channel_type l) "D") eqn:ED.
  { apply eq_str_true in ED. unfold bind at 1. cbn [ret]. intros H.
    apply emit_shape in H. destruct H as [_ H].
    right. do 2 eexists. split; [exact H|]. left. split; [exact ED|reflexivity]. }
  destruct (Py.eq_str (l_channel_type l) "O" || Py.eq_str (l_channel_type l) "P").
  { unfold bind at 1, bind at 1.
    destruct (MattermostRoomOccupant_init _ _ _ _ w) as [[o| |] wa] eqn:Eo;
      pose proof (quiet_MattermostRoomOccupant_init _ _ _ _ _ _ _ Eo) as Qo.
    2,3: intros [= _ <-]; left; exact Qo.
    unfold bind at 1.
    destruct (MattermostRoom_init _ _ _ _ wa) as [[r| |] wb] eqn:Er;
      pose proof (quiet_MattermostRoom_init _ _ _ _ _ _ _ Er) as Qr.
    2,3: intros [= _ <-]; left; rewrite Qr; exact Qo.
    cbn [ret]. intros H. apply emit_shape in H. destruct H as [_ H].
    rewrite Qr, Qo in H.
    right. do 2 eexists. split; [exact H|]. right. exists o.
    split; [reflexivity|]. exact (MattermostRoomOccupant_init_val _ _ _ _ _ _ _ Eo). }
  unfold bind, log, return_. intros [= _ <-]. left. cbn. apply callbacks_log.
Qed.

(** The message handler, from the event to the callbacks. *)
Lemma message_handler_emits json_loads self message data w out w' :
  Py.getitem message "data" = Ok data ->
  _message_event_handler json_loads self message w = (out, w') ->
  callbacks (trace w') = callbacks (trace w)
  \/ exists l w1 f t,
       _message_event_handler_fields json_loads self message w = (Val l, w1)
       /\ (callbacks (trace w')
           = (callbacks (trace w) ++ [CallbackMessage (set_frm_to (l_msg l) f t)])%list
           \/ (l_mentions l <> []
               /\ callbacks (trace w')
                  = (callbacks (trace w)
                     ++ [CallbackMessage (set_frm_to (l_msg l) f t);
                         CallbackMention (set_frm_to (l_msg l) f t)
                           (l_mentions l)])%list))
       /\ ((l_channel_type l = PStr "D"
            /\ f = IsPerson (MattermostPerson.init (l_userid l) (l_channelid l)
                               (PStr (teamid self))))
           \/ exists o,
                f = IsRoomOccupant o
                /\ MattermostRoomOccupant.person o
                   = MattermostPerson.init (l_userid l) (l_channelid l)
                       (PStr (teamid self))
                /\ MattermostRoom._id (MattermostRoomOccupant.room o) = l_channelid l
                /\ MattermostRoom._teamid (MattermostRoomOccupant.room o)
                   = PStr (teamid self)).
Proof.
  intros Hdata H. unfold _message_event_handler, def_, bind in H.
  destruct (_message_event_handler_fields json_loads self message w)
    as [[l|e|] w1] eqn:Hfields;
    pose proof (quiet_fields _ _ _ _ _ _ Hfields) as Q.
  2,3: left; injection H as _ <-; exact Q.
  destruct (_message_event_handler_addressing self l w1) as [out1 w2] eqn:E.
  assert (w' = w2) as -> by (destruct out1; injection H as _ <-; reflexivity).
  apply addressing_shape in E. rewrite Q in E.
  destruct E as [E | (f & t & E)]; [now left|].
  right. exists l, w1, f, t. split; [reflexivity|]. exact E.
Qed.

(** X15.  For one posted event the message handler fires nothing, or the
    message callback once, or the message callback and then the mention
    callback, for the same message and with a list of mentions that is not
    empty.  The mention callback never comes alone or first. *)
Theorem message_handler_callbacks_shape
  (json_loads : string -> Exc pyval) (self : MattermostBackend)
  (message data : pyval) (w : World) (out : outcome unit) (w' : World) :
  Py.getitem message "data" = Ok data ->
  _message_event_handler json_loads self message w = (out, w') ->
  callbacks (trace w') = callbacks (trace w)
  \/ exists msg,
       callbacks (trace w') = (callbacks (trace w) ++ [CallbackMessage msg])%list
       \/ exists mentions,
            mentions <> []
            /\ callbacks (trace w')
               = (callbacks (trace w)
                  ++ [CallbackMessage msg; CallbackMention msg mentions])%list.
Proof.
  intros Hdata H.
  destruct (message_handler_emits _ _ _ _ _ _ _ Hdata H)
    as [E | (l & w1 & f & t & _ & [E | [Hm E]] & _)].
  - now left.
  - right. eexists. left. exact E.
  - right. eexists. right. eexists. split; [exact Hm | exact E].
Qed.

Lemma message_handler_callbacks_shape_witness :
  exists out w',
    _message_event_handler Json.loads Demo.bot Demo.scenario_message Demo.start
    = (out, w')
    /\ (callbacks (trace w') = callbacks (trace Demo.start)
        \/ exists msg,
             callbacks (trace w')
             = (callbacks (trace Demo.start) ++ [CallbackMessage msg])%list
             \/ exists mentions,
                  mentions <> []
                  /\ callbacks (trace w')
                     = (callbacks (trace Demo.start)
                        ++ [CallbackMessage msg; CallbackMention msg mentions])%list).
Proof.
  do 2 eexists. split; [vm_compute; reflexivity|].
  apply (message_handler_callbacks_shape Json.loads Demo.bot Demo.scenario_message
           scenario_data Demo.start (Val tt)).
  - reflexivity.
  - vm_compute. reflexivity.
Defined.

(** X16.  An event whose data has no ["mentions"] field never fires the
    mention callback: the callbacks are those before, with the message
    callback behind them at most. *)
Theorem no_mentions_no_mention_callback
  (json_loads : string -> Exc pyval) (self : MattermostBackend)
  (message data : pyval) (w : World) (out : outcome unit) (w' : World) :
  Py.getitem message "data" = Ok data ->
  Py.contains "mentions" data = Ok false ->
  _message_event_handler json_loads self message w = (out, w') ->
  callbacks (trace w') = callbacks (trace w)
  \/ exists msg,
       callbacks (trace w') = (callbacks (trace w) ++ [CallbackMessage msg])%list.
Proof.
  intros Hdata Hno H.
  destruct (message_handler_emits _ _ _ _ _ _ _ Hdata H)
    as [E | (l & w1 & f & t & Hfields & [E | [Hm E]] & _)].
  - now left.
  - right. eexists. exact E.
  - destruct (fields_locals _ _ _ _ _ _ _ Hdata Hfields) as (_ & _ & _ & _ & Hl & _).
    now rewrite (Hl Hno) in Hm.
Qed.

Lemma no_mentions_no_mention_callback_witness :
  exists out w',
    _message_event_handler Json.loads Demo.bot Demo.scenario_message Demo.start
    = (out, w')
    /\ (callbacks (trace w') = callbacks (trace Demo.start)
        \/ exists msg,
             callbacks (trace w')
             = (callbacks (trace Demo.start) ++ [CallbackMessage msg])%list).
Proof.
  do 2 eexists. split; [vm_compute; reflexivity|].
  apply (no_mentions_no_mention_callback Json.loads Demo.bot Demo.scenario_message
           scenario_data Demo.start (Val tt)).
  - reflexivity.
  - reflexivity.
  - vm_compute. reflexivity.
Defined.

(** X17.  A post of type ["system_add_remove"], the notice of a membership
    change, is not a message: the handler fires no callback for it. *)
Theorem system_message_ignored
  (json_loads : string -> Exc pyval) (self : MattermostBackend)
  (message data post : pyval) (w : World) (out : outcome unit) (w' : World) :
  Py.getitem message "data" = Ok data ->
  embedded_post json_loads data = Some post ->
  Py.getitem post "type" = Ok (PStr "system_add_remove") ->
  _message_event_handler json_loads self message w = (out, w') ->
  callbacks (trace w') = callbacks (trace w).
Proof.
  intros Hdata Hpost Htype H.
  destruct (message_handler_emits _ _ _ _ _ _ _ Hdata H)
    as [E | (l & w1 & f & t & Hfields & _)]; [exact E|].
  destruct (fields_locals _ _ _ _ _ _ _ Hdata Hfields)
    as (_ & _ & _ & _ & _ & _ & Hp).
  destruct (Hp post Hpost) as (_ & _ & Hty & _). contradiction.
Qed.

Lemma system_message_ignored_witness :
  exists out w',
    _message_event_handler Json.loads Demo.bot system_message Demo.start = (out, w')
    /\ callbacks (trace w') = callbacks (trace Demo.start).
Proof.
  do 2 eexists. split; [vm_compute; reflexivity|].
  apply (system_message_ignored Json.loads Demo.bot system_message system_data
           system_post Demo.start (Val tt)).
  - reflexivity.
  - vm_compute. reflexivity.
  - reflexivity.
  - vm_compute. reflexivity.
Defined.

(** X18.  An event with no channel id, neither in its data nor in its
    broadcast part, is dropped: the handler fires no callback. *)
Theorem event_without_channel_dropped
  (json_loads : string -> Exc pyval) (self : MattermostBackend)
  (message data : pyval) (w : World) (out : outcome unit) (w' : World) :
  Py.getitem message "data" = Ok data ->
  event_channel_id message = None ->
  _message_event_handler json_loads self message w = (out, w') ->
  callbacks (trace w') = callbacks (trace w).
Proof.
  intros Hdata Hnone H.
  destruct (message_handler_emits _ _ _ _ _ _ _ Hdata H)
    as [E | (l & w1 & f & t & Hfields & _)]; [exact E|].
  destruct (fields_locals _ _ _ _ _ _ _ Hdata Hfields) as (Hc & _).
  congruence.
Qed.

Lemma event_without_channel_dropped_witness :
  exists out w',
    _message_event_handler Json.loads Demo.bot no_channel_message Demo.start
    = (out, w')
    /\ callbacks (trace w') = callbacks (trace Demo.start).
Proof.
  do 2 eexists. split; [vm_compute; reflexivity|].
  apply (event_without_channel_dropped Json.loads Demo.bot no_channel_message
           no_channel_data Demo.start (Val tt)).
  - reflexivity.
  - reflexivity.
  - vm_compute. reflexivity.
Defined.

(** X19.  A message that is emitted carries the event it comes from and the
    permalink of its post: with an embedded post, the body is the post's
    message and the link ends in the post's id; without one, the body is
    empty, the link ends in ["/pl/"] and there are no attachments. *)
Theorem emitted_message_content
  (json_loads : string -> Exc pyval) (self : MattermostBackend)
  (message data : pyval) (w : World) (out : outcome unit) (w' : World)
  (msg : Message) :
  Py.getitem message "data" = Ok data ->
  _message_event_handler json_loads self message w = (out, w') ->
  In (CallbackMessage msg) (callbacks (trace w')) ->
  In (CallbackMessage msg) (callbacks (trace w))
  \/ (extras_mattermost_event msg = message
      /\ (Py.contains "post" data = Ok false ->
          body msg = PStr "" /\ extras_url msg = permalink self ""
          /\ extras_attachments msg = None)
      /\ (forall post, embedded_post json_loads data = Some post ->
          Py.getitem post "message" = Ok (body msg)
          /\ exists post_id, Py.getitem post "id" = Ok (PStr post_id)
                             /\ extras_url msg = permalink self post_id)).
Proof.
  intros Hdata H Hin.
  destruct (message_handler_emits _ _ _ _ _ _ _ Hdata H)
    as [E | (l & w1 & f & t & Hfields & Hshape & _)].
  { left. now rewrite <- E. }
  destruct (fields_locals _ _ _ _ _ _ _ Hdata Hfields)
    as (_ & Hev & _ & _ & _ & Hnopost & Hpost).
  assert (In (CallbackMessage msg) (callbacks (trace w))
          \/ msg = set_frm_to (l_msg l) f t) as [Hold | ->].
  { destruct Hshape as [E | [_ E]]; rewrite E in Hin;
      apply in_app_or in Hin; destruct Hin as [Hin | Hin]; auto;
      cbn in Hin; right.
    - destruct Hin as [[= <-] | []]. reflexivity.
    - destruct Hin as [[= <-] | [Hin | []]]; [reflexivity | discriminate Hin]. }
  { now left. }
  right. cbn [set_frm_to extras_mattermost_event body extras_url extras_attachments].
  split; [exact Hev|]. split; [exact Hnopost|].
  intros post Hemb. destruct (Hpost post Hemb) as (Hm & Hid & _). split; assumption.
Qed.

Lemma emitted_message_content_witness :
  exists w' msg,
    _message_event_handler Json.loads Demo.bot Demo.scenario_message Demo.start
    = (Val tt, w')
    /\ callbacks (trace w') = [CallbackMessage msg]
    /\ extras_mattermost_event msg = Demo.scenario_message
    /\ Py.getitem scenario_post "message" = Ok (body msg)
    /\ extras_url msg = permalink Demo.bot "P1".
Proof.
  do 2 eexists. split; [vm_compute; reflexivity|]. split; [reflexivity|].
  edestruct (emitted_message_content Json.loads Demo.bot Demo.scenario_message
               scenario_data Demo.start)
    as [Hold | (Hev & _ & Hpost)].
  - reflexivity.
  - vm_compute. reflexivity.
  - left. reflexivity.
  - destruct Hold.
  - split; [exact Hev|].
    destruct (Hpost scenario_post) as (Hm & pid & Hid & Hurl);
      [vm_compute; reflexivity|].
    split; [exact Hm|]. injection Hid as <-. exact Hurl.
Defined.

(** ** Handling without the platform *)

Lemma offline_ret {A} (a : A) : offline (ret a).
Proof. now intros w r w' [= _ <-]. Qed.
Lemma offline_raise {A} (e : exn) : offline (@raise A e).
Proof. now intros w r w' [= _ <-]. Qed.
Lemma offline_return {A} : offline (@return_ A).
Proof. now intros w r w' [= _ <-]. Qed.
Lemma offline_lift {A} (x : Exc A) : offline (lift x).
Proof. now intros w r w' [= _ <-]. Qed.
Lemma offline_log lvl fmt args : offline (log lvl fmt args).
Proof. now intros w r w' [= _ <-]. Qed.
Lemma offline_callback self ev : offline (callback self ev).
Proof. now intros w r w' [= _ <-]. Qed.

Lemma offline_bind_val {A B} (m : M A) (k : A -> M B) :
  offline m ->
  (forall a w w1, m w = (Val a, w1) -> offline (k a)) ->
  offline (bind m k).
Proof.
  intros Hm Hk w r w' H. unfold bind in H.
  destruct (m w) as [[a|e|] w1] eqn:E; destruct (Hm _ _ _ E) as [Hc Hd].
  - destruct (Hk a _ _ E _ _ _ H) as [Hc' Hd']. split; congruence.
  - injection H as _ <-. now split.
  - injection H as _ <-. now split.
Qed.

Lemma offline_bind {A B} (m : M A) (k : A -> M B) :
  offline m -> (forall a, offline (k a)) -> offline (bind m k).
Proof. intros Hm Hk. apply offline_bind_val; [exact Hm | intros; apply Hk]. Qed.

Lemma offline_def (m : M unit) : offline m -> offline (def_ m).
Proof.
  intros Hm w r w' H. unfold def_ in H.
  destruct (m w) as [[a|e|] w1] eqn:E; injection H as _ <-; exact (Hm _ _ _ E).
Qed.

Lemma offline_when (c : bool) (m : M unit) : offline m -> offline (when c m).
Proof. intros Hm. destruct c; [exact Hm | apply offline_ret]. Qed.

Create HintDb offline.
#[export] Hint Resolve offline_ret offline_raise offline_return offline_lift
  offline_log offline_callback offline_when : offline.

(** Walks through a computation, as [quiet] does. *)
Ltac offline_step :=
  match goal with
  | |- offline (bind _ _) => apply offline_bind; [|intros ?]
  | |- offline (def_ _) => apply offline_def
  | |- offline (when _ _) => apply offline_when
  | |- offline (if ?c then _ else _) => destruct c
  | |- offline (match ?x with _ => _ end) => destruct x
  | |- offline (let '(_, _) := ?x in _) => destruct x
  | |- offline _ => solve [auto with offline]
  end.
Ltac offline := repeat offline_step.

Lemma offline_loads json_loads v : offline (loads json_loads v).
Proof. unfold loads. offline. Qed.
#[export] Hint Resolve offline_loads : offline.

(** X20.  A direct message without a ["mentions"] field is handled without
    the platform: whatever the handler does with it, it makes no platform
    call and leaves the cache of direct channels as it was. *)
Theorem direct_message_handled_offline
  (json_loads : string -> Exc pyval) (self : MattermostBackend)
  (message data : pyval) (w : World) (out : outcome unit) (w' : World) :
  Py.getitem message "data" = Ok data ->
  Py.getitem data "channel_type" = Ok (PStr "D") ->
  Py.contains "mentions" data = Ok false ->
  _message_event_handler json_loads self message w = (out, w') ->
  calls w' = calls w /\ direct_channels w' = direct_channels w.
Proof.
  intros Hdata Htype Hno. revert w out w'.
  change (offline (_message_event_handler json_loads self message)).
  unfold _message_event_handler, _message_event_handler_fields.
  apply offline_def. apply offline_bind_val.
  - apply offline_bind; [solve [offline] | intros _].
    apply offline_bind_val; [solve [offline]|].
    intros data' w0 w1 E. apply lift_val_inv in E. destruct E as [E _].
    rewrite Hdata in E. injection E as <-.
    do 8 (apply offline_bind; [solve [offline] | intros ?]).
    apply offline_bind; [solve [offline] | intros [[[text post_id] file_ids] userid]].
    do 3 (apply offline_bind; [solve [offline] | intros ?]).
    rewrite Hno. apply offline_bind_val; [solve [offline]|].
    intros has_mentions w2 w3 E. apply lift_val_inv in E. destruct E as [[= <-] _].
    offline.
  - intros l w0 w1 Hfields.
    destruct (fields_inv _ _ _ _ _ _ _ Hdata Hfields) as (Hct & _).
    rewrite Htype in Hct. injection Hct as Hct.
    unfold _message_event_handler_addressing. rewrite <- Hct. cbn [Py.eq_str].
    rewrite String.eqb_refl. offline.
Qed.

Lemma direct_message_handled_offline_witness :
  exists out w',
    _message_event_handler Json.loads Demo.bot direct_message Demo.start = (out, w')
    /\ calls w' = calls Demo.start
    /\ direct_channels w' = direct_channels Demo.start.
Proof.
  do 2 eexists. split; [vm_compute; reflexivity|].
  apply (direct_message_handled_offline Json.loads Demo.bot direct_message
           direct_data Demo.start (Val tt)).
  - reflexivity.
  - reflexivity.
  - reflexivity.
  - vm_compute. reflexivity.
Defined.

(** ** Replies to what the handler emits *)

(** A message among the callbacks of the message handler is the one built
    from the locals, or was there before. *)
Lemma emitted_message_is_built json_loads self message data w out w' msg :
  Py.getitem message "data" = Ok data ->
  _message_event_handler json_loads self message w = (out, w') ->
  In (CallbackMessage msg) (callbacks (trace w')) ->
  In (CallbackMessage msg) (callbacks (trace w))
  \/ exists l w1 f t,
       _message_event_handler_fields json_loads self message w = (Val l, w1)
       /\ msg = set_frm_to (l_msg l) f t
       /\ ((l_channel_type l = PStr "D"
            /\ f = IsPerson (MattermostPerson.init (l_userid l) (l_channelid l)
                               (PStr (teamid self))))
           \/ exists o,
                f = IsRoomOccupant o
                /\ MattermostRoomOccupant.person o
                   = MattermostPerson.init (l_userid l) (l_channelid l)
                       (PStr (teamid self))
                /\ MattermostRoom._id (MattermostRoomOccupant.room o) = l_channelid l
                /\ MattermostRoom._teamid (MattermostRoomOccupant.room o)
                   = PStr (teamid self)).
Proof.
  intros Hdata H Hin.
  destruct (message_handler_emits _ _ _ _ _ _ _ Hdata H)
    as [E | (l & w1 & f & t & Hfields & Hshape & Hf)].
  { left. now rewrite <- E. }
  assert (In (CallbackMessage msg) (callbacks (trace w))
          \/ msg = set_frm_to (l_msg l) f t) as [Hold | ->].
  { destruct Hshape as [E | [_ E]]; rewrite E in Hin;
      apply in_app_or in Hin; destruct Hin as [Hin | Hin]; auto;
      cbn in Hin; right.
    - destruct Hin as [[= <-] | []]. reflexivity.
    - destruct Hin as [[= <-] | [Hin | []]]; [reflexivity | discriminate Hin]. }
  { now left. }
  right. exists l, w1, f, t. split; [exact Hfields|]. split; [reflexivity | exact Hf].
Qed.

(** X21.  [is_from_self] accepts every message the handler emits: it never
    raises on one, and it says yes exactly when the sender id the handler
    resolved is the bot's own. *)
Theorem is_from_self_on_emitted
  (json_loads : string -> Exc pyval) (self : MattermostBackend)
  (message data : pyval) (w : World) (out : outcome unit) (w' : World)
  (msg : Message) :
  Py.getitem message "data" = Ok data ->
  _message_event_handler json_loads self message w = (out, w') ->
  In (CallbackMessage msg) (callbacks (trace w')) ->
  In (CallbackMessage msg) (callbacks (trace w))
  \/ exists user_id,
       resolved_sender json_loads data = Some user_id
       /\ is_from_self self msg = Ok (Py.eq_str user_id (bot_userid self)).
Proof.
  intros Hdata H Hin.
  destruct (emitted_message_is_built _ _ _ _ _ _ _ _ Hdata H Hin)
    as [Hold | (l & w1 & f & t & Hfields & -> & Hf)]; [now left|].
  right. exists (l_userid l).
  destruct (fields_inv _ _ _ _ _ _ _ Hdata Hfields) as (_ & Hres & _).
  split; [exact Hres|].
  unfold is_from_self. cbn [set_frm_to frm].
  destruct Hf as [[_ ->] | (o & -> & Hp & _)]; cbn [identifier_userid].
  - reflexivity.
  - now rewrite Hp.
Qed.

Lemma is_from_self_on_emitted_witness :
  exists w' msg,
    _message_event_handler Json.loads Demo.bot Demo.scenario_message Demo.start
    = (Val tt, w')
    /\ callbacks (trace w') = [CallbackMessage msg]
    /\ is_from_self Demo.bot msg = Ok false.
Proof.
  do 2 eexists. split; [vm_compute; reflexivity|]. split; [reflexivity|].
  edestruct (is_from_self_on_emitted Json.loads Demo.bot Demo.scenario_message
               scenario_data Demo.start)
    as [Hold | (user_id & Hres & Hself)].
  - reflexivity.
  - vm_compute. reflexivity.
  - left. reflexivity.
  - destruct Hold.
  - vm_compute in Hres. injection Hres as <-. exact Hself.
Defined.

(** Lines 276-293: a message that is fired is addressed by the channel
    type, from and to a Person for ["D"] and from a RoomOccupant of the
    channel otherwise. *)
Lemma addressing_emits_by_kind self l w out w' msg :
  _message_event_handler_addressing self l w = (out, w') ->
  In (CallbackMessage msg) (callbacks (trace w')) ->
  In (CallbackMessage msg) (callbacks (trace w))
  \/ (l_channel_type l = PStr "D"
      /\ frm msg = Some (IsPerson (MattermostPerson.init (l_userid l) (l_channelid l)
                                     (PStr (teamid self)))))
  \/ (l_channel_type l <> PStr "D"
      /\ exists o,
           frm msg = Some (IsRoomOccupant o)
           /\ MattermostRoomOccupant.person o
              = MattermostPerson.init (l_userid l) (l_channelid l) (PStr (teamid self))
           /\ MattermostRoom._id (MattermostRoomOccupant.room o) = l_channelid l
           /\ MattermostRoom._teamid (MattermostRoomOccupant.room o)
              = PStr (teamid self)).
Proof.
  assert (forall m mentions old new,
            new = (old ++ [CallbackMessage m])%list
            \/ (mentions <> []
                /\ new = (old ++ [CallbackMessage m; CallbackMention m mentions])%list) ->
            In (CallbackMessage msg) new ->
            In (CallbackMessage msg) old \/ msg = m) as Hin.
  { intros m mentions old new [-> | [_ ->]] H; apply in_app_or in H;
      destruct H as [H | H]; auto; cbn in H; right.
    - destruct H as [[= <-] | []]. reflexivity.
    - destruct H as [[= <-] | [H | []]]; [reflexivity | discriminate H]. }
  unfold _message_event_handler_addressing.
  destruct (Py.eq_str (l_channel_type l) "D") eqn:ED.
  { apply eq_str_true in ED. unfold bind at 1. cbn [ret]. intros H Hmsg.
    apply emit_shape in H. destruct H as [_ H].
    destruct (Hin _ _ _ _ H Hmsg) as [Hold | ->]; [now left|].
    right. left. split; [exact ED | reflexivity]. }
  assert (l_channel_type l <> PStr "D") as HnD.
  { intros H. apply eq_str_true in H. congruence. }
  destruct (Py.eq_str (l_channel_type l) "O" || Py.eq_str (l_channel_type l) "P").
  { unfold bind at 1, bind at 1.
    destruct (MattermostRoomOccupant_init _ _ _ _ w) as [[o| |] wa] eqn:Eo;
      pose proof (quiet_MattermostRoomOccupant_init _ _ _ _ _ _ _ Eo) as Qo.
    2,3: intros [= _ <-] Hmsg; left; now rewrite <- Qo.
    unfold bind at 1.
    destruct (MattermostRoom_init _ _ _ _ wa) as [[r| |] wb] eqn:Er;
      pose proof (quiet_MattermostRoom_init _ _ _ _ _ _ _ Er) as Qr.
    2,3: intros [= _ <-] Hmsg; left; now rewrite <- Qo, <- Qr.
    cbn [ret]. intros H Hmsg. apply emit_shape in H. destruct H as [_ H].
    rewrite Qr, Qo in H.
    destruct (Hin _ _ _ _ H Hmsg) as [Hold | ->]; [now left|].
    right. right. split; [exact HnD|]. exists o. split; [reflexivity|].
    exact (MattermostRoomOccupant_init_val _ _ _ _ _ _ _ Eo). }
  unfold bind, log, return_. intros [= _ <-] Hmsg. left.
  cbn in Hmsg. now rewrite callbacks_log in Hmsg.
Qed.

(** X22.  A reply built for a message the handler emitted comes from the
    bot and goes where the message came from, by the channel type of the
    event.  The reply to a direct message goes to the sender, a Person,
    private or not.  The reply to a channel message goes to the sender, a
    RoomOccupant, when it is private, and otherwise to the Room of the
    event's channel id in the bot's team. *)
Theorem build_reply_to_emitted
  (json_loads : string -> Exc pyval) (build_message : pyval -> Exc Message)
  (self : MattermostBackend) (message data : pyval) (w : World)
  (out : outcome unit) (w' : World) (msg response : Message)
  (text : pyval) (private : bool) :
  Py.getitem message "data" = Ok data ->
  _message_event_handler json_loads self message w = (out, w') ->
  In (CallbackMessage msg) (callbacks (trace w')) ->
  ~ In (CallbackMessage msg) (callbacks (trace w)) ->
  build_message text = Ok response ->
  exists reply channel_type user_id channelid,
    build_reply build_message self msg text private = Ok reply
    /\ body reply = body response
    /\ frm reply = Some (IsPerson (bot_identifier self))
    /\ Py.getitem data "channel_type" = Ok channel_type
    /\ resolved_sender json_loads data = Some user_id
    /\ event_channel_id message = Some channelid
    /\ (private = true -> to reply = frm msg)
    /\ (channel_type = PStr "D" ->
        to reply
        = Some (IsPerson (MattermostPerson.init user_id channelid
                            (PStr (teamid self)))))
    /\ (channel_type <> PStr "D" -> private = true ->
        exists o,
          to reply = Some (IsRoomOccupant o)
          /\ MattermostRoomOccupant.person o
             = MattermostPerson.init user_id channelid (PStr (teamid self)))
    /\ (channel_type <> PStr "D" -> private = false ->
        exists r,
          to reply = Some (IsRoom r)
          /\ MattermostRoom._id r = channelid
          /\ MattermostRoom._teamid r = PStr (teamid self)).
Proof.
  intros Hdata H Hin Hnew Hbuild.
  unfold _message_event_handler, def_, bind in H.
  destruct (_message_event_handler_fields json_loads self message w)
    as [[l|e|] w1] eqn:Hfields;
    pose proof (quiet_fields _ _ _ _ _ _ Hfields) as Q.
  2,3: injection H as _ <-; rewrite Q in Hin; contradiction.
  destruct (_message_event_handler_addressing self l w1) as [out1 w2] eqn:E.
  assert (w' = w2) as -> by (destruct out1; injection H as _ <-; reflexivity).
  destruct (fields_inv _ _ _ _ _ _ _ Hdata Hfields) as (Hct & Hres & _).
  destruct (fields_locals _ _ _ _ _ _ _ Hdata Hfields) as (Hchan & _).
  apply (addressing_emits_by_kind _ _ _ _ _ _ E) in Hin. rewrite Q in Hin.
  destruct Hin as [Hold | Hkind]; [contradiction|].
  unfold build_reply. rewrite Hbuild.
  eexists. exists (l_channel_type l), (l_userid l), (l_channelid l).
  split; [reflexivity|]. cbn [body frm to].
  split; [reflexivity|]. split; [reflexivity|]. split; [exact Hct|].
  split; [exact Hres|]. split; [exact Hchan|]. split; [now intros ->|].
  destruct Hkind as [[HD Hfrm] | [HnD (o & Hfrm & Hp & Hid & Hteam)]];
    rewrite Hfrm; (split; [|split]).
  - intros _. now destruct private.
  - intros Hc. contradiction.
  - intros Hc. contradiction.
  - intros Hc. contradiction.
  - intros _ ->. exists o. split; [reflexivity | exact Hp].
  - intros _ ->. eexists. split; [reflexivity|]. split; assumption.
Qed.

Lemma build_reply_to_emitted_witness :
  exists w1 msg1 reply1 r w2 msg2 reply2,
    _message_event_handler Json.loads Demo.bot Demo.scenario_message Demo.start
    = (Val tt, w1)
    /\ callbacks (trace w1) = [CallbackMessage msg1]
    /\ build_reply plain_message Demo.bot msg1 (PStr "ok") false = Ok reply1
    /\ to reply1 = Some (IsRoom r)
    /\ MattermostRoom._id r = PStr "C1"
    /\ _message_event_handler Json.loads Demo.bot direct_message Demo.start
       = (Val tt, w2)
    /\ callbacks (trace w2) = [CallbackMessage msg2]
    /\ build_reply plain_message Demo.bot msg2 (PStr "ok") false = Ok reply2
    /\ to reply2
       = Some (IsPerson (MattermostPerson.init (PStr "U1") (PStr "DM1") (PStr "T1"))).
Proof.
  edestruct (build_reply_to_emitted Json.loads plain_message Demo.bot
               Demo.scenario_message scenario_data Demo.start (Val tt))
    as (reply1 & ct1 & u1 & c1 & Hreply1 & _ & _ & Hct1 & _ & Hc1 & _ & _ & _ & Hroom).
  { reflexivity. }
  { vm_compute. reflexivity. }
  { left. reflexivity. }
  { intros []. }
  { reflexivity. }
  edestruct (build_reply_to_emitted Json.loads plain_message Demo.bot
               direct_message direct_data Demo.start (Val tt))
    as (reply2 & ct2 & u2 & c2 & Hreply2 & _ & _ & Hct2 & Hu2 & Hc2 & _ & Hperson & _).
  { reflexivity. }
  { vm_compute. reflexivity. }
  { left. reflexivity. }
  { intros []. }
  { reflexivity. }
  injection Hct1 as <-. injection Hc1 as <-.
  injection Hct2 as <-. injection Hc2 as <-.
  assert (resolved_sender Json.loads direct_data = Some (PStr "U1")) as Hu
    by (vm_compute; reflexivity).
  rewrite Hu in Hu2. injection Hu2 as <-.
  destruct (Hroom ltac:(discriminate) eq_refl) as (r & Hto & Hid & _).
  do 2 eexists. exists reply1, r. do 2 eexists. exists reply2.
  split; [reflexivity|]. split; [reflexivity|]. split; [exact Hreply1|].
  split; [exact Hto|]. split; [exact Hid|].
  split; [reflexivity|]. split; [reflexivity|]. split; [exact Hreply2|].
  exact (Hperson eq_refl).
Defined.

(** ** Room occupants *)

(** X23.  A RoomOccupant that is constructed is the Person it was made
    from together with the room of that channel and team; making it takes
    one platform call, the lookup of the channel, and the room is named as
    the platform names the channel. *)
Theorem MattermostRoomOccupant_init_room
  (self : MattermostBackend) (teamid_ userid_ channelid : pyval)
  (w : World) (o : MattermostRoomOccupant.t) (w' : World) :
  MattermostRoomOccupant_init teamid_ userid_ channelid (Some self) w = (Val o, w') ->
  MattermostRoomOccupant.person o = MattermostPerson.init userid_ channelid teamid_
  /\ MattermostRoom._id (MattermostRoomOccupant.room o) = channelid
  /\ MattermostRoom._teamid (MattermostRoomOccupant.room o) = teamid_
  /\ teamid_ <> PNone
  /\ calls w' = (calls w ++ [get_channel channelid])%list
  /\ exists channel,
       api self (calls w) (get_channel channelid) = Ok channel
       /\ Py.getitem channel "name"
          = Ok (MattermostRoom._name (MattermostRoomOccupant.room o)).
Proof.
  intros H.
  destruct (MattermostRoomOccupant_init_val _ _ _ _ _ _ _ H) as (Hp & Hid & Ht).
  split; [exact Hp|]. split; [exact Hid|]. split; [exact Ht|].
  unfold MattermostRoomOccupant_init, MattermostRoom_init in H.
  cbn [Py.is_none negb andb] in H. rewrite andb_false_r in H.
  destruct (Py.is_none teamid_) eqn:En; [discriminate H|].
  split; [now apply is_none_false|].
  apply bind_val_inv in H. destruct H as (r & w1 & Hr & H).
  apply ret_val_inv in H. destruct H as [-> ->]. cbn [MattermostRoomOccupant.room].
  apply bind_val_inv in Hr. destruct Hr as (name & w2 & Hname & Hr).
  apply ret_val_inv in Hr. destruct Hr as [-> ->]. cbn [MattermostRoom._name].
  unfold channelid_to_channelname, bind, call, lift, raise in Hname.
  destruct (api self (calls w) (get_channel channelid)) as [channel|e];
    [|discriminate Hname].
  destruct (Py.contains "name" channel) as [[|]|]; cbn in Hname;
    try discriminate Hname.
  destruct (Py.getitem channel "name") as [n|] eqn:En'; [|discriminate Hname].
  injection Hname as <- <-. split; [reflexivity|]. now exists channel.
Qed.

Lemma MattermostRoomOccupant_init_room_witness :
  exists o w',
    MattermostRoomOccupant_init (PStr "T1") (PStr "U1") (PStr "C1") (Some Demo.bot)
      Demo.start = (Val o, w')
    /\ MattermostRoom._id (MattermostRoomOccupant.room o) = PStr "C1"
    /\ calls w' = [get_channel (PStr "C1")].
Proof.
  do 2 eexists.
  edestruct (MattermostRoomOccupant_init_room Demo.bot (PStr "T1") (PStr "U1")
               (PStr "C1") Demo.start)
    as (_ & Hid & _ & _ & Hcalls & _).
  - vm_compute. reflexivity.
  - split; [reflexivity|]. split; [exact Hid | exact Hcalls].
Defined.

(** ** More on the chunker *)

Lemma append_assoc (s t u : string) : ((s ++ t) ++ u = s ++ t ++ u)%string.
Proof. induction s as [|c s IH]; simpl; [reflexivity | now rewrite IH]. Qed.

Lemma append_empty_r (s : string) : (s ++ "" = s)%string.
Proof. induction s as [|c s IH]; simpl; [reflexivity | now rewrite IH]. Qed.

Lemma close_fence_repaired (body chunk : string) :
  repaired body chunk (close_fence chunk).
Proof.
  unfold close_fence. destruct (Nat.eqb _ 0).
  - exists "", "". rewrite append_empty_r. split; [reflexivity|]. split; now left.
  - exists "", closing. split; [reflexivity|]. split; [now left | now right].
Qed.

Lemma fix_part_repaired (body chunk : string) :
  repaired body chunk (fix_part (Str.startswith body fence) chunk).
Proof.
  unfold fix_part.
  destruct (Str.startswith body fence) eqn:Eb; cbn [andb];
    [destruct (Str.startswith chunk fence) eqn:Ec; cbn [negb]|];
    try apply close_fence_repaired.
  unfold close_fence. destruct (Nat.eqb _ 0).
  - exists ("```" ++ nl)%string, "". rewrite append_empty_r.
    split; [now rewrite append_assoc|]. split; [right; auto | now left].
  - exists ("```" ++ nl)%string, closing.
    split; [now rewrite !append_assoc|]. split; [right; auto | now right].
Qed.

Lemma startswith_close_fence (part : string) :
  Str.startswith (close_fence part) fence = Str.startswith part fence.
Proof.
  unfold close_fence. destruct (Nat.eqb _ 0); [reflexivity|].
  apply startswith_closing.
Qed.

Lemma fix_part_starts_block (chunk : string) :
  Str.startswith (fix_part true chunk) fence = true.
Proof.
  unfold fix_part. rewrite startswith_close_fence. cbn [andb].
  destruct (Str.startswith chunk fence) eqn:Ec; cbn [negb]; [exact Ec|].
  reflexivity.
Qed.

Lemma Forall2_In_r {A B} (R : A -> B -> Prop) (l : list A) (l' : list B) (b : B) :
  Forall2 R l l' -> In b l' -> exists a, In a l /\ R a b.
Proof.
  induction 1 as [|x y l l' HR _ IH]; intros Hin; [destruct Hin|].
  destruct Hin as [<- | Hin].
  - exists x. split; [now left | exact HR].
  - destruct (IH Hin) as (a & Ha & HRa). exists a. split; [now right | exact HRa].
Qed.

(** X24.  The chunker loses nothing and reorders nothing: it returns one
    part for each chunk of the splitter, in order, and a part is its chunk
    with at most the opening marker before it and the closing marker after
    it.  The opening marker is only put before a chunk that does not start
    with the marker, of a body that does. *)
Theorem prepare_message_body_keeps_text
  (split_string_after : string -> Z -> Exc (list string))
  (body : string) (limit : Z) (chunks : list string) :
  split_string_after body limit = Ok chunks ->
  exists parts,
    prepare_message_body split_string_after body limit = Ok parts
    /\ List.length parts = List.length chunks
    /\ Forall2 (repaired body) chunks parts.
Proof.
  intros E.
  destruct (prepare_message_body_parts _ body limit chunks E) as (parts & Eparts & H2).
  exists parts. split; [exact Eparts|].
  split; [symmetry; eapply Forall2_length; exact H2|].
  clear E Eparts. induction H2 as [|c p chunks parts [-> | ->] _ IH];
    constructor; auto using close_fence_repaired, fix_part_repaired.
Qed.

Lemma prepare_message_body_keeps_text_witness :
  exists parts,
    prepare_message_body Errbot.split_string_after "```abcdef" 5 = Ok parts
    /\ List.length parts = 2
    /\ Forall2 (repaired "```abcdef") ["```ab"; "cdef"] parts.
Proof.
  apply (prepare_message_body_keeps_text Errbot.split_string_after
           "```abcdef" 5 ["```ab"; "cdef"]).
  reflexivity.
Defined.

(** X25.  A body that starts a fixed block and is cut into several chunks
    continues the block in every part: each part returned starts with the
    marker. *)
Theorem prepare_message_body_continues_block
  (split_string_after : string -> Z -> Exc (list string))
  (body : string) (limit : Z) (chunks : list string) :
  split_string_after body limit = Ok chunks ->
  Str.startswith body fence = true ->
  List.length chunks <> 1 ->
  exists parts,
    prepare_message_body split_string_after body limit = Ok parts
    /\ Forall (fun part => Str.startswith part fence = true) parts.
Proof.
  intros E Hb Hlen. unfold prepare_message_body. rewrite E, Hb.
  assert (forall l, Forall (fun part => Str.startswith part fence = true)
                      (map (fix_part true) l)) as Hall.
  { induction l; simpl; constructor; [apply fix_part_starts_block | assumption]. }
  destruct chunks as [|c0 [|c1 chunks]]; [| now contradiction Hlen |];
    eexists; (split; [reflexivity | apply Hall]).
Qed.

Lemma prepare_message_body_continues_block_witness :
  exists parts,
    prepare_message_body Errbot.split_string_after "```abcdef" 5 = Ok parts
    /\ Forall (fun part => Str.startswith part fence = true) parts.
Proof.
  apply (prepare_message_body_continues_block Errbot.split_string_after
           "```abcdef" 5 ["```ab"; "cdef"]).
  - reflexivity.
  - reflexivity.
  - discriminate.
Defined.

(** X26.  Preparing is stable: a part that [prepare_message_body] returned
    and that the splitter leaves in one piece is returned unchanged when it
    is prepared again. *)
Theorem prepare_message_body_stable
  (split_string_after : string -> Z -> Exc (list string))
  (body : string) (limit limit' : Z) (parts : list string) (part : string) :
  prepare_message_body split_string_after body limit = Ok parts ->
  In part parts ->
  split_string_after part limit' = Ok [part] ->
  prepare_message_body split_string_after part limit' = Ok [part].
Proof.
  intros Eparts Hin Eone.
  assert (Str.count part fence mod 2 = 0) as Heven.
  { unfold prepare_message_body in Eparts.
    destruct (split_string_after body limit) as [chunks|e]; [|discriminate].
    destruct (prepare_message_body_parts (fun _ _ => Ok chunks) body limit chunks
                eq_refl) as (parts' & Eparts' & H2).
    unfold prepare_message_body in Eparts'. rewrite Eparts in Eparts'.
    injection Eparts' as <-.
    destruct (Forall2_In_r _ _ _ _ H2 Hin) as (c & _ & [-> | ->]);
      [apply close_fence_even | apply fix_part_even]. }
  unfold prepare_message_body. rewrite Eone.
  now rewrite (close_fence_balanced _ Heven).
Qed.

Lemma prepare_message_body_stable_witness :
  prepare_message_body Errbot.split_string_after
    ("```ab" ++ closing) 20 = Ok ["```ab" ++ closing].
Proof.
  apply (prepare_message_body_stable Errbot.split_string_after
           "```abcdef" 5 20 ["```ab" ++ closing; "```" ++ nl ++ "cdef" ++ closing]).
  - reflexivity.
  - left. reflexivity.
  - reflexivity.
Defined.

(** ** Rooms and channels *)

(** X27.  [query_room] resolves nothing: for any text it returns, without
    a platform call, a room of the bot's team whose name is the text less
    one leading tilde and whose id is unset, also when the text is a
    channel id. *)
Theorem query_room_resolves_nothing (self : MattermostBackend) (room : string)
  (w : World) :
  exists r,
    query_room self (PStr room) w = (Val r, w)
    /\ MattermostRoom._name r
       = PStr (if Str.startswith room "~" then Py.tail room else room)
    /\ MattermostRoom._id r = PNone
    /\ MattermostRoom._teamid r = PStr (teamid self).
Proof.
  unfold query_room, MattermostRoom_init. cbn [Py.is_none negb andb].
  destruct (Str.startswith room "~"); eexists; (split; [reflexivity|]);
    repeat split.
Qed.

Section PublicChannelsFacts.

Variable driver_get_public_channels : string -> nat -> nat -> Exc pyval.
Variable self : MattermostBackend.

Lemma loop_full_page fuel channels page items :
  page_holds driver_get_public_channels self page items -> items <> [] ->
  get_public_channels_loop driver_get_public_channels (S fuel) self channels page
  = get_public_channels_loop driver_get_public_channels fuel self
      (channels ++ items)%list (S page).
Proof.
  intros (v & Ev & Ei) Hne. cbn [get_public_channels_loop].
  rewrite Ev. unfold py_len. rewrite Ei.
  destruct items as [|x items]; [contradiction|]. reflexivity.
Qed.

Lemma loop_collects (pages : nat -> list pyval) k :
  forall fuel channels page,
    (forall j, j < k -> page_holds driver_get_public_channels self (page + j)
                          (pages (page + j))
                        /\ pages (page + j) <> []) ->
    get_public_channels_loop driver_get_public_channels (k + fuel) self channels page
    = get_public_channels_loop driver_get_public_channels fuel self
        (channels ++ concat (map pages (seq page k)))%list (page + k).
Proof.
  induction k as [|k IH]; intros fuel channels page Hfull.
  - cbn. now rewrite app_nil_r, Nat.add_0_r.
  - destruct (Hfull 0 ltac:(lia)) as [H0 Hne]. rewrite Nat.add_0_r in H0, Hne.
    change (S k + fuel) with (S (k + fuel)).
    rewrite (loop_full_page _ _ _ _ H0 Hne).
    rewrite IH.
    + cbn [seq map concat]. rewrite app_assoc. f_equal. lia.
    + intros j Hj. replace (S page + j) with (page + S j) by lia.
      apply Hfull. lia.
Qed.

End PublicChannelsFacts.

(** X28.  When the platform answers pages [0] to [k - 1] with channels and
    page [k] with none, [get_public_channels] ends after [k + 1] requests
    and returns the channels of those pages in order; no later page is
    asked for. *)
Theorem get_public_channels_collects
  (driver_get_public_channels : string -> nat -> nat -> Exc pyval)
  (self : MattermostBackend) (pages : nat -> list pyval) (k fuel : nat) :
  (forall j, j < k ->
     page_holds driver_get_public_channels self j (pages j) /\ pages j <> []) ->
  page_holds driver_get_public_channels self k [] ->
  k < fuel ->
  get_public_channels driver_get_public_channels fuel self
  = Some (Ok (concat (map pages (seq 0 k)))).
Proof.
  intros Hfull (v & Ev & Ei) Hfuel. unfold get_public_channels.
  replace fuel with (k + S (fuel - S k)) by lia.
  rewrite (loop_collects _ _ pages k); [|exact Hfull].
  cbn [get_public_channels_loop Nat.add app]. rewrite Ev. unfold py_len.
  rewrite Ei. reflexivity.
Qed.

Lemma get_public_channels_collects_witness :
  get_public_channels two_pages 3 Demo.bot
  = Some (Ok [PStr "town-square"; PStr "off-topic"; PStr "dev"]).
Proof.
  apply (get_public_channels_collects two_pages Demo.bot
           (fun j => match j with
                     | 0 => [PStr "town-square"; PStr "off-topic"]
                     | _ => [PStr "dev"]
                     end) 2 3).
  - intros [|[|j]] Hj; [| |lia];
      (split; [eexists; split; reflexivity | discriminate]).
  - eexists. split; reflexivity.
  - lia.
Defined.

(** X29.  [get_public_channels] only stops at an empty page: when every
    page the platform answers holds a channel, the loop is still running
    after any number of requests.  A page shorter than the page size does
    not end it. *)
Theorem get_public_channels_needs_empty_page
  (driver_get_public_channels : string -> nat -> nat -> Exc pyval)
  (self : MattermostBackend) (fuel : nat) :
  (forall page, exists items,
     page_holds driver_get_public_channels self page items /\ items <> []) ->
  get_public_channels driver_get_public_channels fuel self = None.
Proof.
  intros Hfull. unfold get_public_channels. generalize (@nil pyval) 0.
  induction fuel as [|fuel IH]; intros channels page; [reflexivity|].
  destruct (Hfull page) as (items & Hp & Hne).
  rewrite (loop_full_page _ _ _ _ _ _ Hp Hne). apply IH.
Qed.

Lemma get_public_channels_needs_empty_page_witness :
  get_public_channels endless_pages 1000 Demo.bot = None.
Proof.
  apply (get_public_channels_needs_empty_page endless_pages Demo.bot 1000).
  intros page. exists [PStr "town-square"].
  split; [eexists; split; reflexivity | discriminate].
Defined.

(** X30.  A request that fails ends [get_public_channels] with the
    exception of the platform: the channels of the pages read before it are
    not returned. *)
Theorem get_public_channels_failure
  (driver_get_public_channels : string -> nat -> nat -> Exc pyval)
  (self : MattermostBackend) (pages : nat -> list pyval) (k fuel : nat)
  (e : exn) :
  (forall j, j < k ->
     page_holds driver_get_public_channels self j (pages j) /\ pages j <> []) ->
  driver_get_public_channels (teamid self) k channel_page_limit = Raise e ->
  k < fuel ->
  get_public_channels driver_get_public_channels fuel self = Some (Raise e).
Proof.
  intros Hfull Ek Hfuel. unfold get_public_channels.
  replace fuel with (k + S (fuel - S k)) by lia.
  rewrite (loop_collects _ _ pages k); [|exact Hfull].
  cbn [get_public_channels_loop Nat.add]. now rewrite Ek.
Qed.

Lemma get_public_channels_failure_witness :
  get_public_channels failing_second_page 2 Demo.bot
  = Some (Raise NotEnoughPermissions).
Proof.
  apply (get_public_channels_failure failing_second_page Demo.bot
           (fun _ => [PStr "town-square"]) 1 2).
  - intros [|j] Hj; [|lia].
    split; [eexists; split; reflexivity | discriminate].
  - reflexivity.
  - lia.
Defined.
